(** * The on-chain event bridge (uttc-hack-back-onchain), embedded in Rocq

  The repository holds several snapshots of the same Go packages.  The
  embedding follows the most capable snapshot of each function:

  - [usecase/contract]: the listener with the reconnect loop
    ([startRealtimeListener], [handleEvent], [notifyBackend]);
  - [gateway/contract]: the gateway with the polling fallback and the
    address guard ([SubscribeEvents], [pollEvents], [ScanPastEvents],
    [parseLog] and the five [parseXxx], [GetItem], [VerifyTransaction]);
  - [gateway/payment]: [CheckPaymentStatus];
  - [model]: [ContractEvent], [TxVerification], [OrderStatus].

  Library code the repository calls (go-ethereum's ABI codec, hex
  renderings, the node's RPC answers, the backend's HTTP answers) is
  taken as data: records of functions and lists of observed answers. *)

From Stdlib Require Import ZArith Lia Bool Ascii String Sorted.
From Stdlib Require Import DecimalString DecimalPos DecimalZ.
From stdpp Require Import base option list gmap strings.

Local Open Scope string_scope.
Local Open Scope Z_scope.

(** ** Go's fixed-width integers and [math/big] *)

Module Go.

Definition two64 : Z := 2 ^ 64.
Definition two63 : Z := 2 ^ 63.

(** The type invariant of a [uint64] value. *)
Definition is_uint64 (x : Z) : Prop := 0 <= x < two64.

(** [uint64] arithmetic wraps around. *)
Definition wrap_uint64 (x : Z) : Z := x mod two64.
Definition uint64_add (a b : Z) : Z := wrap_uint64 (a + b).
Definition uint64_sub (a b : Z) : Z := wrap_uint64 (a - b).

(** [int64] arithmetic wraps around into [-2^63, 2^63). *)
Definition wrap_int64 (x : Z) : Z := (x + two63) mod two64 - two63.

(** The conversion [int64(x)] of a [uint64] keeps the 64 bits and reads
    them as a two's-complement number. *)
Definition int64_of_uint64 (x : Z) : Z := wrap_int64 x.

(** [big.Int.Uint64()]: the low 64 bits of the magnitude. *)
Definition big_Uint64 (x : Z) : Z := Z.abs x mod two64.

(** [big.Int.String()]: the decimal numeral, and ["<nil>"] for a nil
    pointer. *)
Definition big_String (x : option Z) : string :=
  match x with
  | None => "<nil>"
  | Some z => NilZero.string_of_int (Z.to_int z)
  end.

(** [big.Int.Cmp] as a three-way result. *)
Definition big_Cmp (a b : Z) : Z :=
  match a ?= b with Lt => -1 | Eq => 0 | Gt => 1 end.

End Go.

(** ** go-ethereum: [common], [core/types], [accounts/abi] *)

Module common.

(** A 32-byte hash and a 20-byte address, as the integers they spell. *)
Definition Hash := Z.
Definition Address := Z.

(** The hexadecimal renderings and parsers of the package. *)
Record Codec := {
  HashHex : Hash -> string;
  AddressHex : Address -> string;
  HexToHash : string -> Hash;
  HexToAddress : string -> Address
}.

End common.

Module types.

(** [types.Log], the fields the gateway reads. *)
Record Log := {
  Address : common.Address;
  Topics : list common.Hash;
  Data : list Z;
  TxHash : common.Hash;
  BlockNumber : Z
}.

Definition ReceiptStatusSuccessful : Z := 1.

(** [types.Receipt], the fields the gateway reads. *)
Record Receipt := {
  Status : Z;
  ReceiptBlockNumber : Z;
  GasUsed : Z
}.

(** [types.Transaction]: [Value()] and [To()] ([None] for nil). *)
Record Transaction := {
  Value : Z;
  To : option common.Address
}.

End types.

Module abi.

(** A value of [map[string]interface{}] filled by [UnpackIntoMap]. *)
Inductive value :=
| VString (s : string)
| VBigInt (z : Z)
| VBool (b : bool)
| VAddress (a : common.Address).

(** [abi.ABI]: the event ids by name, and the codec's three entry points
    the gateway calls.  [Pack] receives the method name and the big
    integer argument. *)
Record ABI := {
  Events : gmap string common.Hash;
  UnpackIntoMap : string -> list Z -> option (gmap string value);
  Pack : string -> Z -> option (list Z)
}.

(** [a.Events[name].ID]: Go's map lookup gives the zero [Event], whose
    id is the zero hash, for a missing name. *)
Definition EventID (a : ABI) (name : string) : common.Hash :=
  default 0 (Events a !! name).

(** The type assertions [data[k].(string)] and [data[k].(big.Int)]. *)
Definition as_string (data : gmap string value) (k : string) : option string :=
  match data !! k with Some (VString s) => Some s | _ => None end.
Definition as_bigInt (data : gmap string value) (k : string) : option Z :=
  match data !! k with Some (VBigInt z) => Some z | _ => None end.

(** [math.U256]: how the codec writes a big integer into a 32-byte word. *)
Definition U256 (z : Z) : Z := z mod 2 ^ 256.

End abi.

(** ** [model]: the domain records *)

Module model.

(** [EventType] is a string type with five named constants. *)
Definition EventType := string.
Definition EventItemListed : EventType := "ItemListed".
Definition EventItemPurchased : EventType := "ItemPurchased".
Definition EventItemUpdated : EventType := "ItemUpdated".
Definition EventItemCancelled : EventType := "ItemCancelled".
Definition EventReceiptConfirmed : EventType := "ReceiptConfirmed".

(** [ContractEvent].  [Price] is a [*big.Int]: [None] is the nil pointer
    a freshly built event holds. *)
Record ContractEvent := {
  Type_ : EventType;
  TxHash : string;
  BlockNo : Z;
  ItemId : Z;
  TokenId : Z;
  Title : string;
  Price : option Z;
  Explanation : string;
  ImageUrl : string;
  Uid : string;
  Category : string;
  Seller : string;
  Buyer : string;
  BuyerUid : string;
  CreatedAt : Z;
  UpdatedAt : Z
}.

(** The composite literal [&model.ContractEvent{Type: t, TxHash: h,
    BlockNo: b}]: every other field holds its zero value. *)
Definition newEvent (t : EventType) (h : string) (b : Z) : ContractEvent :=
  {| Type_ := t; TxHash := h; BlockNo := b; ItemId := 0; TokenId := 0;
     Title := ""; Price := None; Explanation := ""; ImageUrl := "";
     Uid := ""; Category := ""; Seller := ""; Buyer := ""; BuyerUid := "";
     CreatedAt := 0; UpdatedAt := 0 |}.

(** Field assignments [event.F = v]. *)
Definition set_ItemId (v : Z) (e : ContractEvent) : ContractEvent :=
  {| Type_ := Type_ e; TxHash := TxHash e; BlockNo := BlockNo e; ItemId := v;
     TokenId := TokenId e; Title := Title e; Price := Price e;
     Explanation := Explanation e; ImageUrl := ImageUrl e; Uid := Uid e;
     Category := Category e; Seller := Seller e; Buyer := Buyer e;
     BuyerUid := BuyerUid e; CreatedAt := CreatedAt e; UpdatedAt := UpdatedAt e |}.
Definition set_TokenId (v : Z) (e : ContractEvent) : ContractEvent :=
  {| Type_ := Type_ e; TxHash := TxHash e; BlockNo := BlockNo e; ItemId := ItemId e;
     TokenId := v; Title := Title e; Price := Price e;
     Explanation := Explanation e; ImageUrl := ImageUrl e; Uid := Uid e;
     Category := Category e; Seller := Seller e; Buyer := Buyer e;
     BuyerUid := BuyerUid e; CreatedAt := CreatedAt e; UpdatedAt := UpdatedAt e |}.
Definition set_Title (v : string) (e : ContractEvent) : ContractEvent :=
  {| Type_ := Type_ e; TxHash := TxHash e; BlockNo := BlockNo e; ItemId := ItemId e;
     TokenId := TokenId e; Title := v; Price := Price e;
     Explanation := Explanation e; ImageUrl := ImageUrl e; Uid := Uid e;
     Category := Category e; Seller := Seller e; Buyer := Buyer e;
     BuyerUid := BuyerUid e; CreatedAt := CreatedAt e; UpdatedAt := UpdatedAt e |}.
Definition set_Price (v : Z) (e : ContractEvent) : ContractEvent :=
  {| Type_ := Type_ e; TxHash := TxHash e; BlockNo := BlockNo e; ItemId := ItemId e;
     TokenId := TokenId e; Title := Title e; Price := Some v;
     Explanation := Explanation e; ImageUrl := ImageUrl e; Uid := Uid e;
     Category := Category e; Seller := Seller e; Buyer := Buyer e;
     BuyerUid := BuyerUid e; CreatedAt := CreatedAt e; UpdatedAt := UpdatedAt e |}.
Definition set_Explanation (v : string) (e : ContractEvent) : ContractEvent :=
  {| Type_ := Type_ e; TxHash := TxHash e; BlockNo := BlockNo e; ItemId := ItemId e;
     TokenId := TokenId e; Title := Title e; Price := Price e;
     Explanation := v; ImageUrl := ImageUrl e; Uid := Uid e;
     Category := Category e; Seller := Seller e; Buyer := Buyer e;
     BuyerUid := BuyerUid e; CreatedAt := CreatedAt e; UpdatedAt := UpdatedAt e |}.
Definition set_ImageUrl (v : string) (e : ContractEvent) : ContractEvent :=
  {| Type_ := Type_ e; TxHash := TxHash e; BlockNo := BlockNo e; ItemId := ItemId e;
     TokenId := TokenId e; Title := Title e; Price := Price e;
     Explanation := Explanation e; ImageUrl := v; Uid := Uid e;
     Category := Category e; Seller := Seller e; Buyer := Buyer e;
     BuyerUid := BuyerUid e; CreatedAt := CreatedAt e; UpdatedAt := UpdatedAt e |}.
Definition set_Uid (v : string) (e : ContractEvent) : ContractEvent :=
  {| Type_ := Type_ e; TxHash := TxHash e; BlockNo := BlockNo e; ItemId := ItemId e;
     TokenId := TokenId e; Title := Title e; Price := Price e;
     Explanation := Explanation e; ImageUrl := ImageUrl e; Uid := v;
     Category := Category e; Seller := Seller e; Buyer := Buyer e;
     BuyerUid := BuyerUid e; CreatedAt := CreatedAt e; UpdatedAt := UpdatedAt e |}.
Definition set_Category (v : string) (e : ContractEvent) : ContractEvent :=
  {| Type_ := Type_ e; TxHash := TxHash e; BlockNo := BlockNo e; ItemId := ItemId e;
     TokenId := TokenId e; Title := Title e; Price := Price e;
     Explanation := Explanation e; ImageUrl := ImageUrl e; Uid := Uid e;
     Category := v; Seller := Seller e; Buyer := Buyer e;
     BuyerUid := BuyerUid e; CreatedAt := CreatedAt e; UpdatedAt := UpdatedAt e |}.
Definition set_Seller (v : string) (e : ContractEvent) : ContractEvent :=
  {| Type_ := Type_ e; TxHash := TxHash e; BlockNo := BlockNo e; ItemId := ItemId e;
     TokenId := TokenId e; Title := Title e; Price := Price e;
     Explanation := Explanation e; ImageUrl := ImageUrl e; Uid := Uid e;
     Category := Category e; Seller := v; Buyer := Buyer e;
     BuyerUid := BuyerUid e; CreatedAt := CreatedAt e; UpdatedAt := UpdatedAt e |}.
Definition set_Buyer (v : string) (e : ContractEvent) : ContractEvent :=
  {| Type_ := Type_ e; TxHash := TxHash e; BlockNo := BlockNo e; ItemId := ItemId e;
     TokenId := TokenId e; Title := Title e; Price := Price e;
     Explanation := Explanation e; ImageUrl := ImageUrl e; Uid := Uid e;
     Category := Category e; Seller := Seller e; Buyer := v;
     BuyerUid := BuyerUid e; CreatedAt := CreatedAt e; UpdatedAt := UpdatedAt e |}.
Definition set_CreatedAt (v : Z) (e : ContractEvent) : ContractEvent :=
  {| Type_ := Type_ e; TxHash := TxHash e; BlockNo := BlockNo e; ItemId := ItemId e;
     TokenId := TokenId e; Title := Title e; Price := Price e;
     Explanation := Explanation e; ImageUrl := ImageUrl e; Uid := Uid e;
     Category := Category e; Seller := Seller e; Buyer := Buyer e;
     BuyerUid := BuyerUid e; CreatedAt := v; UpdatedAt := UpdatedAt e |}.
Definition set_UpdatedAt (v : Z) (e : ContractEvent) : ContractEvent :=
  {| Type_ := Type_ e; TxHash := TxHash e; BlockNo := BlockNo e; ItemId := ItemId e;
     TokenId := TokenId e; Title := Title e; Price := Price e;
     Explanation := Explanation e; ImageUrl := ImageUrl e; Uid := Uid e;
     Category := Category e; Seller := Seller e; Buyer := Buyer e;
     BuyerUid := BuyerUid e; CreatedAt := CreatedAt e; UpdatedAt := v |}.

(** [if v, ok := data[k].(T); ok { event.F = v }]: assign when the
    assertion holds, leave the field alone otherwise. *)
Definition assign_if {A} (o : option A) (set : A -> ContractEvent -> ContractEvent)
    (e : ContractEvent) : ContractEvent :=
  match o with Some v => set v e | None => e end.

(** [TxVerification]. *)
Record TxVerification := {
  VTxHash : string;
  VStatus : string;
  VBlockNumber : Z;
  VGasUsed : Z;
  Success : bool;
  IsContractCall : bool
}.

(** [OrderStatus]. *)
Definition OrderStatus := string.
Definition StatusPending : OrderStatus := "PENDING".
Definition StatusPaid : OrderStatus := "PAID".
Definition StatusError : OrderStatus := "PAYMENT_ERROR".

End model.

(** ** [ethclient]: the node, as the answers it gives *)

Module ethclient.

(** [ethereum.FilterQuery] and [ethereum.CallMsg], the fields set here. *)
Record FilterQuery := {
  Addresses : list common.Address;
  FromBlock : Z;
  ToBlock : Z
}.

Record CallMsg := {
  MsgTo : common.Address;
  MsgData : list Z
}.

(** What the node answers to the calls of [ethclient.Client]; [None] is
    a returned error.  [HeaderByNumber] is the latest header's [Number];
    [TransactionByHash] gives the transaction and [isPending]. *)
Record Client := {
  HeaderByNumber : option Z;
  FilterLogs : FilterQuery -> option (list types.Log);
  TransactionByHash : common.Hash -> option (types.Transaction * bool);
  TransactionReceipt : common.Hash -> option types.Receipt;
  CallContract : CallMsg -> option (list Z)
}.

(** The calls a function made on the node, in order. *)
Inductive RPC :=
| CallHeaderByNumber
| CallFilterLogs (q : FilterQuery)
| CallTransactionByHash (h : common.Hash)
| CallTransactionReceipt (h : common.Hash)
| CallCallContract (m : CallMsg).

(** A Go result pair [(value, error)] with exactly one side set. *)
Inductive result (A : Type) :=
| Ok (a : A)
| Err (msg : string).
Arguments Ok {A} a.
Arguments Err {A} msg.

End ethclient.

(** ** [gateway/contract]: the marketplace gateway *)

Module contract.
Import ethclient.

Record FrimaContractGateway := {
  client : Client;
  contractAddress : common.Address;
  contractABI : abi.ABI
}.

Section Gateway.

Variable hex : common.Codec.

(** [new(big.Int).SetBytes(t.Bytes()).Uint64()] on a topic. *)
Definition topicUint64 (t : common.Hash) : Z := Go.big_Uint64 t.

(** [common.HexToAddress(t.Hex()).Hex()] on a topic. *)
Definition topicAddress (t : common.Hash) : string :=
  common.AddressHex hex (common.HexToAddress hex (common.HashHex hex t)).

Definition parseItemListed (g : FrimaContractGateway) (vLog : types.Log)
  : model.ContractEvent :=
  let event := model.newEvent model.EventItemListed
                 (common.HashHex hex (types.TxHash vLog)) (types.BlockNumber vLog) in
  (* indexed: itemId, tokenId, seller -- if len(vLog.Topics) >= 4 *)
  let event :=
    match types.Topics vLog with
    | _ :: t1 :: t2 :: t3 :: _ =>
        model.set_Seller (topicAddress t3)
          (model.set_TokenId (topicUint64 t2)
            (model.set_ItemId (topicUint64 t1) event))
    | _ => event
    end in
  match abi.UnpackIntoMap (contractABI g) "ItemListed" (types.Data vLog) with
  | None => event
  | Some data =>
      let event := model.assign_if (abi.as_string data "title") model.set_Title event in
      let event := model.assign_if (abi.as_bigInt data "price") model.set_Price event in
      let event := model.assign_if (abi.as_string data "explanation") model.set_Explanation event in
      let event := model.assign_if (abi.as_string data "imageUrl") model.set_ImageUrl event in
      let event := model.assign_if (abi.as_string data "uid") model.set_Uid event in
      let event := model.assign_if (Go.big_Uint64 <$> abi.as_bigInt data "createdAt")
                     model.set_CreatedAt event in
      model.assign_if (abi.as_string data "category") model.set_Category event
  end.

Definition parseItemPurchased (g : FrimaContractGateway) (vLog : types.Log)
  : model.ContractEvent :=
  let event := model.newEvent model.EventItemPurchased
                 (common.HashHex hex (types.TxHash vLog)) (types.BlockNumber vLog) in
  (* indexed: itemId, buyer -- if len(vLog.Topics) >= 3 *)
  let event :=
    match types.Topics vLog with
    | _ :: t1 :: t2 :: _ =>
        model.set_Buyer (topicAddress t2) (model.set_ItemId (topicUint64 t1) event)
    | _ => event
    end in
  match abi.UnpackIntoMap (contractABI g) "ItemPurchased" (types.Data vLog) with
  | None => event
  | Some data =>
      let event := model.assign_if (abi.as_bigInt data "price") model.set_Price event in
      model.assign_if (Go.big_Uint64 <$> abi.as_bigInt data "tokenId") model.set_TokenId event
  end.

Definition parseItemUpdated (g : FrimaContractGateway) (vLog : types.Log)
  : model.ContractEvent :=
  let event := model.newEvent model.EventItemUpdated
                 (common.HashHex hex (types.TxHash vLog)) (types.BlockNumber vLog) in
  (* indexed: itemId -- if len(vLog.Topics) >= 2 *)
  let event :=
    match types.Topics vLog with
    | _ :: t1 :: _ => model.set_ItemId (topicUint64 t1) event
    | _ => event
    end in
  match abi.UnpackIntoMap (contractABI g) "ItemUpdated" (types.Data vLog) with
  | None => event
  | Some data =>
      let event := model.assign_if (abi.as_string data "title") model.set_Title event in
      let event := model.assign_if (abi.as_bigInt data "price") model.set_Price event in
      let event := model.assign_if (abi.as_string data "explanation") model.set_Explanation event in
      let event := model.assign_if (abi.as_string data "imageUrl") model.set_ImageUrl event in
      let event := model.assign_if (abi.as_string data "category") model.set_Category event in
      model.assign_if (Go.big_Uint64 <$> abi.as_bigInt data "updatedAt")
        model.set_UpdatedAt event
  end.

Definition parseItemCancelled (g : FrimaContractGateway) (vLog : types.Log)
  : model.ContractEvent :=
  let event := model.newEvent model.EventItemCancelled
                 (common.HashHex hex (types.TxHash vLog)) (types.BlockNumber vLog) in
  (* indexed: itemId, seller -- if len(vLog.Topics) >= 3 *)
  match types.Topics vLog with
  | _ :: t1 :: t2 :: _ =>
      model.set_Seller (topicAddress t2) (model.set_ItemId (topicUint64 t1) event)
  | _ => event
  end.

Definition parseReceiptConfirmed (g : FrimaContractGateway) (vLog : types.Log)
  : model.ContractEvent :=
  let event := model.newEvent model.EventReceiptConfirmed
                 (common.HashHex hex (types.TxHash vLog)) (types.BlockNumber vLog) in
  (* indexed: itemId, buyer, seller -- if len(vLog.Topics) >= 4 *)
  let event :=
    match types.Topics vLog with
    | _ :: t1 :: t2 :: t3 :: _ =>
        model.set_Seller (topicAddress t3)
          (model.set_Buyer (topicAddress t2)
            (model.set_ItemId (topicUint64 t1) event))
    | _ => event
    end in
  match abi.UnpackIntoMap (contractABI g) "ReceiptConfirmed" (types.Data vLog) with
  | None => event
  | Some data => model.assign_if (abi.as_bigInt data "price") model.set_Price event
  end.

(** [parseLog]: [None] is the nil pointer.  The signatures are compared
    through [Hash.Hex()], which is one-to-one on hashes, so the hashes
    themselves are compared; the [switch] takes the first matching case. *)
Definition parseLog (g : FrimaContractGateway) (vLog : types.Log)
  : option model.ContractEvent :=
  match types.Topics vLog with
  | [] => None
  | eventSig :: _ =>
      if negb (types.Address vLog =? contractAddress g) then None
      else
        let itemListedSig := abi.EventID (contractABI g) "ItemListed" in
        let itemPurchasedSig := abi.EventID (contractABI g) "ItemPurchased" in
        let itemUpdatedSig := abi.EventID (contractABI g) "ItemUpdated" in
        let itemCancelledSig := abi.EventID (contractABI g) "ItemCancelled" in
        let receiptConfirmedSig := abi.EventID (contractABI g) "ReceiptConfirmed" in
        if eventSig =? itemListedSig then Some (parseItemListed g vLog)
        else if eventSig =? itemPurchasedSig then Some (parseItemPurchased g vLog)
        else if eventSig =? itemUpdatedSig then Some (parseItemUpdated g vLog)
        else if eventSig =? itemCancelledSig then Some (parseItemCancelled g vLog)
        else if eventSig =? receiptConfirmedSig then Some (parseReceiptConfirmed g vLog)
        else None
  end.

(** The loop over the fetched logs shared by [ScanPastEvents] and
    [pollEvents]: skip a log of another address, skip a log [parseLog]
    rejects, keep the other events in order. *)
Definition decodeLogs (g : FrimaContractGateway) (logs : list types.Log)
  : list model.ContractEvent :=
  omap (fun vLog =>
          if negb (types.Address vLog =? contractAddress g) then None
          else parseLog g vLog) logs.

(** [ScanPastEvents]: the query sent (if the header was read), the events
    pushed on the channel before it is closed, and the calls made.
    [toBlock] is a [*uint64]: [None] is nil. *)
Record Scan := {
  scanQuery : option FilterQuery;
  scanEvents : list model.ContractEvent;
  scanCalls : list RPC
}.

Definition ScanPastEvents (g : FrimaContractGateway) (fromBlock : Z)
    (toBlock : option Z) : Scan :=
  match HeaderByNumber (client g) with
  | None =>
      {| scanQuery := None; scanEvents := []; scanCalls := [CallHeaderByNumber] |}
  | Some number =>
      let currentBlock := Go.big_Uint64 number in
      let actualFromBlock :=
        if fromBlock =? 0 then
          if currentBlock >? 10000 then Go.uint64_sub currentBlock 10000
          else fromBlock
        else fromBlock in
      let actualToBlock :=
        match toBlock with Some t => t | None => currentBlock end in
      let query := {| Addresses := [contractAddress g];
                      FromBlock := actualFromBlock;
                      ToBlock := actualToBlock |} in
      let calls := [CallHeaderByNumber; CallFilterLogs query] in
      match FilterLogs (client g) query with
      | None => {| scanQuery := Some query; scanEvents := []; scanCalls := calls |}
      | Some logs =>
          {| scanQuery := Some query; scanEvents := decodeLogs g logs;
             scanCalls := calls |}
      end
  end.

(** *** The polling fallback *)

(** One wake-up of the [select] in [pollEvents]: the context is done, or
    the ticker fired and the node answered [header] to [HeaderByNumber]
    and [logs] to [FilterLogs]; [doneAt = Some k] says that the context
    is done when the loop tries to send its event number [k] (from 0). *)
Inductive PollWake :=
| CtxDone
| TickerFired (header : option Z) (logs : FilterQuery -> option (list types.Log))
              (doneAt : option nat).

(** What the polling goroutine did, in order. *)
Inductive PollAction :=
| Fetched (q : FilterQuery) (answered : bool)
| Sent (e : model.ContractEvent)
| ClosedChannel.

(** The inner [select] that sends each event or returns on [ctx.Done()];
    the flag says whether every event was sent. *)
Fixpoint sendEvents (events : list model.ContractEvent) (doneAt : option nat)
  : list PollAction * bool :=
  match events with
  | [] => ([], true)
  | e :: rest =>
      match doneAt with
      | Some O => ([], false)
      | _ =>
          let '(acts, completed) := sendEvents rest (Nat.pred <$> doneAt) in
          (Sent e :: acts, completed)
      end
  end.

(** One pass through the loop body from the cursor [lastProcessedBlock]:
    the actions, and the new cursor, or [None] when the function returns. *)
Definition pollStep (g : FrimaContractGateway) (lastProcessedBlock : Z)
    (w : PollWake) : list PollAction * option Z :=
  match w with
  | CtxDone => ([], None)
  | TickerFired None _ _ => ([ClosedChannel], None)
  | TickerFired (Some number) logsAnswer doneAt =>
      let currentBlock := Go.big_Uint64 number in
      if currentBlock <=? lastProcessedBlock then ([], Some lastProcessedBlock)
      else
        let query := {| Addresses := [contractAddress g];
                        FromBlock := Go.uint64_add lastProcessedBlock 1;
                        ToBlock := currentBlock |} in
        match logsAnswer query with
        | None => ([Fetched query false], Some currentBlock)
        | Some logs =>
            let '(acts, completed) := sendEvents (decodeLogs g logs) doneAt in
            (Fetched query true :: acts,
             if completed then Some currentBlock else None)
        end
  end.

(** [pollEvents] over the wake-ups the goroutine lives through: the
    actions, and the cursor after each completed pass. *)
Fixpoint pollLoop (g : FrimaContractGateway) (lastProcessedBlock : Z)
    (wakes : list PollWake) : list PollAction * list Z :=
  match wakes with
  | [] => ([], [])
  | w :: rest =>
      match pollStep g lastProcessedBlock w with
      | (acts, None) => (acts, [])
      | (acts, Some next) =>
          let '(acts', cursors) := pollLoop g next rest in
          ((acts ++ acts')%list, next :: cursors)
      end
  end.

Definition pollEvents (g : FrimaContractGateway) (startBlock : Z)
    (wakes : list PollWake) : list PollAction * list Z :=
  pollLoop g startBlock wakes.

(** *** Reading an item *)

(** [GetItem] up to the answer of the contract call: the argument handed
    to [Pack] is [big.NewInt(int64(itemId))].  The code then decodes the
    returned bytes field by field into a [ContractItem]. *)
Definition GetItem (g : FrimaContractGateway) (itemId : Z)
  : result (list Z) * list RPC :=
  match abi.Pack (contractABI g) "getItem" (Go.int64_of_uint64 itemId) with
  | None => (Err "pack failed", [])
  | Some data =>
      let msg := {| MsgTo := contractAddress g; MsgData := data |} in
      match CallContract (client g) msg with
      | None => (Err "call failed", [CallCallContract msg])
      | Some res => (Ok res, [CallCallContract msg])
      end
  end.

(** *** Verifying a transaction *)

Definition VerifyTransaction (g : FrimaContractGateway) (txHash : string)
  : result model.TxVerification * list RPC :=
  let txHashObj := common.HexToHash hex txHash in
  if Go.big_Cmp txHashObj 0 =? 0 then
    (Err "invalid transaction hash format", [])
  else
    match TransactionByHash (client g) txHashObj with
    | None => (Err "transaction not found", [CallTransactionByHash txHashObj])
    | Some (tx, isPending) =>
        if isPending then
          (Ok {| model.VTxHash := txHash; model.VStatus := "pending";
                 model.VBlockNumber := 0; model.VGasUsed := 0;
                 model.Success := false; model.IsContractCall := false |},
           [CallTransactionByHash txHashObj])
        else
          let calls := [CallTransactionByHash txHashObj;
                        CallTransactionReceipt txHashObj] in
          match TransactionReceipt (client g) txHashObj with
          | None => (Err "failed to get transaction receipt", calls)
          | Some receipt =>
              let successful :=
                types.Status receipt =? types.ReceiptStatusSuccessful in
              (Ok {| model.VTxHash := txHash;
                     model.VStatus := if successful then "success" else "failed";
                     model.VBlockNumber :=
                       Go.big_Uint64 (types.ReceiptBlockNumber receipt);
                     model.VGasUsed := types.GasUsed receipt;
                     model.Success := successful;
                     model.IsContractCall :=
                       match types.To tx with
                       | Some to => to =? contractAddress g
                       | None => false
                       end |},
               calls)
          end
    end.

End Gateway.

End contract.

(** ** [gateway/payment]: confirming a payment *)

Module payment.
Import ethclient.

Record EthGateway := {
  client : Client;
  appCollectWallet : common.Address;
  backendBaseURL : string
}.

(** [CheckPaymentStatus] returns the Go pair [(status, err)]; [None] is
    the nil error. *)
Definition CheckPaymentStatus (hex : common.Codec) (g : EthGateway)
    (txHash : string) (expectedAddr : string) (expectedWei : Z)
  : (model.OrderStatus * option string) * list RPC :=
  (* 1. the hash *)
  let txHashObj := common.HexToHash hex txHash in
  if Go.big_Cmp txHashObj 0 =? 0 then
    ((model.StatusError, Some "invalid transaction hash format"), [])
  else
    let expectedAddrObj := common.HexToAddress hex expectedAddr in
    (* 2. the transaction exists and is mined *)
    match TransactionByHash (client g) txHashObj with
    | None =>
        ((model.StatusError, Some "transaction not found or node error"),
         [CallTransactionByHash txHashObj])
    | Some (tx, isPending) =>
        if isPending then
          ((model.StatusPending, Some "transaction is still pending"),
           [CallTransactionByHash txHashObj])
        else
          let calls := [CallTransactionByHash txHashObj;
                        CallTransactionReceipt txHashObj] in
          (* 3. the receipt *)
          match TransactionReceipt (client g) txHashObj with
          | None =>
              ((model.StatusError, Some "failed to get transaction receipt"), calls)
          | Some receipt =>
              if negb (types.Status receipt =? types.ReceiptStatusSuccessful) then
                ((model.StatusError, Some "transaction failed on chain (reverted)"),
                 calls)
              (* 4. the value *)
              else if Go.big_Cmp (types.Value tx) expectedWei <? 0 then
                ((model.StatusError, Some "insufficient payment amount"), calls)
              else
                (* 5. the recipient *)
                match types.To tx with
                | None =>
                    ((model.StatusError,
                      Some "transaction is not a transfer to a valid address"),
                     calls)
                | Some to =>
                    if negb (to =? expectedAddrObj) then
                      ((model.StatusError,
                        Some "transaction sent to wrong recipient address"),
                       calls)
                    else ((model.StatusPaid, None), calls)
                end
          end
    end.

End payment.

(** ** [usecase/contract]: the listener and the notifier *)

Module usecase.

(** [time.Second], in nanoseconds, the unit of [time.Duration]. *)
Definition Second : Z := 1000000000.

(** The values stored in the payload maps: Go strings and [uint64]s.
    [encoding/json] writes the first as a JSON string and the second as a
    JSON number. *)
Inductive json :=
| JString (s : string)
| JUint64 (n : Z).

(** What the backend answers to one [client.Post]: a transport error, or
    a status code with the first bytes of the body. *)
Inductive Response :=
| TransportError
| HTTPResponse (StatusCode : Z) (bodyStr : string).

(** The error of one pass ([lastErr]), and the error [notifyBackend]
    returns. *)
Inductive AttemptError :=
| SendFailed
| BackendStatus (StatusCode : Z) (bodyStr : string).

Inductive NotifyError :=
| MarshalFailed
| Rejected (lastErr : AttemptError)
| FailedAfterRetries (retries : Z) (lastErr : option AttemptError).

(** What [notifyBackend] does, in order. *)
Inductive Effect :=
| Sleep (d : Z)
| Post (url : string) (jsonData : string).

Record contractUsecase := {
  gateway : contract.FrimaContractGateway;
  backendBaseURL : string
}.

Section Usecase.

(** [json.Marshal] on a payload map. *)
Variable marshal : gmap string json -> option string.

(** The body of [for i := 0; i < maxRetries; i++] in [notifyBackend],
    with [remaining = maxRetries - i] passes left; [backend i] is the
    answer to the POST of pass [i]. *)
Fixpoint notifyLoop (backend : nat -> Response) (url jsonData : string)
    (maxRetries : Z) (remaining : nat) (i : nat) (lastErr : option AttemptError)
  : option NotifyError * list Effect :=
  match remaining with
  | O => (Some (FailedAfterRetries maxRetries lastErr), [])
  | S remaining' =>
      let waits := if 0 <? Z.of_nat i then [Sleep (Z.of_nat i * Second)] else [] in
      let sent := (waits ++ [Post url jsonData])%list in
      match backend i with
      | TransportError =>
          let '(err, effects) :=
            notifyLoop backend url jsonData maxRetries remaining' (S i) (Some SendFailed) in
          (err, (sent ++ effects)%list)
      | HTTPResponse StatusCode bodyStr =>
          if (200 <=? StatusCode) && (StatusCode <? 300) then (None, sent)
          else
            let lastErr := BackendStatus StatusCode bodyStr in
            if (400 <=? StatusCode) && (StatusCode <? 500) then (Some (Rejected lastErr), sent)
            else
              let '(err, effects) :=
                notifyLoop backend url jsonData maxRetries remaining' (S i) (Some lastErr) in
              (err, (sent ++ effects)%list)
      end
  end.

Definition notifyBackend (uc : contractUsecase) (endpoint : string)
    (payload : gmap string json) (backend : nat -> Response)
  : option NotifyError * list Effect :=
  let url := backendBaseURL uc +:+ endpoint in
  match marshal payload with
  | None => (Some MarshalFailed, [])
  | Some jsonData =>
      let maxRetries := 3 in
      notifyLoop backend url jsonData maxRetries (Z.to_nat maxRetries) 0 None
  end.

(** The [switch event.Type] of [handleEvent]: the endpoint and the
    payload, or [None] in the [default] case. *)
Definition eventRoute (event : model.ContractEvent)
  : option (string * gmap string json) :=
  let t := model.Type_ event in
  if String.eqb t model.EventItemListed then
    Some ("/api/v1/blockchain/item-listed",
          <["chain_item_id" := JUint64 (model.ItemId event)]>
          (<["token_id" := JUint64 (model.TokenId event)]>
          (<["title" := JString (model.Title event)]>
          (<["price_wei" := JString (Go.big_String (model.Price event))]>
          (<["explanation" := JString (model.Explanation event)]>
          (<["image_url" := JString (model.ImageUrl event)]>
          (<["uid" := JString (model.Uid event)]>
          (<["category" := JString (model.Category event)]>
          (<["seller" := JString (model.Seller event)]>
          (<["created_at" := JUint64 (model.CreatedAt event)]>
          (<["tx_hash" := JString (model.TxHash event)]> ∅)))))))))))
  else if String.eqb t model.EventItemPurchased then
    Some ("/api/v1/blockchain/item-purchased",
          <["chain_item_id" := JUint64 (model.ItemId event)]>
          (<["buyer" := JString (model.Buyer event)]>
          (<["price_wei" := JString (Go.big_String (model.Price event))]>
          (<["token_id" := JUint64 (model.TokenId event)]>
          (<["tx_hash" := JString (model.TxHash event)]> ∅)))))
  else if String.eqb t model.EventItemUpdated then
    Some ("/api/v1/blockchain/item-updated",
          <["chain_item_id" := JUint64 (model.ItemId event)]>
          (<["title" := JString (model.Title event)]>
          (<["price_wei" := JString (Go.big_String (model.Price event))]>
          (<["explanation" := JString (model.Explanation event)]>
          (<["image_url" := JString (model.ImageUrl event)]>
          (<["category" := JString (model.Category event)]>
          (<["updated_at" := JUint64 (model.UpdatedAt event)]>
          (<["tx_hash" := JString (model.TxHash event)]> ∅))))))))
  else if String.eqb t model.EventItemCancelled then
    Some ("/api/v1/blockchain/item-cancelled",
          <["chain_item_id" := JUint64 (model.ItemId event)]>
          (<["seller" := JString (model.Seller event)]>
          (<["tx_hash" := JString (model.TxHash event)]> ∅)))
  else if String.eqb t model.EventReceiptConfirmed then
    Some ("/api/v1/blockchain/receipt-confirmed",
          <["chain_item_id" := JUint64 (model.ItemId event)]>
          (<["buyer" := JString (model.Buyer event)]>
          (<["seller" := JString (model.Seller event)]>
          (<["price_wei" := JString (Go.big_String (model.Price event))]>
          (<["tx_hash" := JString (model.TxHash event)]> ∅)))))
  else None.

(** [handleEvent]: route the event, notify the backend; the error is
    logged and dropped.  The [default] case returns without a request. *)
Definition handleEvent (uc : contractUsecase) (event : model.ContractEvent)
    (backend : nat -> Response) : list Effect :=
  match eventRoute event with
  | None => []
  | Some (endpoint, payload) => snd (notifyBackend uc endpoint payload backend)
  end.

End Usecase.

(** *** The reconnect loop *)

Definition min (a b : Z) : Z := if a <? b then a else b.

(** One turn of the [for] loop of [startRealtimeListener]: the context is
    done at the top; or [SubscribeEvents] fails; or it succeeds and the
    channel delivers [events] and is closed (the flag says whether the
    context is done during the wait that follows a failure or a closed
    channel); or it succeeds and the channel, having delivered [events],
    is still open when the observation ends. *)
Inductive Round :=
| Cancelled
| SubscribeFailed (doneWhileWaiting : bool)
| Subscribed (events : list model.ContractEvent) (doneWhileWaiting : bool)
| Listening (events : list model.ContractEvent).

(** What the listener does, in order. *)
Inductive ListenerEffect :=
| Subscribe
| Handle (e : model.ContractEvent)
| Wait (d : Z).

Definition floorDelay : Z := 5 * Second.
Definition maxRetryDelay : Z := 60 * Second.

(** The next value of [retryDelay]: [min(retryDelay*2, maxRetryDelay)],
    the product taken in [int64]. *)
Definition nextDelay (retryDelay : Z) : Z :=
  min (Go.wrap_int64 (retryDelay * 2)) maxRetryDelay.

(** The loop entered with [retryDelay]: what the listener does over the
    given rounds, and the value of [retryDelay] when they are over. *)
Fixpoint realtimeLoop (rounds : list Round) (retryDelay : Z)
  : list ListenerEffect * Z :=
  match rounds with
  | [] => ([], retryDelay)
  | Cancelled :: _ => ([], retryDelay)
  | SubscribeFailed doneWhileWaiting :: rest =>
      if doneWhileWaiting then ([Subscribe], retryDelay)
      else
        let '(effects, final) := realtimeLoop rest (nextDelay retryDelay) in
        (Subscribe :: Wait retryDelay :: effects, final)
  | Subscribed events doneWhileWaiting :: rest =>
      let retryDelay := 5 * Second in
      if doneWhileWaiting then ((Subscribe :: map Handle events)%list, retryDelay)
      else
        let '(effects, final) := realtimeLoop rest (nextDelay retryDelay) in
        ((Subscribe :: map Handle events ++ Wait retryDelay :: effects)%list, final)
  | Listening events :: _ =>
      let retryDelay := 5 * Second in
      ((Subscribe :: map Handle events)%list, retryDelay)
  end.

Definition startRealtimeListener (rounds : list Round) : list ListenerEffect * Z :=
  let retryDelay := 5 * Second in
  realtimeLoop rounds retryDelay.

(** [StartEventListener]: the past events of the scan [(0, nil)] are
    handled in the order of the channel, then the realtime loop starts. *)
Definition StartEventListener (hex : common.Codec) (uc : contractUsecase)
    (rounds : list Round) : list ListenerEffect :=
  (map Handle (contract.scanEvents (contract.ScanPastEvents hex (gateway uc) 0 None))
   ++ fst (startRealtimeListener rounds))%list.

End usecase.

(** ** Worked inputs

    A codec, an ABI, a node and a gateway on which the statements below
    are evaluated.  The codec writes plain lower-case hexadecimal (the
    library adds the EIP-55 capitals to an address); the event ids are
    five distinct stand-ins for the Keccak ids of the five declarations;
    the payload codec reads the first word as the price. *)

Module sample.

Definition hexDigit (n : Z) : ascii :=
  if n <? 10 then ascii_of_nat (Z.to_nat (48 + n))
  else ascii_of_nat (Z.to_nat (87 + n)).

Fixpoint hexOf (digits : nat) (z : Z) (acc : string) : string :=
  match digits with
  | O => acc
  | S d => hexOf d (z / 16) (String (hexDigit (z mod 16)) acc)
  end.

Definition digitOf (c : ascii) : option Z :=
  let n := Z.of_nat (nat_of_ascii c) in
  if (48 <=? n) && (n <=? 57) then Some (n - 48)
  else if (97 <=? n) && (n <=? 102) then Some (n - 87)
  else if (65 <=? n) && (n <=? 70) then Some (n - 55)
  else None.

Fixpoint parseHex (s : string) (acc : Z) : Z :=
  match s with
  | EmptyString => acc
  | String c s' =>
      match digitOf c with
      | Some d => parseHex s' (16 * acc + d)
      | None => acc
      end
  end.

Definition stripPrefix (s : string) : string :=
  match s with
  | String "0" (String "x" r) => r
  | String "0" (String "X" r) => r
  | _ => s
  end.

Definition codec : common.Codec :=
  {| common.HashHex := fun h => "0x" +:+ hexOf 64 h "";
     common.AddressHex := fun a => "0x" +:+ hexOf 40 a "";
     common.HexToHash := fun s => parseHex (stripPrefix s) 0 mod 2 ^ 256;
     common.HexToAddress := fun s => parseHex (stripPrefix s) 0 mod 2 ^ 160 |}.

Definition ABI : abi.ABI :=
  {| abi.Events :=
       <["ItemListed" := 17]> (<["ItemPurchased" := 18]> (<["ItemUpdated" := 19]>
       (<["ItemCancelled" := 20]> (<["ReceiptConfirmed" := 21]> ∅))));
     abi.UnpackIntoMap := fun _ data =>
       match data with
       | [] => None
       | w :: _ => Some (<["price" := abi.VBigInt w]> ∅)
       end;
     abi.Pack := fun _ z => Some [abi.U256 z] |}.

Definition marketplace : common.Address := 2748.

(** A node at block 25000 that knows a pending transaction (hash 1), a
    reverted one (hash 2) and three successful transfers of 10^15 wei
    (hash 3, to address 2748), of 10 wei (hash 4, to address 2748) and of
    10^15 wei (hash 5, creating a contract). *)
Definition node : ethclient.Client :=
  {| ethclient.HeaderByNumber := Some 25000;
     ethclient.FilterLogs := fun _ => Some [];
     ethclient.TransactionByHash := fun h =>
       if h =? 1 then Some ({| types.Value := 0; types.To := Some marketplace |}, true)
       else if h =? 2 then Some ({| types.Value := 0; types.To := Some marketplace |}, false)
       else if h =? 3 then
         Some ({| types.Value := 10 ^ 15; types.To := Some marketplace |}, false)
       else if h =? 4 then
         Some ({| types.Value := 10; types.To := Some marketplace |}, false)
       else if h =? 5 then
         Some ({| types.Value := 10 ^ 15; types.To := None |}, false)
       else None;
     ethclient.TransactionReceipt := fun h =>
       if h =? 2 then
         Some {| types.Status := 0; types.ReceiptBlockNumber := 24990;
                 types.GasUsed := 21000 |}
       else if (3 <=? h) && (h <=? 5) then
         Some {| types.Status := 1; types.ReceiptBlockNumber := 24991;
                 types.GasUsed := 21000 |}
       else None;
     ethclient.CallContract := fun _ => Some [] |}.

Definition gateway : contract.FrimaContractGateway :=
  {| contract.client := node;
     contract.contractAddress := marketplace;
     contract.contractABI := ABI |}.

Definition collector : payment.EthGateway :=
  {| payment.client := node;
     payment.appCollectWallet := marketplace;
     payment.backendBaseURL := "https://backend.example" |}.

(** A usecase, a marshaller that writes the number of fields, and three
    backends: one down twice and then answering 200, one that always
    answers 404, one that always answers 503. *)
Definition uc : usecase.contractUsecase :=
  {| usecase.gateway := gateway;
     usecase.backendBaseURL := "https://backend.example" |}.

Definition marshal (payload : gmap string usecase.json) : option string :=
  Some (NilZero.string_of_int (Z.to_int (Z.of_nat (size payload)))).

Definition recovering (i : nat) : usecase.Response :=
  if (i <? 2)%nat then usecase.TransportError else usecase.HTTPResponse 200 "ok".

Definition notFound (i : nat) : usecase.Response := usecase.HTTPResponse 404 "not found".

Definition unavailable (i : nat) : usecase.Response := usecase.HTTPResponse 503 "busy".

(** The listing of item 7 (token 3) at 10^15 wei. *)
Definition listed : model.ContractEvent :=
  model.set_Title "Widget"
    (model.set_Price (10 ^ 15)
      (model.set_TokenId 3
        (model.set_ItemId 7 (model.newEvent model.EventItemListed "0xab" 24000)))).

(** An [ItemCancelled] log of the marketplace that carries its signature
    and nothing else. *)
Definition shortCancelledLog : types.Log :=
  {| types.Address := marketplace; types.Topics := [20]; types.Data := [];
     types.TxHash := 171; types.BlockNumber := 24000 |}.

(** The log of the listing of item 7, token 3, by seller 0xabc, at
    10^15 wei. *)
Definition listedLog : types.Log :=
  {| types.Address := marketplace; types.Topics := [17; 7; 3; 2748];
     types.Data := [10 ^ 15]; types.TxHash := 174; types.BlockNumber := 24002 |}.

(** A well-formed [ItemCancelled] log of the marketplace, in block 115. *)
Definition cancelledLog : types.Log :=
  {| types.Address := marketplace; types.Topics := [20; 7; 4660]; types.Data := [];
     types.TxHash := 173; types.BlockNumber := 115 |}.

(** Five wake-ups of the polling loop: the head is 105 and nothing is
    logged; the head is still 105; the head is 110 and [FilterLogs]
    fails; the head is 120 and one log is fetched; the context is done. *)
Definition wakes : list contract.PollWake :=
  [contract.TickerFired (Some 105) (fun _ => Some []) None;
   contract.TickerFired (Some 105) (fun _ => Some []) None;
   contract.TickerFired (Some 110) (fun _ => None) None;
   contract.TickerFired (Some 120) (fun _ => Some [cancelledLog]) None;
   contract.CtxDone].

(** A well-formed [ItemCancelled] log emitted by another contract. *)
Definition foreignLog : types.Log :=
  {| types.Address := 3000; types.Topics := [20; 7; 4660]; types.Data := [];
     types.TxHash := 172; types.BlockNumber := 24001 |}.

(** The same gateway on a chain that is 500 blocks long. *)
Definition youngGateway : contract.FrimaContractGateway :=
  {| contract.client :=
       {| ethclient.HeaderByNumber := Some 500;
          ethclient.FilterLogs := fun _ => Some [listedLog; foreignLog];
          ethclient.TransactionByHash := fun _ => None;
          ethclient.TransactionReceipt := fun _ => None;
          ethclient.CallContract := fun _ => None |};
     contract.contractAddress := marketplace;
     contract.contractABI := ABI |}.

End sample.

(** ** The event schema

    The five event names, and for each the number of topics its log
    carries: the signature and the indexed inputs of its declaration in
    [FrimaMarketplaceABI], which is also the bound each [parseXxx] tests
    before it reads the topics. *)

Module schema.

Definition knownEvents : list string :=
  ["ItemListed"; "ItemPurchased"; "ItemUpdated"; "ItemCancelled"; "ReceiptConfirmed"].

Definition requiredTopics (name : string) : nat :=
  if String.eqb name "ItemListed" then 4
  else if String.eqb name "ItemPurchased" then 3
  else if String.eqb name "ItemUpdated" then 2
  else if String.eqb name "ItemCancelled" then 3
  else if String.eqb name "ReceiptConfirmed" then 4
  else 0.

(** The path segment each kind is posted to, under the API prefix, and
    the fields of its payload. *)
Definition apiPrefix : string := "/api/v1/blockchain/".

Definition downstreamPath (kind : string) : string :=
  if String.eqb kind "ItemListed" then "item-listed"
  else if String.eqb kind "ItemPurchased" then "item-purchased"
  else if String.eqb kind "ItemUpdated" then "item-updated"
  else if String.eqb kind "ItemCancelled" then "item-cancelled"
  else if String.eqb kind "ReceiptConfirmed" then "receipt-confirmed"
  else "".

Definition relevantFields (kind : string) : gset string :=
  if String.eqb kind "ItemListed" then
    list_to_set ["chain_item_id"; "token_id"; "title"; "price_wei"; "explanation";
                 "image_url"; "uid"; "category"; "seller"; "created_at"; "tx_hash"]
  else if String.eqb kind "ItemPurchased" then
    list_to_set ["chain_item_id"; "buyer"; "price_wei"; "token_id"; "tx_hash"]
  else if String.eqb kind "ItemUpdated" then
    list_to_set ["chain_item_id"; "title"; "price_wei"; "explanation"; "image_url";
                 "category"; "updated_at"; "tx_hash"]
  else if String.eqb kind "ItemCancelled" then
    list_to_set ["chain_item_id"; "seller"; "tx_hash"]
  else if String.eqb kind "ReceiptConfirmed" then
    list_to_set ["chain_item_id"; "buyer"; "seller"; "price_wei"; "tx_hash"]
  else ∅.

(** The classes of backend answers the retry policy speaks of. *)
Definition succeeded (r : usecase.Response) : bool :=
  match r with
  | usecase.HTTPResponse c _ => (200 <=? c) && (c <? 300)
  | usecase.TransportError => false
  end.

Definition rejected (r : usecase.Response) : bool :=
  match r with
  | usecase.HTTPResponse c _ => (400 <=? c) && (c <? 500)
  | usecase.TransportError => false
  end.

Definition serverErrorOrTransport (r : usecase.Response) : bool :=
  match r with
  | usecase.HTTPResponse c _ => (500 <=? c) && (c <? 600)
  | usecase.TransportError => true
  end.

(** The number of HTTP requests among the effects. *)
Fixpoint attempts (effects : list usecase.Effect) : nat :=
  match effects with
  | [] => 0
  | usecase.Post _ _ :: rest => S (attempts rest)
  | usecase.Sleep _ :: rest => attempts rest
  end.

(** A history of the reconnect loop during which the context is never
    done. *)
Definition undisturbed (r : usecase.Round) : bool :=
  match r with
  | usecase.Cancelled => false
  | usecase.SubscribeFailed done => negb done
  | usecase.Subscribed _ done => negb done
  | usecase.Listening _ => false
  end.

(** The backoff the specification asks for: [n] failed attempts, the one
    numbered [k] followed by a wait of [min(floor * 2^k, ceiling)]. *)
Fixpoint backoffRetries (k n : nat) : list usecase.ListenerEffect :=
  match n with
  | O => []
  | S n' =>
      usecase.Subscribe ::
      usecase.Wait (Z.min (usecase.floorDelay * 2 ^ Z.of_nat k) usecase.maxRetryDelay) ::
      backoffRetries (S k) n'
  end.

(** The block ranges the polling loop asked the node for, in order. *)
Fixpoint fetchedRanges (acts : list contract.PollAction) : list (Z * Z) :=
  match acts with
  | [] => []
  | contract.Fetched q _ :: rest =>
      (ethclient.FromBlock q, ethclient.ToBlock q) :: fetchedRanges rest
  | _ :: rest => fetchedRanges rest
  end.

End schema.

(** ** [gateway/contract]: the live subscription *)

Module live.
Import ethclient.

(** The calls [SubscribeEvents] makes on the node before it returns. *)
Inductive Call :=
| HealthCheck
| SubscribeFilterLogs (addresses : list common.Address).

(** How the returned channel is fed: by [pollEvents] started at a block,
    or by the goroutine that reads the subscription. *)
Inductive Mode :=
| Polling (startBlock : Z)
| WebSocket.

(** [SubscribeEvents] up to its [return]; [subscribes] says whether the
    node accepts [SubscribeFilterLogs] for the address list. *)
Definition SubscribeEvents (g : contract.FrimaContractGateway)
    (subscribes : list common.Address -> bool) : result Mode * list Call :=
  match HeaderByNumber (contract.client g) with
  | None => (Err "connection test failed (connection may be lost)", [HealthCheck])
  | Some number =>
      let addresses := [contract.contractAddress g] in
      let calls := [HealthCheck; SubscribeFilterLogs addresses] in
      if subscribes addresses then (Ok WebSocket, calls)
      else (Ok (Polling (Go.big_Uint64 number)), calls)
  end.

(** One wake-up of the [select] in the subscription goroutine: the
    context is done; the subscription reports an error; the log channel
    is closed; or a log arrives, and [doneOnSend] says whether the
    context is done when the goroutine tries to send its event. *)
Inductive Wake :=
| CtxDone
| SubscriptionError
| LogsClosed
| LogReceived (vLog : types.Log) (doneOnSend : bool).

(** What the goroutine does, in order; the deferred function
    unsubscribes and closes the channel on every [return]. *)
Inductive Action :=
| Delivered (e : model.ContractEvent)
| Unsubscribed
| ChannelClosed.

Fixpoint subscriptionLoop (hex : common.Codec) (g : contract.FrimaContractGateway)
    (wakes : list Wake) : list Action :=
  match wakes with
  | [] => []
  | CtxDone :: _ => [Unsubscribed; ChannelClosed]
  | SubscriptionError :: _ => [Unsubscribed; ChannelClosed]
  | LogsClosed :: _ => [Unsubscribed; ChannelClosed]
  | LogReceived vLog doneOnSend :: rest =>
      if negb (types.Address vLog =? contract.contractAddress g) then
        subscriptionLoop hex g rest
      else
        match contract.parseLog hex g vLog with
        | None => subscriptionLoop hex g rest
        | Some event =>
            if doneOnSend then [Unsubscribed; ChannelClosed]
            else Delivered event :: subscriptionLoop hex g rest
        end
  end.

End live.

(** ** [gateway/payment] and [usecase/payment]: orders *)

Module order.
Import ethclient.

(** [model.PaymentOrder]; [CreatedAt] is [None] for the zero time. *)
Record PaymentOrder := {
  OrderID : string;
  ProductID : string;
  ProductName : string;
  PriceYen : Z;
  AmountETH : string;
  AmountWei : string;
  PaymentAddr : string;
  BuyerWallet : string;
  Status : model.OrderStatus;
  TxHash : string;
  CreatedAt : option Z
}.

(** What the backend answers to the GET of [GetProductPrice]: the
    request fails, or it returns a status code and a body that decodes
    to an item with a price, or does not decode. *)
Inductive ProductAnswer :=
| GetFailed
| GetAnswered (StatusCode : Z) (price : option Z).

(** [DemoPaymentAmount]: 1 * 1e15 wei. *)
Definition DemoPaymentAmount : Z := 1 * 10 ^ 15.

Definition GetRequiredAmount (g : payment.EthGateway) : Z := DemoPaymentAmount.

Definition GetPaymentAddress (hex : common.Codec) (g : payment.EthGateway) : string :=
  common.AddressHex hex (payment.appCollectWallet g).

(** [GetProductPrice]; [server] answers the GET of a URL. *)
Definition GetProductPrice (g : payment.EthGateway) (server : string -> ProductAnswer)
    (productID : string) : result Z :=
  let url := payment.backendBaseURL g +:+ "/getItems/" +:+ productID in
  match server url with
  | GetFailed => Err "failed to fetch product information"
  | GetAnswered StatusCode body =>
      if negb (StatusCode =? 200) then Err "product not found"
      else
        match body with
        | None => Err "failed to parse product information"
        | Some price => Ok price
        end
  end.

(** [CreatePaymentOrder]; [stamp] is [time.Now()] in the layout
    20060102150405 and [now] the same instant. *)
Definition CreatePaymentOrder (hex : common.Codec) (g : payment.EthGateway)
    (server : string -> ProductAnswer) (stamp : string) (now : Z)
    (productID buyerWallet : string) : result PaymentOrder :=
  match GetProductPrice g server productID with
  | Err msg => Err msg
  | Ok priceYen =>
      let amountWei := GetRequiredAmount g in
      let paymentAddr := GetPaymentAddress hex g in
      Ok {| OrderID := "ORDER-" +:+ productID +:+ "-" +:+ stamp;
            ProductID := productID;
            ProductName := "";
            PriceYen := priceYen;
            AmountETH := "0.001";
            AmountWei := Go.big_String (Some amountWei);
            PaymentAddr := paymentAddr;
            BuyerWallet := buyerWallet;
            Status := model.StatusPending;
            TxHash := "";
            CreatedAt := Some now |}
  end.

(** [ConfirmPayment]: the order, or the error, and the calls made on the
    node. *)
Definition ConfirmPayment (hex : common.Codec) (g : payment.EthGateway)
    (server : string -> ProductAnswer) (orderID productID txHash : string)
  : result PaymentOrder * list RPC :=
  match GetProductPrice g server productID with
  | Err msg => (Err ("failed to get product: " +:+ msg), [])
  | Ok priceYen =>
      let expectedAmount := GetRequiredAmount g in
      let paymentAddr := GetPaymentAddress hex g in
      let '((newStatus, err), calls) :=
        payment.CheckPaymentStatus hex g txHash paymentAddr expectedAmount in
      match err with
      | Some msg => (Err ("payment verification failed: " +:+ msg), calls)
      | None =>
          (Ok {| OrderID := orderID;
                 ProductID := productID;
                 ProductName := "";
                 PriceYen := priceYen;
                 AmountETH := "0.001";
                 AmountWei := Go.big_String (Some expectedAmount);
                 PaymentAddr := paymentAddr;
                 BuyerWallet := "";
                 Status := newStatus;
                 TxHash := txHash;
                 CreatedAt := None |},
           calls)
      end
  end.

End order.

(** ** [main]: the WebSocket URL *)

Module config.

(** [strings.Replace(s, old, new, 1)]: the first occurrence of [old]. *)
Fixpoint ReplaceFirst (s old new : string) : string :=
  if String.prefix old s then
    new +:+ String.substring (String.length old) (String.length s - String.length old) s
  else
    match s with
    | EmptyString => EmptyString
    | String c rest => String c (ReplaceFirst rest old new)
    end.

(** [nodeWSURL] as [main] derives it from the two environment variables. *)
Definition nodeWSURL (envWS nodeURL : string) : string :=
  if String.eqb envWS "" then
    if String.prefix "https://" nodeURL then ReplaceFirst nodeURL "https://" "wss://"
    else if String.prefix "http://" nodeURL then ReplaceFirst nodeURL "http://" "ws://"
    else nodeURL
  else envWS.

End config.

(** ** Reading the traces *)

Module observe.

(** The events the polling goroutine sent. *)
Fixpoint sentEvents (acts : list contract.PollAction) : list model.ContractEvent :=
  match acts with
  | [] => []
  | contract.Sent e :: rest => e :: sentEvents rest
  | _ :: rest => sentEvents rest
  end.

(** The events the subscription goroutine delivered, and the logs it
    received. *)
Fixpoint delivered (acts : list live.Action) : list model.ContractEvent :=
  match acts with
  | [] => []
  | live.Delivered e :: rest => e :: delivered rest
  | _ :: rest => delivered rest
  end.

Fixpoint received (wakes : list live.Wake) : list types.Log :=
  match wakes with
  | [] => []
  | live.LogReceived vLog _ :: rest => vLog :: received rest
  | _ :: rest => received rest
  end.

(** A wake-up after which the subscription goroutine goes on. *)
Definition keepsListening (w : live.Wake) : bool :=
  match w with
  | live.LogReceived _ doneOnSend => negb doneOnSend
  | _ => false
  end.

(** The events the listener handled, its waits, and the events the
    rounds carry. *)
Fixpoint handled (effects : list usecase.ListenerEffect) : list model.ContractEvent :=
  match effects with
  | [] => []
  | usecase.Handle e :: rest => e :: handled rest
  | _ :: rest => handled rest
  end.

Fixpoint waits (effects : list usecase.ListenerEffect) : list Z :=
  match effects with
  | [] => []
  | usecase.Wait d :: rest => d :: waits rest
  | _ :: rest => waits rest
  end.

Definition roundEvents (r : usecase.Round) : list model.ContractEvent :=
  match r with
  | usecase.Subscribed events _ => events
  | usecase.Listening events => events
  | _ => []
  end.

(** A round in which the listener returns or stays with its channel. *)
Definition lastRound (r : usecase.Round) : bool := negb (schema.undisturbed r).

(** An answer [notifyBackend] retries: anything but a 2xx or 4xx status. *)
Definition retried (r : usecase.Response) : bool :=
  negb (schema.succeeded r) && negb (schema.rejected r).

(** The longest sequence of effects of [notifyBackend]. *)
Definition schedule (url jsonData : string) : list usecase.Effect :=
  [usecase.Post url jsonData;
   usecase.Sleep (1 * usecase.Second); usecase.Post url jsonData;
   usecase.Sleep (2 * usecase.Second); usecase.Post url jsonData].

(** The three statuses of a [TxVerification]. *)
Definition verificationStatuses : list string := ["pending"; "success"; "failed"].

End observe.

(** ** A product backend for the worked inputs *)

Module shop.

(** The backend knows product 42, at 1200 yen, and answers 404 to any
    other URL. *)
Definition server (url : string) : order.ProductAnswer :=
  if String.eqb url "https://backend.example/getItems/42"
  then order.GetAnswered 200 (Some 1200)
  else order.GetAnswered 404 None.

End shop.

(** * Properties *)

(** ** Fixed-width arithmetic *)

Lemma int64_of_uint64_small (x : Z) :
  0 <= x < 2 ^ 63 -> Go.int64_of_uint64 x = x.
Proof.
  intros Hx. unfold Go.int64_of_uint64, Go.wrap_int64, Go.two63, Go.two64.
  rewrite Z.mod_small; lia.
Qed.

Lemma int64_of_uint64_large (x : Z) :
  2 ^ 63 <= x < 2 ^ 64 -> Go.int64_of_uint64 x = x - 2 ^ 64.
Proof.
  intros Hx. unfold Go.int64_of_uint64, Go.wrap_int64, Go.two63, Go.two64.
  replace (x + 2 ^ 63) with (x - 2 ^ 63 + 1 * 2 ^ 64) by lia.
  rewrite Z_mod_plus_full, Z.mod_small; lia.
Qed.

Lemma big_Uint64_range (x : Z) : Go.is_uint64 (Go.big_Uint64 x).
Proof.
  unfold Go.is_uint64, Go.big_Uint64, Go.two64. apply Z.mod_pos_bound. lia.
Qed.

Lemma uint64_sub_exact (a b : Z) :
  Go.is_uint64 a -> 0 <= b <= a -> Go.uint64_sub a b = a - b.
Proof.
  unfold Go.is_uint64, Go.uint64_sub, Go.wrap_uint64, Go.two64. intros Ha Hb.
  apply Z.mod_small. lia.
Qed.

Lemma uint64_add_exact (a b : Z) :
  0 <= a -> 0 <= b -> a + b < 2 ^ 64 -> Go.uint64_add a b = a + b.
Proof.
  unfold Go.uint64_add, Go.wrap_uint64, Go.two64. intros Ha Hb Hab.
  apply Z.mod_small. lia.
Qed.

(** ** Reading an item: the argument of [getItem] *)

(** C10.  [GetItem] hands [Pack] the item id after the conversion
    [int64(itemId)], and the contract call carries that packing.  For an
    id below 2^63 the argument is the id; for an id from 2^63 up it is the
    negative number [itemId - 2^64], which the codec writes as the word
    [2^256 - 2^64 + itemId], so the call asks for another id. *)
Theorem GetItem_signed_conversion (g : contract.FrimaContractGateway) (itemId : Z) :
  Go.is_uint64 itemId ->
  let arg := Go.int64_of_uint64 itemId in
  (forall data, abi.Pack (contract.contractABI g) "getItem" arg = Some data ->
     snd (contract.GetItem g itemId) =
       [ethclient.CallCallContract
          {| ethclient.MsgTo := contract.contractAddress g;
             ethclient.MsgData := data |}]) /\
  (itemId < 2 ^ 63 -> arg = itemId /\ abi.U256 arg = itemId) /\
  (2 ^ 63 <= itemId ->
     arg = itemId - 2 ^ 64 /\ arg < 0 /\
     abi.U256 arg = 2 ^ 256 - 2 ^ 64 + itemId /\ abi.U256 arg <> itemId).
Proof.
  intros Hid arg. unfold Go.is_uint64, Go.two64 in Hid. repeat split.
  - intros data Hpack. unfold contract.GetItem. fold arg. rewrite Hpack.
    now destruct (ethclient.CallContract _ _).
  - apply int64_of_uint64_small. lia.
  - unfold arg. rewrite int64_of_uint64_small by lia.
    unfold abi.U256. apply Z.mod_small. lia.
  - apply int64_of_uint64_large. lia.
  - unfold arg. rewrite int64_of_uint64_large by lia. lia.
  - unfold arg. rewrite int64_of_uint64_large by lia. unfold abi.U256.
    replace (itemId - 2 ^ 64) with (2 ^ 256 - 2 ^ 64 + itemId + (-1) * 2 ^ 256) by lia.
    rewrite Z_mod_plus_full. apply Z.mod_small. lia.
  - unfold arg. rewrite int64_of_uint64_large by lia. unfold abi.U256.
    replace (itemId - 2 ^ 64) with (2 ^ 256 - 2 ^ 64 + itemId + (-1) * 2 ^ 256) by lia.
    rewrite Z_mod_plus_full, Z.mod_small; lia.
Qed.

(** The id 2^63 on the sample gateway: the argument is [-2^63]. *)
Lemma GetItem_signed_conversion_witness :
  Go.int64_of_uint64 (2 ^ 63) = 2 ^ 63 - 2 ^ 64 /\
  abi.U256 (Go.int64_of_uint64 (2 ^ 63)) <> 2 ^ 63.
Proof.
  assert (Hid : Go.is_uint64 (2 ^ 63)) by (unfold Go.is_uint64, Go.two64; lia).
  destruct (GetItem_signed_conversion sample.gateway (2 ^ 63) Hid)
    as (_ & _ & Hlarge).
  destruct (Hlarge ltac:(lia)) as (Harg & _ & _ & Hne).
  exact (conj Harg Hne).
Defined.

(** ** The backfill scan: the block range *)

(** C6.  A scan called with [fromBlock = 0] that reads the head queries
    the marketplace address from [head - 10000], or from 0 when the head
    is not above 10000, up to [toBlock], or up to the head when [toBlock]
    is nil. *)
Theorem ScanPastEvents_range (hex : common.Codec)
    (g : contract.FrimaContractGateway) (number : Z) (toBlock : option Z) :
  ethclient.HeaderByNumber (contract.client g) = Some number ->
  let head := Go.big_Uint64 number in
  exists q,
    contract.scanQuery (contract.ScanPastEvents hex g 0 toBlock) = Some q /\
    ethclient.Addresses q = [contract.contractAddress g] /\
    ethclient.FromBlock q = Z.max 0 (head - 10000) /\
    ethclient.ToBlock q = match toBlock with Some t => t | None => head end.
Proof.
  intros Hhead head. unfold contract.ScanPastEvents. rewrite Hhead. fold head.
  pose proof (big_Uint64_range number) as Hrange. fold head in Hrange.
  change (0 =? 0) with true. cbv iota.
  set (from := if head >? 10000 then Go.uint64_sub head 10000 else 0).
  assert (Hfrom : from = Z.max 0 (head - 10000)).
  { unfold from. destruct (Z.gtb_spec head 10000).
    - rewrite uint64_sub_exact by (auto; lia). lia.
    - lia. }
  eexists. split.
  - destruct (ethclient.FilterLogs _ _); reflexivity.
  - cbn. auto.
Qed.

(** The sample node stands at block 25000: the scan starts at 15000 and
    ends at the head. *)
Lemma ScanPastEvents_range_witness :
  exists q,
    contract.scanQuery (contract.ScanPastEvents sample.codec sample.gateway 0 None)
      = Some q /\
    ethclient.Addresses q = [sample.marketplace] /\
    ethclient.FromBlock q = Z.max 0 (Go.big_Uint64 25000 - 10000) /\
    ethclient.ToBlock q = Go.big_Uint64 25000.
Proof.
  exact (ScanPastEvents_range sample.codec sample.gateway 25000 None eq_refl).
Defined.

(** ** The decoder *)

(** C4.  A log whose emitting address is not the configured address
    decodes to no event, whatever its topics; the loop over fetched logs
    drops it as well. *)
Theorem parseLog_rejects_foreign_address (hex : common.Codec)
    (g : contract.FrimaContractGateway) (vLog : types.Log) :
  types.Address vLog <> contract.contractAddress g ->
  contract.parseLog hex g vLog = None /\
  contract.decodeLogs hex g [vLog] = [].
Proof.
  intros Hne.
  assert (Hneq : (types.Address vLog =? contract.contractAddress g) = false)
    by now apply Z.eqb_neq.
  split.
  - unfold contract.parseLog. destruct (types.Topics vLog); [reflexivity|].
    now rewrite Hneq.
  - unfold contract.decodeLogs. cbn. now rewrite Hneq.
Qed.

(** A well-formed [ItemCancelled] log from address 3000 is dropped. *)
Lemma parseLog_rejects_foreign_address_witness :
  contract.parseLog sample.codec sample.gateway sample.foreignLog = None /\
  contract.decodeLogs sample.codec sample.gateway [sample.foreignLog] = [].
Proof.
  apply (parseLog_rejects_foreign_address sample.codec sample.gateway sample.foreignLog).
  vm_compute. discriminate.
Defined.

(** Projections through the conditional assignments of the payload
    fields: none of them writes an indexed field. *)
Ltac split_assignments :=
  unfold model.assign_if;
  repeat match goal with
         | |- context [match ?o with Some _ => _ | None => _ end] => destruct o
         end;
  cbn; auto.

(** C2, as the code has it.  A log of the marketplace whose topic 0 is a
    known signature and which has fewer topics than its kind requires
    still decodes to an event of that kind: hash and block are set, the
    item id is 0 and seller and buyer are empty (and the token id is 0
    unless the kind reads it from the payload). *)
Theorem parseLog_short_topics_partial (hex : common.Codec)
    (g : contract.FrimaContractGateway) (vLog : types.Log)
    (name : string) (rest : list common.Hash) :
  NoDup (abi.EventID (contract.contractABI g) <$> schema.knownEvents) ->
  In name schema.knownEvents ->
  types.Address vLog = contract.contractAddress g ->
  types.Topics vLog = abi.EventID (contract.contractABI g) name :: rest ->
  (length (types.Topics vLog) < schema.requiredTopics name)%nat ->
  exists event,
    contract.parseLog hex g vLog = Some event /\
    model.Type_ event = name /\
    model.TxHash event = common.HashHex hex (types.TxHash vLog) /\
    model.BlockNo event = types.BlockNumber vLog /\
    model.ItemId event = 0 /\ model.Seller event = "" /\ model.Buyer event = "" /\
    (name <> "ItemPurchased" -> model.TokenId event = 0).
Proof.
  intros Hdup Hname Haddr Htopics Hlen.
  cbn in Hdup. rewrite !NoDup_cons, !not_elem_of_cons in Hdup.
  destruct Hdup as ((H12 & H13 & H14 & H15 & _) & (H23 & H24 & H25 & _)
                    & (H34 & H35 & _) & (H45 & _) & _).
  unfold contract.parseLog. rewrite Htopics, Haddr, Z.eqb_refl. cbn [negb].
  rewrite Htopics in Hlen.
  cbn in Hname.
  destruct Hname as [<-|[<-|[<-|[<-|[<-|[]]]]]]; cbn in Hlen.
  - rewrite Z.eqb_refl. eexists; split; [reflexivity|].
    unfold contract.parseItemListed. rewrite Htopics.
    destruct rest as [|a [|b [|c rest]]]; [| | |cbn in Hlen; lia];
      (destruct (abi.UnpackIntoMap _ _ _);
       [split_assignments; repeat split; auto | cbn; repeat split; auto]).
  - rewrite (proj2 (Z.eqb_neq _ _)) by auto. rewrite Z.eqb_refl.
    eexists; split; [reflexivity|].
    unfold contract.parseItemPurchased. rewrite Htopics.
    destruct rest as [|a [|b rest]]; [| |cbn in Hlen; lia];
      (destruct (abi.UnpackIntoMap _ _ _);
       [split_assignments; repeat split; auto; congruence
       | cbn; repeat split; auto]).
  - rewrite !(proj2 (Z.eqb_neq _ _)) by auto. rewrite Z.eqb_refl.
    eexists; split; [reflexivity|].
    unfold contract.parseItemUpdated. rewrite Htopics.
    destruct rest as [|a rest]; [|cbn in Hlen; lia].
    destruct (abi.UnpackIntoMap _ _ _);
      [split_assignments; repeat split; auto | cbn; repeat split; auto].
  - rewrite !(proj2 (Z.eqb_neq _ _)) by auto. rewrite Z.eqb_refl.
    eexists; split; [reflexivity|].
    unfold contract.parseItemCancelled. rewrite Htopics.
    destruct rest as [|a [|b rest]]; [| |cbn in Hlen; lia];
      cbn; repeat split; auto.
  - rewrite !(proj2 (Z.eqb_neq _ _)) by auto. rewrite Z.eqb_refl.
    eexists; split; [reflexivity|].
    unfold contract.parseReceiptConfirmed. rewrite Htopics.
    destruct rest as [|a [|b [|c rest]]]; [| | |cbn in Hlen; lia];
      (destruct (abi.UnpackIntoMap _ _ _);
       [split_assignments; repeat split; auto | cbn; repeat split; auto]).
Qed.

(** The [ItemCancelled] log with one topic, on the sample gateway. *)
Lemma parseLog_short_topics_partial_witness :
  exists event,
    contract.parseLog sample.codec sample.gateway sample.shortCancelledLog
      = Some event /\
    model.Type_ event = "ItemCancelled" /\
    model.TxHash event = common.HashHex sample.codec 171 /\
    model.BlockNo event = 24000 /\
    model.ItemId event = 0 /\ model.Seller event = "" /\ model.Buyer event = "" /\
    ("ItemCancelled" <> "ItemPurchased" -> model.TokenId event = 0).
Proof.
  apply (parseLog_short_topics_partial sample.codec sample.gateway
           sample.shortCancelledLog "ItemCancelled" []).
  - vm_compute. repeat constructor; rewrite ?elem_of_cons, ?elem_of_nil;
      intuition discriminate.
  - cbn. auto.
  - reflexivity.
  - reflexivity.
  - cbn. lia.
Defined.

(** C2, as the claim has it, fails: the sample [ItemCancelled] log has a
    known signature and one topic where three are required, and it
    decodes to an event with empty indexed fields, not to a failure. *)
Lemma parseLog_short_topics_counterexample :
  In "ItemCancelled" schema.knownEvents /\
  types.Topics sample.shortCancelledLog
    = [abi.EventID (contract.contractABI sample.gateway) "ItemCancelled"] /\
  (length (types.Topics sample.shortCancelledLog)
     < schema.requiredTopics "ItemCancelled")%nat /\
  contract.parseLog sample.codec sample.gateway sample.shortCancelledLog
    = Some (model.newEvent "ItemCancelled"
              "0x00000000000000000000000000000000000000000000000000000000000000ab"
              24000) /\
  contract.parseLog sample.codec sample.gateway sample.shortCancelledLog <> None.
Proof.
  repeat split.
  - cbn. auto.
  - cbn. lia.
  - discriminate.
Qed.

(** ** Verifying a transaction *)

(** C7.  For a well-formed hash whose transaction the node reports as
    pending, [VerifyTransaction] answers status ["pending"] with
    [Success = false], block number and gas used left at zero, after the
    single call [TransactionByHash]: no receipt is asked for.  For a mined
    transaction whose receipt status is not the successful one, the
    status is ["failed"] and [Success] is [false]. *)
Theorem VerifyTransaction_pending_and_failed (hex : common.Codec)
    (g : contract.FrimaContractGateway) (txHash : string) :
  common.HexToHash hex txHash <> 0 ->
  let h := common.HexToHash hex txHash in
  (forall tx,
     ethclient.TransactionByHash (contract.client g) h = Some (tx, true) ->
     contract.VerifyTransaction hex g txHash =
       (ethclient.Ok {| model.VTxHash := txHash; model.VStatus := "pending";
                        model.VBlockNumber := 0; model.VGasUsed := 0;
                        model.Success := false; model.IsContractCall := false |},
        [ethclient.CallTransactionByHash h])) /\
  (forall tx receipt,
     ethclient.TransactionByHash (contract.client g) h = Some (tx, false) ->
     ethclient.TransactionReceipt (contract.client g) h = Some receipt ->
     types.Status receipt <> types.ReceiptStatusSuccessful ->
     exists v,
       fst (contract.VerifyTransaction hex g txHash) = ethclient.Ok v /\
       model.VStatus v = "failed" /\ model.Success v = false).
Proof.
  intros Hvalid h. fold h in Hvalid.
  assert (Hcmp : (Go.big_Cmp h 0 =? 0) = false).
  { unfold Go.big_Cmp. destruct (Z.compare_spec h 0); [contradiction | | ]; reflexivity. }
  split.
  - intros tx Hfound. unfold contract.VerifyTransaction. fold h.
    now rewrite Hcmp, Hfound.
  - intros tx receipt Hfound Hreceipt Hstatus.
    unfold contract.VerifyTransaction. fold h.
    rewrite Hcmp, Hfound, Hreceipt.
    rewrite (proj2 (Z.eqb_neq _ _) Hstatus).
    eexists. cbn. repeat split.
Qed.

(** On the sample node, hash 1 is pending and hash 2 is reverted. *)
Lemma VerifyTransaction_pending_and_failed_witness :
  contract.VerifyTransaction sample.codec sample.gateway "0x01" =
    (ethclient.Ok {| model.VTxHash := "0x01"; model.VStatus := "pending";
                     model.VBlockNumber := 0; model.VGasUsed := 0;
                     model.Success := false; model.IsContractCall := false |},
     [ethclient.CallTransactionByHash 1]) /\
  (exists v,
     fst (contract.VerifyTransaction sample.codec sample.gateway "0x02")
       = ethclient.Ok v /\
     model.VStatus v = "failed" /\ model.Success v = false).
Proof.
  split.
  - refine (proj1 (VerifyTransaction_pending_and_failed sample.codec sample.gateway
                     "0x01" _) _ eq_refl).
    vm_compute. discriminate.
  - refine (proj2 (VerifyTransaction_pending_and_failed sample.codec sample.gateway
                     "0x02" _) _ _ eq_refl eq_refl _).
    + vm_compute. discriminate.
    + vm_compute. discriminate.
Defined.

(** ** Confirming a payment *)

(** C5.  For a well-formed hash whose transaction is mined with a
    successful receipt, [CheckPaymentStatus] runs its checks in the order
    amount, recipient present, recipient equal, and names the first one
    that fails: a value below the expected amount is an
    insufficient-amount error; with the amount reached, a nil target is
    the no-recipient error and a target other than the expected address
    is the wrong-recipient error.  The order is marked paid exactly when
    the value reaches the expected amount and the target is the expected
    address. *)
Theorem CheckPaymentStatus_verdicts (hex : common.Codec) (g : payment.EthGateway)
    (txHash expectedAddr : string) (expectedWei : Z)
    (tx : types.Transaction) (receipt : types.Receipt) :
  common.HexToHash hex txHash <> 0 ->
  ethclient.TransactionByHash (payment.client g) (common.HexToHash hex txHash)
    = Some (tx, false) ->
  ethclient.TransactionReceipt (payment.client g) (common.HexToHash hex txHash)
    = Some receipt ->
  types.Status receipt = types.ReceiptStatusSuccessful ->
  let verdict := fst (payment.CheckPaymentStatus hex g txHash expectedAddr expectedWei) in
  let recipient := common.HexToAddress hex expectedAddr in
  (types.Value tx < expectedWei ->
     verdict = (model.StatusError, Some "insufficient payment amount")) /\
  (expectedWei <= types.Value tx -> types.To tx = None ->
     verdict = (model.StatusError,
                Some "transaction is not a transfer to a valid address")) /\
  (expectedWei <= types.Value tx ->
   forall to, types.To tx = Some to -> to <> recipient ->
     verdict = (model.StatusError,
                Some "transaction sent to wrong recipient address")) /\
  (verdict = (model.StatusPaid, None) <->
     expectedWei <= types.Value tx /\ types.To tx = Some recipient) /\
  (fst verdict = model.StatusPaid <->
     expectedWei <= types.Value tx /\ types.To tx = Some recipient).
Proof.
  intros Hvalid Hfound Hreceipt Hstatus verdict recipient.
  assert (Hcmp : (Go.big_Cmp (common.HexToHash hex txHash) 0 =? 0) = false).
  { unfold Go.big_Cmp.
    destruct (Z.compare_spec (common.HexToHash hex txHash) 0);
      [contradiction | | ]; reflexivity. }
  assert (Hv : verdict =
    if Go.big_Cmp (types.Value tx) expectedWei <? 0 then
      (model.StatusError, Some "insufficient payment amount")
    else match types.To tx with
         | None => (model.StatusError,
                    Some "transaction is not a transfer to a valid address")
         | Some to =>
             if negb (to =? recipient) then
               (model.StatusError, Some "transaction sent to wrong recipient address")
             else (model.StatusPaid, None)
         end).
  { unfold verdict, payment.CheckPaymentStatus.
    rewrite Hcmp, Hfound, Hreceipt, Hstatus, Z.eqb_refl. cbn [negb].
    destruct (Go.big_Cmp (types.Value tx) expectedWei <? 0); [reflexivity|].
    destruct (types.To tx) as [to|]; [|reflexivity].
    fold recipient. now destruct (negb (to =? recipient)). }
  assert (Hlow : (Go.big_Cmp (types.Value tx) expectedWei <? 0) = true
                 <-> types.Value tx < expectedWei).
  { unfold Go.big_Cmp.
    destruct (Z.compare_spec (types.Value tx) expectedWei); cbn; split; intros; lia. }
  rewrite Hv. clear Hv.
  destruct (Go.big_Cmp (types.Value tx) expectedWei <? 0) eqn:Hc;
    [ assert (types.Value tx < expectedWei) by now apply Hlow
    | assert (~ types.Value tx < expectedWei) by (rewrite <- Hlow; congruence);
      destruct (types.To tx) as [to|];
      [ destruct (Z.eqb_spec to recipient) as [->|Hne]; cbn [negb] | ] ];
    cbv [model.StatusError model.StatusPaid fst];
    repeat split; intros;
    repeat match goal with H : _ /\ _ |- _ => destruct H end;
    try lia; try congruence.
Qed.

(** On the sample node, with 10^15 wei expected: the transfer of 10 wei
    is insufficient, the contract creation has no recipient, the full
    transfer is paid when address 2748 (0xabc) is expected and misdirected
    when address 3567 (0xdef) is. *)
Lemma CheckPaymentStatus_verdicts_witness :
  fst (payment.CheckPaymentStatus sample.codec sample.collector "0x04" "0xabc" (10 ^ 15))
    = (model.StatusError, Some "insufficient payment amount") /\
  fst (payment.CheckPaymentStatus sample.codec sample.collector "0x05" "0xabc" (10 ^ 15))
    = (model.StatusError, Some "transaction is not a transfer to a valid address") /\
  fst (payment.CheckPaymentStatus sample.codec sample.collector "0x03" "0xdef" (10 ^ 15))
    = (model.StatusError, Some "transaction sent to wrong recipient address") /\
  fst (payment.CheckPaymentStatus sample.codec sample.collector "0x03" "0xabc" (10 ^ 15))
    = (model.StatusPaid, None).
Proof.
  assert (Hne : forall n, 0 < n -> n <> 0) by (intros; lia).
  pose proof (CheckPaymentStatus_verdicts sample.codec sample.collector
                "0x04" "0xabc" (10 ^ 15)
                {| types.Value := 10; types.To := Some sample.marketplace |}
                {| types.Status := 1; types.ReceiptBlockNumber := 24991;
                   types.GasUsed := 21000 |}
                (Hne 4 eq_refl) eq_refl eq_refl eq_refl) as (Hlow & _).
  pose proof (CheckPaymentStatus_verdicts sample.codec sample.collector
                "0x05" "0xabc" (10 ^ 15)
                {| types.Value := 10 ^ 15; types.To := None |}
                {| types.Status := 1; types.ReceiptBlockNumber := 24991;
                   types.GasUsed := 21000 |}
                (Hne 5 eq_refl) eq_refl eq_refl eq_refl) as (_ & Hnil & _).
  pose proof (CheckPaymentStatus_verdicts sample.codec sample.collector
                "0x03" "0xdef" (10 ^ 15)
                {| types.Value := 10 ^ 15; types.To := Some sample.marketplace |}
                {| types.Status := 1; types.ReceiptBlockNumber := 24991;
                   types.GasUsed := 21000 |}
                (Hne 3 eq_refl) eq_refl eq_refl eq_refl) as (_ & _ & Hwrong & _).
  pose proof (CheckPaymentStatus_verdicts sample.codec sample.collector
                "0x03" "0xabc" (10 ^ 15)
                {| types.Value := 10 ^ 15; types.To := Some sample.marketplace |}
                {| types.Status := 1; types.ReceiptBlockNumber := 24991;
                   types.GasUsed := 21000 |}
                (Hne 3 eq_refl) eq_refl eq_refl eq_refl) as (_ & _ & _ & Hpaid & _).
  split; [|split; [|split]].
  - apply Hlow. cbn. lia.
  - apply Hnil; [cbn; lia | reflexivity].
  - apply (Hwrong ltac:(cbn; lia) sample.marketplace eq_refl).
    vm_compute. discriminate.
  - apply Hpaid. split; [cbn; lia | reflexivity].
Defined.

(** ** The notifier *)

Lemma attempts_app (xs ys : list usecase.Effect) :
  schema.attempts (xs ++ ys)%list = (schema.attempts xs + schema.attempts ys)%nat.
Proof.
  induction xs as [|[d|url body] xs IH]; cbn; auto.
Qed.

(** The effects of one pass: an optional sleep, then one request. *)
Lemma attempts_pass (i : nat) (url jsonData : string) :
  schema.attempts
    ((if 0 <? Z.of_nat i then [usecase.Sleep (Z.of_nat i * usecase.Second)] else [])
     ++ [usecase.Post url jsonData])%list = 1%nat.
Proof.
  rewrite attempts_app. now destruct (0 <? Z.of_nat i).
Qed.

Lemma serverErrorOrTransport_retried (r : usecase.Response) :
  schema.serverErrorOrTransport r = true ->
  schema.succeeded r = false /\ schema.rejected r = false.
Proof.
  destruct r as [|c body]; cbn; [auto|]. intros H. split; lia.
Qed.

Section NotifyLoop.

Variables (backend : nat -> usecase.Response) (url jsonData : string) (maxRetries : Z).

(** A pass whose answer is a server error or a transport error goes on
    to the next pass, one request later. *)
Lemma notifyLoop_retry (remaining i : nat) (lastErr : option usecase.AttemptError) :
  schema.serverErrorOrTransport (backend i) = true ->
  exists lastErr',
    fst (usecase.notifyLoop backend url jsonData maxRetries (S remaining) i lastErr)
      = fst (usecase.notifyLoop backend url jsonData maxRetries remaining (S i) (Some lastErr')) /\
    schema.attempts
      (snd (usecase.notifyLoop backend url jsonData maxRetries (S remaining) i lastErr))
      = S (schema.attempts
             (snd (usecase.notifyLoop backend url jsonData maxRetries remaining (S i)
                     (Some lastErr')))).
Proof.
  intros Hretry. cbn [usecase.notifyLoop].
  destruct (backend i) as [|c body] eqn:Hb.
  - exists usecase.SendFailed.
    destruct (usecase.notifyLoop _ _ _ _ remaining (S i) _) as [err effects].
    cbn. rewrite attempts_app, attempts_pass. auto.
  - exists (usecase.BackendStatus c body).
    cbn in Hretry.
    replace ((200 <=? c) && (c <? 300)) with false by lia.
    replace ((400 <=? c) && (c <? 500)) with false by lia.
    destruct (usecase.notifyLoop _ _ _ _ remaining (S i) _) as [err effects].
    cbn. rewrite attempts_app, attempts_pass. auto.
Qed.

(** The first answer in the 2xx range, after [k] retried passes, ends
    the loop with success after [k + 1] requests. *)
Lemma notifyLoop_success (k : nat) :
  forall (remaining i : nat) (lastErr : option usecase.AttemptError),
    (k < remaining)%nat ->
    (forall j, (j < k)%nat -> schema.serverErrorOrTransport (backend (i + j)) = true) ->
    schema.succeeded (backend (i + k)) = true ->
    let r := usecase.notifyLoop backend url jsonData maxRetries remaining i lastErr in
    fst r = None /\ schema.attempts (snd r) = S k.
Proof.
  induction k as [|k IH]; intros remaining i lastErr Hlt Hretry Hok r; subst r.
  - destruct remaining as [|remaining]; [lia|].
    rewrite Nat.add_0_r in Hok. cbn [usecase.notifyLoop].
    destruct (backend i) as [|c body]; [discriminate|]. cbn in Hok. rewrite Hok.
    cbn [fst snd]. now rewrite attempts_pass.
  - destruct remaining as [|remaining]; [lia|].
    destruct (notifyLoop_retry remaining i lastErr) as (lastErr' & Hfst & Hsnd).
    { specialize (Hretry 0%nat ltac:(lia)). now rewrite Nat.add_0_r in Hretry. }
    rewrite Hfst, Hsnd.
    destruct (IH remaining (S i) (Some lastErr')) as [Herr Hcount].
    + lia.
    + intros j Hj. specialize (Hretry (S j) ltac:(lia)).
      now replace (S i + j)%nat with (i + S j)%nat by lia.
    + now replace (S i + k)%nat with (i + S k)%nat by lia.
    + now rewrite Herr, Hcount.
Qed.

(** The first answer in the 4xx range, after [k] retried passes, ends
    the loop with that answer as the error after [k + 1] requests. *)
Lemma notifyLoop_rejected (k : nat) :
  forall (remaining i : nat) (lastErr : option usecase.AttemptError),
    (k < remaining)%nat ->
    (forall j, (j < k)%nat -> schema.serverErrorOrTransport (backend (i + j)) = true) ->
    schema.rejected (backend (i + k)) = true ->
    let r := usecase.notifyLoop backend url jsonData maxRetries remaining i lastErr in
    (exists c body, backend (i + k) = usecase.HTTPResponse c body /\
                    fst r = Some (usecase.Rejected (usecase.BackendStatus c body))) /\
    schema.attempts (snd r) = S k.
Proof.
  induction k as [|k IH]; intros remaining i lastErr Hlt Hretry Hrej r; subst r.
  - destruct remaining as [|remaining]; [lia|].
    rewrite Nat.add_0_r in Hrej |- *. cbn [usecase.notifyLoop].
    destruct (backend i) as [|c body]; [discriminate|]. cbn in Hrej. rewrite Hrej.
    replace ((200 <=? c) && (c <? 300)) with false by lia.
    cbn [fst snd]. rewrite attempts_pass. split; [|reflexivity].
    exists c, body. auto.
  - destruct remaining as [|remaining]; [lia|].
    destruct (notifyLoop_retry remaining i lastErr) as (lastErr' & Hfst & Hsnd).
    { specialize (Hretry 0%nat ltac:(lia)). now rewrite Nat.add_0_r in Hretry. }
    rewrite Hfst, Hsnd.
    destruct (IH remaining (S i) (Some lastErr')) as [Herr Hcount].
    + lia.
    + intros j Hj. specialize (Hretry (S j) ltac:(lia)).
      now replace (S i + j)%nat with (i + S j)%nat by lia.
    + now replace (S i + k)%nat with (i + S k)%nat by lia.
    + replace (S i + k)%nat with (i + S k)%nat in Herr by lia.
      now rewrite Hcount.
Qed.

(** When every remaining pass is retried, the loop makes one request per
    pass and gives up with the last error. *)
Lemma notifyLoop_exhausted (remaining : nat) :
  forall (i : nat) (lastErr : option usecase.AttemptError),
    (forall j, (j < remaining)%nat ->
               schema.serverErrorOrTransport (backend (i + j)) = true) ->
    let r := usecase.notifyLoop backend url jsonData maxRetries remaining i lastErr in
    fst r = Some (usecase.FailedAfterRetries maxRetries
                    (match remaining with
                     | O => lastErr
                     | S n =>
                         match backend (i + n) with
                         | usecase.TransportError => Some usecase.SendFailed
                         | usecase.HTTPResponse c body =>
                             Some (usecase.BackendStatus c body)
                         end
                     end)) /\
    schema.attempts (snd r) = remaining.
Proof.
  induction remaining as [|remaining IH]; intros i lastErr Hretry r; subst r.
  - cbn. auto.
  - pose proof (Hretry 0%nat ltac:(lia)) as H0. rewrite Nat.add_0_r in H0.
    assert (Hrest : forall j, (j < remaining)%nat ->
                      schema.serverErrorOrTransport (backend (S i + j)) = true).
    { intros j Hj. specialize (Hretry (S j) ltac:(lia)).
      now replace (S i + j)%nat with (i + S j)%nat by lia. }
    cbn [usecase.notifyLoop].
    destruct (backend i) as [|c body] eqn:Hb.
    + destruct (IH (S i) (Some usecase.SendFailed) Hrest) as [Herr Hcount].
      destruct (usecase.notifyLoop _ _ _ _ remaining (S i) _) as [err effects].
      cbn [fst snd] in *. rewrite attempts_app, attempts_pass, Hcount. split; [|lia].
      rewrite Herr. destruct remaining as [|n].
      * now rewrite Nat.add_0_r, Hb.
      * now replace (i + S n)%nat with (S i + n)%nat by lia.
    + cbn in H0.
      replace ((200 <=? c) && (c <? 300)) with false by lia.
      replace ((400 <=? c) && (c <? 500)) with false by lia.
      destruct (IH (S i) (Some (usecase.BackendStatus c body)) Hrest) as [Herr Hcount].
      destruct (usecase.notifyLoop _ _ _ _ remaining (S i) _) as [err effects].
      cbn [fst snd] in *. rewrite attempts_app, attempts_pass, Hcount. split; [|lia].
      rewrite Herr. destruct remaining as [|n].
      * now rewrite Nat.add_0_r, Hb.
      * now replace (i + S n)%nat with (S i + n)%nat by lia.
Qed.

End NotifyLoop.

(** C3.  For a payload that marshals, [notifyBackend] stops at the first
    answer in the 2xx range and reports success; an answer in the 4xx
    range ends the sequence with that answer as the error and no further
    request, so a 4xx first answer costs exactly one request; server
    errors and transport errors are retried, and when all three passes
    end that way exactly three requests have been made and the error is
    "failed after 3 retries". *)
Theorem notifyBackend_attempts (marshal : gmap string usecase.json -> option string)
    (uc : usecase.contractUsecase) (endpoint : string)
    (payload : gmap string usecase.json) (jsonData : string)
    (backend : nat -> usecase.Response) :
  marshal payload = Some jsonData ->
  let r := usecase.notifyBackend marshal uc endpoint payload backend in
  (forall k, (k < 3)%nat ->
     (forall j, (j < k)%nat -> schema.serverErrorOrTransport (backend j) = true) ->
     schema.succeeded (backend k) = true ->
     fst r = None /\ schema.attempts (snd r) = S k) /\
  (forall k, (k < 3)%nat ->
     (forall j, (j < k)%nat -> schema.serverErrorOrTransport (backend j) = true) ->
     schema.rejected (backend k) = true ->
     (exists c body, backend k = usecase.HTTPResponse c body /\
        fst r = Some (usecase.Rejected (usecase.BackendStatus c body))) /\
     schema.attempts (snd r) = S k) /\
  (schema.rejected (backend 0%nat) = true -> schema.attempts (snd r) = 1%nat) /\
  ((forall j, (j < 3)%nat -> schema.serverErrorOrTransport (backend j) = true) ->
     (exists lastErr, fst r = Some (usecase.FailedAfterRetries 3 (Some lastErr))) /\
     schema.attempts (snd r) = 3%nat).
Proof.
  intros Hmarshal r. subst r. unfold usecase.notifyBackend. rewrite Hmarshal.
  change (Z.to_nat 3) with 3%nat.
  set (url := usecase.backendBaseURL uc +:+ endpoint).
  repeat split.
  - now apply (notifyLoop_success backend url jsonData 3 k 3 0 None).
  - now apply (notifyLoop_success backend url jsonData 3 k 3 0 None).
  - now apply (notifyLoop_rejected backend url jsonData 3 k 3 0 None).
  - now apply (notifyLoop_rejected backend url jsonData 3 k 3 0 None).
  - intros Hrej.
    apply (notifyLoop_rejected backend url jsonData 3 0 3 0 None); auto; lia.
  - destruct (notifyLoop_exhausted backend url jsonData 3 3 0 None H) as [Herr _].
    rewrite Herr. cbn [Nat.add]. destruct (backend 2%nat); eauto.
  - now apply (notifyLoop_exhausted backend url jsonData 3 3 0 None).
Qed.

(** Three backends: the third answer of the first is 200, the second
    always answers 404, the third always answers 503. *)
Lemma notifyBackend_attempts_witness :
  (fst (usecase.notifyBackend sample.marshal sample.uc "/api/v1/blockchain/item-listed"
          ∅ sample.recovering) = None /\
   schema.attempts
     (snd (usecase.notifyBackend sample.marshal sample.uc "/api/v1/blockchain/item-listed"
             ∅ sample.recovering)) = 3%nat) /\
  schema.attempts
    (snd (usecase.notifyBackend sample.marshal sample.uc "/api/v1/blockchain/item-listed"
            ∅ sample.notFound)) = 1%nat /\
  schema.attempts
    (snd (usecase.notifyBackend sample.marshal sample.uc "/api/v1/blockchain/item-listed"
            ∅ sample.unavailable)) = 3%nat.
Proof.
  pose proof (notifyBackend_attempts sample.marshal sample.uc
                "/api/v1/blockchain/item-listed" ∅ _ sample.recovering eq_refl)
    as (Hok & _).
  pose proof (notifyBackend_attempts sample.marshal sample.uc
                "/api/v1/blockchain/item-listed" ∅ _ sample.notFound eq_refl)
    as (_ & _ & Hrej & _).
  pose proof (notifyBackend_attempts sample.marshal sample.uc
                "/api/v1/blockchain/item-listed" ∅ _ sample.unavailable eq_refl)
    as (_ & _ & _ & Hdown).
  split; [|split].
  - apply (Hok 2%nat); [lia | | reflexivity].
    intros j Hj. destruct j as [|[|j]]; [reflexivity | reflexivity | lia].
  - apply Hrej. reflexivity.
  - apply Hdown. intros j Hj. reflexivity.
Defined.

(** ** Routing an event *)

(** The decimal numeral of a price reads back as the same integer. *)
Lemma big_String_reads_back (p : Z) :
  Z.of_int <$> NilZero.int_of_string (Go.big_String (Some p)) = Some p.
Proof.
  unfold Go.big_String. rewrite NilZero.isi.
  - cbn. now rewrite DecimalZ.of_to.
  - destruct p; cbn; try discriminate.
    intros [= H]. now apply (DecimalPos.Unsigned.to_uint_nonnil p).
  - destruct p; cbn; try discriminate.
    intros [= H]. now apply (DecimalPos.Unsigned.to_uint_nonnil p).
Qed.

(** Every request of the retry loop goes to the one URL it was given. *)
Lemma notifyLoop_urls (backend : nat -> usecase.Response) (url jsonData : string)
    (maxRetries : Z) (remaining : nat) :
  forall (i : nat) (lastErr : option usecase.AttemptError) (u b : string),
    In (usecase.Post u b)
       (snd (usecase.notifyLoop backend url jsonData maxRetries remaining i lastErr)) ->
    u = url /\ b = jsonData.
Proof.
  induction remaining as [|remaining IH]; intros i lastErr u b Hin.
  - destruct Hin.
  - cbn [usecase.notifyLoop] in Hin.
    assert (Hpass : forall rest,
              In (usecase.Post u b)
                 (((if 0 <? Z.of_nat i
                    then [usecase.Sleep (Z.of_nat i * usecase.Second)] else [])
                   ++ [usecase.Post url jsonData]) ++ rest)%list ->
              (u = url /\ b = jsonData) \/ In (usecase.Post u b) rest).
    { intros rest H. apply in_app_or in H as [H|H]; [left|now right].
      apply in_app_or in H as [H|H].
      - destruct (0 <? Z.of_nat i); cbn in H; [destruct H as [H|[]]|destruct H].
        discriminate.
      - destruct H as [[= -> ->]|[]]. auto. }
    destruct (backend i) as [|c body].
    + destruct (usecase.notifyLoop _ _ _ _ remaining (S i) _) as [err effects] eqn:Hloop.
      cbn [snd] in Hin. apply Hpass in Hin as [?|Hin]; [assumption|].
      apply (IH (S i) (Some usecase.SendFailed)). now rewrite Hloop.
    + destruct ((200 <=? c) && (c <? 300)).
      { cbn [snd] in Hin. rewrite <- (app_nil_r (_ ++ [_])%list) in Hin.
        apply Hpass in Hin as [?|[]]. assumption. }
      destruct ((400 <=? c) && (c <? 500)).
      { cbn [snd] in Hin. rewrite <- (app_nil_r (_ ++ [_])%list) in Hin.
        apply Hpass in Hin as [?|[]]. assumption. }
      destruct (usecase.notifyLoop _ _ _ _ remaining (S i) _) as [err effects] eqn:Hloop.
      cbn [snd] in Hin. apply Hpass in Hin as [?|Hin]; [assumption|].
      apply (IH (S i) (Some (usecase.BackendStatus c body))). now rewrite Hloop.
Qed.

(** C8.  An event of one of the five kinds is routed to the one path of
    its kind under the API prefix, with a payload whose fields are those
    of the kind; a price field, where the kind has one, is the string
    [big.Int.String()] gives for the event's price, never a number, and
    for a price that is set this string is the decimal numeral that reads
    back as the same integer; every request [handleEvent] makes for the
    event goes to that path of the backend. *)
Theorem eventRoute_fixed_path (event : model.ContractEvent) :
  In (model.Type_ event) schema.knownEvents ->
  exists endpoint payload,
    usecase.eventRoute event = Some (endpoint, payload) /\
    endpoint = schema.apiPrefix +:+ schema.downstreamPath (model.Type_ event) /\
    dom payload = schema.relevantFields (model.Type_ event) /\
    (forall v, payload !! "price_wei" = Some v ->
       v = usecase.JString (Go.big_String (model.Price event))) /\
    (forall p, model.Price event = Some p ->
       Z.of_int <$> NilZero.int_of_string (Go.big_String (model.Price event)) = Some p) /\
    (forall marshal uc backend url body,
       In (usecase.Post url body) (usecase.handleEvent marshal uc event backend) ->
       url = usecase.backendBaseURL uc +:+ endpoint).
Proof.
  intros Hkind.
  assert (Hposts : forall endpoint payload,
            usecase.eventRoute event = Some (endpoint, payload) ->
            forall marshal uc backend url body,
              In (usecase.Post url body) (usecase.handleEvent marshal uc event backend) ->
              url = usecase.backendBaseURL uc +:+ endpoint).
  { intros endpoint payload Hroute marshal uc backend url body Hin.
    unfold usecase.handleEvent in Hin. rewrite Hroute in Hin.
    unfold usecase.notifyBackend in Hin.
    destruct (marshal payload) as [jsonData|]; [|destruct Hin].
    now apply notifyLoop_urls in Hin as [-> _]. }
  assert (Hprice : forall p, model.Price event = Some p ->
            Z.of_int <$> NilZero.int_of_string (Go.big_String (model.Price event)) = Some p).
  { intros p ->. apply big_String_reads_back. }
  destruct event as [t txHash blockNo itemId tokenId title price explanation imageUrl
                     uid category seller buyer buyerUid createdAt updatedAt].
  cbn [model.Type_ model.Price] in *.
  cbn in Hkind.
  destruct Hkind as [<-|[<-|[<-|[<-|[<-|[]]]]]];
    (eexists; eexists; split; [reflexivity|]);
    (split; [reflexivity|]);
    (split; [vm_compute; reflexivity|]);
    (split; [intros v Hv; vm_compute in Hv; vm_compute; congruence|]);
    (split; [exact Hprice|]);
    eapply Hposts; reflexivity.
Qed.

(** The listing of item 7 at 10^15 wei goes to [item-listed]. *)
Lemma eventRoute_fixed_path_witness :
  exists endpoint payload,
    usecase.eventRoute sample.listed = Some (endpoint, payload) /\
    endpoint = schema.apiPrefix +:+ schema.downstreamPath "ItemListed" /\
    dom payload = schema.relevantFields "ItemListed" /\
    (forall v, payload !! "price_wei" = Some v ->
       v = usecase.JString (Go.big_String (Some (10 ^ 15)))) /\
    (forall p, Some (10 ^ 15) = Some p ->
       Z.of_int <$> NilZero.int_of_string (Go.big_String (Some (10 ^ 15))) = Some p) /\
    (forall marshal uc backend url body,
       In (usecase.Post url body) (usecase.handleEvent marshal uc sample.listed backend) ->
       url = usecase.backendBaseURL uc +:+ endpoint).
Proof.
  exact (eventRoute_fixed_path sample.listed (or_introl eq_refl)).
Defined.

(** ** The reconnect loop *)

Lemma min_is_Zmin (a b : Z) : usecase.min a b = Z.min a b.
Proof.
  unfold usecase.min. destruct (Z.ltb_spec a b); lia.
Qed.

(** One doubling, capped: the product stays far below 2^63. *)
Lemma nextDelay_doubles (k : nat) :
  usecase.nextDelay (Z.min (usecase.floorDelay * 2 ^ Z.of_nat k) usecase.maxRetryDelay)
  = Z.min (usecase.floorDelay * 2 ^ Z.of_nat (S k)) usecase.maxRetryDelay.
Proof.
  rewrite Nat2Z.inj_succ, Z.pow_succ_r by lia.
  assert (Hpow : 0 < 2 ^ Z.of_nat k) by (apply Z.pow_pos_nonneg; lia).
  unfold usecase.nextDelay. rewrite min_is_Zmin.
  unfold usecase.floorDelay, usecase.maxRetryDelay, usecase.Second in *.
  set (a := 2 ^ Z.of_nat k) in *.
  unfold Go.wrap_int64, Go.two63, Go.two64.
  rewrite Z.mod_small by lia. lia.
Qed.

Lemma floorDelay_is_first :
  usecase.floorDelay = Z.min (usecase.floorDelay * 2 ^ Z.of_nat 0) usecase.maxRetryDelay.
Proof. reflexivity. Qed.

(** [n] failed attempts in a row, entered with the delay numbered [k]. *)
Lemma realtimeLoop_failures (n : nat) :
  forall (k : nat) (rest : list usecase.Round),
    usecase.realtimeLoop
      (repeat (usecase.SubscribeFailed false) n ++ rest)%list
      (Z.min (usecase.floorDelay * 2 ^ Z.of_nat k) usecase.maxRetryDelay)
    = let '(effects, final) :=
        usecase.realtimeLoop rest
          (Z.min (usecase.floorDelay * 2 ^ Z.of_nat (k + n)) usecase.maxRetryDelay) in
      ((schema.backoffRetries k n ++ effects)%list, final).
Proof.
  induction n as [|n IH]; intros k rest.
  - cbn [repeat app schema.backoffRetries]. rewrite Nat.add_0_r.
    now destruct (usecase.realtimeLoop rest _).
  - cbn [repeat app schema.backoffRetries usecase.realtimeLoop].
    rewrite nextDelay_doubles, IH.
    replace (S k + n)%nat with (k + S n)%nat by lia.
    now destruct (usecase.realtimeLoop rest _).
Qed.

Lemma realtimeLoop_only_failures (n k : nat) :
  usecase.realtimeLoop (repeat (usecase.SubscribeFailed false) n)
    (Z.min (usecase.floorDelay * 2 ^ Z.of_nat k) usecase.maxRetryDelay)
  = (schema.backoffRetries k n,
     Z.min (usecase.floorDelay * 2 ^ Z.of_nat (k + n)) usecase.maxRetryDelay).
Proof.
  rewrite <- (app_nil_r (repeat _ n)), realtimeLoop_failures.
  cbn [usecase.realtimeLoop]. now rewrite app_nil_r.
Qed.

(** An undisturbed history leaves the loop running. *)
Lemma realtimeLoop_history (history : list usecase.Round) :
  forallb schema.undisturbed history = true ->
  forall (rest : list usecase.Round) (d : Z),
  exists before d',
    usecase.realtimeLoop (history ++ rest)%list d
    = ((before ++ fst (usecase.realtimeLoop rest d'))%list,
       snd (usecase.realtimeLoop rest d')).
Proof.
  induction history as [|r history IH]; intros Hrun rest d.
  - exists [], d. cbn [app]. now destruct (usecase.realtimeLoop rest d).
  - cbn in Hrun. apply andb_prop in Hrun as [Hr Hrun].
    destruct r as [|done|events done|events]; cbn in Hr; try discriminate;
      destruct done; try discriminate; cbn [app usecase.realtimeLoop].
    + destruct (IH Hrun rest (usecase.nextDelay d)) as (before & d' & ->).
      exists (usecase.Subscribe :: usecase.Wait d :: before), d'. reflexivity.
    + destruct (IH Hrun rest (usecase.nextDelay (5 * usecase.Second)))
        as (before & d' & ->).
      exists (usecase.Subscribe :: map usecase.Handle events ++
              usecase.Wait (5 * usecase.Second) :: before)%list, d'.
      cbn. f_equal. f_equal. now rewrite <- !app_assoc.
Qed.

(** C1.  Whatever happened before, when a subscription that connected
    comes to its end the listener waits the floor (5 s) and subscribes
    again; the [N]-th failed reconnect in a row is followed by a wait of
    [min(floor * 2^N, ceiling)] (ceiling 60 s) and a new attempt.  The
    stored delay is back at the floor as soon as a subscription connects,
    and after [N] failures in a row from start-up it is
    [min(floor * 2^N, ceiling)], the failure numbered [k] (from 0) having
    been followed by a wait of [min(floor * 2^k, ceiling)]. *)
Theorem startRealtimeListener_backoff (history : list usecase.Round)
    (events : list model.ContractEvent) (n : nat) :
  forallb schema.undisturbed history = true ->
  (exists before,
     fst (usecase.startRealtimeListener
            (history ++ usecase.Subscribed events false ::
               repeat (usecase.SubscribeFailed false) n)%list)
     = (before ++ usecase.Subscribe :: map usecase.Handle events ++
        usecase.Wait usecase.floorDelay :: schema.backoffRetries 1 n)%list) /\
  snd (usecase.startRealtimeListener (history ++ [usecase.Listening events])%list)
  = usecase.floorDelay /\
  usecase.startRealtimeListener (repeat (usecase.SubscribeFailed false) n)
  = (schema.backoffRetries 0 n,
     Z.min (usecase.floorDelay * 2 ^ Z.of_nat n) usecase.maxRetryDelay).
Proof.
  intros Hrun. unfold usecase.startRealtimeListener. repeat split.
  - destruct (realtimeLoop_history history Hrun
                (usecase.Subscribed events false ::
                   repeat (usecase.SubscribeFailed false) n)
                (5 * usecase.Second)) as (before & d' & ->).
    exists before. cbn [fst usecase.realtimeLoop]. f_equal.
    change (5 * usecase.Second) with usecase.floorDelay.
    rewrite floorDelay_is_first at 1. rewrite nextDelay_doubles.
    rewrite realtimeLoop_only_failures. reflexivity.
  - destruct (realtimeLoop_history history Hrun [usecase.Listening events]
                (5 * usecase.Second)) as (before & d' & ->).
    reflexivity.
  - change (5 * usecase.Second) with usecase.floorDelay.
    rewrite floorDelay_is_first at 1. now rewrite realtimeLoop_only_failures.
Qed.

(** Two failures, a connection that ends, then five failures: the waits
    after the connection are 5, 10, 20, 40, 60 and 60 seconds. *)
Lemma startRealtimeListener_backoff_witness :
  exists before,
    fst (usecase.startRealtimeListener
           [usecase.SubscribeFailed false; usecase.SubscribeFailed false;
            usecase.Subscribed [] false;
            usecase.SubscribeFailed false; usecase.SubscribeFailed false;
            usecase.SubscribeFailed false; usecase.SubscribeFailed false;
            usecase.SubscribeFailed false])
    = (before ++
       [usecase.Subscribe; usecase.Wait 5000000000;
        usecase.Subscribe; usecase.Wait 10000000000;
        usecase.Subscribe; usecase.Wait 20000000000;
        usecase.Subscribe; usecase.Wait 40000000000;
        usecase.Subscribe; usecase.Wait 60000000000;
        usecase.Subscribe; usecase.Wait 60000000000])%list.
Proof.
  destruct (startRealtimeListener_backoff
              [usecase.SubscribeFailed false; usecase.SubscribeFailed false] [] 5 eq_refl)
    as [[before Hrun] _].
  exists before. exact Hrun.
Defined.

(** ** The polling fallback *)

Lemma fetchedRanges_app (xs ys : list contract.PollAction) :
  schema.fetchedRanges (xs ++ ys)%list
  = (schema.fetchedRanges xs ++ schema.fetchedRanges ys)%list.
Proof.
  induction xs as [|[q answered|e|] xs IH]; cbn; auto. now rewrite IH.
Qed.

(** Sending events fetches nothing. *)
Lemma sendEvents_fetches_nothing (events : list model.ContractEvent) :
  forall doneAt, schema.fetchedRanges (fst (contract.sendEvents events doneAt)) = [].
Proof.
  induction events as [|e events IH]; intros doneAt; [reflexivity|].
  cbn [contract.sendEvents].
  destruct doneAt as [[|k]|]; [reflexivity| |].
  - specialize (IH (Nat.pred <$> Some (S k))).
    destruct (contract.sendEvents events _) as [acts completed]. exact IH.
  - specialize (IH (Nat.pred <$> None)).
    destruct (contract.sendEvents events _) as [acts completed]. exact IH.
Qed.

(** One pass of the loop: the cursor does not go back and stays a
    [uint64]; the pass fetches nothing and keeps the cursor, or fetches
    the one range from [cursor + 1] to the head it read, which is above
    the cursor and is the new cursor if the loop goes on. *)
Lemma pollStep_cursor (hex : common.Codec) (g : contract.FrimaContractGateway)
    (last : Z) (w : contract.PollWake) :
  Go.is_uint64 last ->
  (forall n, snd (contract.pollStep hex g last w) = Some n ->
             last <= n /\ Go.is_uint64 n) /\
  ((schema.fetchedRanges (fst (contract.pollStep hex g last w)) = [] /\
    forall n, snd (contract.pollStep hex g last w) = Some n -> n = last) \/
   (exists head,
      last < head /\ Go.is_uint64 head /\
      schema.fetchedRanges (fst (contract.pollStep hex g last w)) = [(last + 1, head)] /\
      forall n, snd (contract.pollStep hex g last w) = Some n -> n = head)).
Proof.
  intros Hlast. destruct w as [|[number|] logs doneAt]; cbn [contract.pollStep].
  - split; [intros n [=]|]. left. split; [reflexivity|intros n [=]].
  - pose proof (big_Uint64_range number) as Hhead.
    set (head := Go.big_Uint64 number) in *.
    destruct (Z.leb_spec head last) as [Hle|Hgt].
    + cbn [fst snd]. split.
      * intros n [= <-]. split; [lia|assumption].
      * left. split; [reflexivity|]. now intros n [= <-].
    + assert (Hnext : Go.uint64_add last 1 = last + 1).
      { unfold Go.is_uint64, Go.two64 in *. apply uint64_add_exact; lia. }
      rewrite Hnext.
      destruct (logs _) as [fetched|].
      * pose proof (sendEvents_fetches_nothing (contract.decodeLogs hex g fetched) doneAt)
          as Hsend.
        destruct (contract.sendEvents _ _) as [acts completed]. cbn [fst snd] in *.
        split.
        -- destruct completed; intros n [= <-]. split; [lia|assumption].
        -- right. exists head. repeat split; try assumption; try apply Hhead.
           ++ cbn. now rewrite Hsend.
           ++ destruct completed; now intros n [= <-].
      * cbn [fst snd]. split.
        -- intros n [= <-]. split; [lia|assumption].
        -- right. exists head. repeat split; try assumption; try apply Hhead.
           now intros n [= <-].
  - split; [intros n [=]|]. left. split; [reflexivity|intros n [=]].
Qed.

(** The whole run, from any cursor. *)
Lemma pollLoop_cursor (hex : common.Codec) (g : contract.FrimaContractGateway)
    (wakes : list contract.PollWake) :
  forall last, Go.is_uint64 last ->
    StronglySorted Z.le (last :: snd (contract.pollLoop hex g last wakes)) /\
    Forall (fun r => last < fst r <= snd r)
      (schema.fetchedRanges (fst (contract.pollLoop hex g last wakes))) /\
    Forall (fun r => fst r - 1 = last \/
                     In (fst r - 1) (snd (contract.pollLoop hex g last wakes)))
      (schema.fetchedRanges (fst (contract.pollLoop hex g last wakes))) /\
    StronglySorted (fun r1 r2 => snd r1 < fst r2)
      (schema.fetchedRanges (fst (contract.pollLoop hex g last wakes))).
Proof.
  induction wakes as [|w wakes IH]; intros last Hlast.
  - cbn. repeat split; constructor; constructor.
  - cbn [contract.pollLoop].
    destruct (pollStep_cursor hex g last w Hlast) as [Hnext Hfetch].
    destruct (contract.pollStep hex g last w) as [acts [next|]]; cbn [fst snd] in *.
    + destruct (Hnext next eq_refl) as [Hle Hrange].
      destruct (IH next Hrange) as (Hsorted & Habove & Hfrom & Hdisjoint).
      destruct (contract.pollLoop hex g next wakes) as [acts' cursors].
      cbn [fst snd] in *. rewrite fetchedRanges_app.
      destruct (StronglySorted_inv Hsorted) as [_ Hcursors].
      assert (Habove' : Forall (fun r => last < fst r <= snd r)
                          (schema.fetchedRanges acts')).
      { eapply List.Forall_impl; [|exact Habove]. cbn. intros r Hr. lia. }
      assert (Hfrom' : Forall (fun r => fst r - 1 = last \/ In (fst r - 1) (next :: cursors))
                         (schema.fetchedRanges acts')).
      { eapply List.Forall_impl; [|exact Hfrom]. cbn. intros r [Hr|Hr]; auto. }
      split.
      { constructor; [assumption|]. constructor; [assumption|].
        eapply List.Forall_impl; [|exact Hcursors]. cbn. intros c Hc. lia. }
      destruct Hfetch as [[-> _]|(head & Hlt & Hhead & -> & Hnew)]; cbn [app].
      * repeat split; assumption.
      * rewrite (Hnew next eq_refl) in *. repeat split.
        -- constructor; [cbn; lia|assumption].
        -- constructor; [cbn; left; lia|assumption].
        -- constructor; [assumption|].
           eapply List.Forall_impl; [|exact Habove]. cbn. intros r Hr. lia.
    + split; [repeat constructor|].
      destruct Hfetch as [[-> _]|(head & Hlt & Hhead & -> & _)].
      * repeat split; constructor.
      * repeat split; repeat constructor; cbn; lia.
Qed.

(** C9.  In the polling loop started from a [uint64] block, the cursor
    never goes back, every fetched range starts one block above a value
    the cursor held and above everything fetched before, so no block is
    fetched (and delivered) twice; each pass asks for exactly the range
    from [cursor + 1], and when [FilterLogs] fails the pass still moves
    the cursor to the head it read, without sending anything. *)
Theorem pollEvents_cursor (hex : common.Codec) (g : contract.FrimaContractGateway)
    (startBlock : Z) (wakes : list contract.PollWake) :
  Go.is_uint64 startBlock ->
  let run := contract.pollEvents hex g startBlock wakes in
  StronglySorted Z.le (startBlock :: snd run) /\
  Forall (fun r => startBlock < fst r <= snd r) (schema.fetchedRanges (fst run)) /\
  Forall (fun r => fst r - 1 = startBlock \/ In (fst r - 1) (snd run))
    (schema.fetchedRanges (fst run)) /\
  StronglySorted (fun r1 r2 => snd r1 < fst r2) (schema.fetchedRanges (fst run)) /\
  (forall w q answered,
     In (contract.Fetched q answered) (fst (contract.pollStep hex g startBlock w)) ->
     ethclient.FromBlock q = startBlock + 1) /\
  (forall number logs doneAt,
     startBlock < Go.big_Uint64 number ->
     logs {| ethclient.Addresses := [contract.contractAddress g];
             ethclient.FromBlock := startBlock + 1;
             ethclient.ToBlock := Go.big_Uint64 number |} = None ->
     contract.pollStep hex g startBlock (contract.TickerFired (Some number) logs doneAt)
     = ([contract.Fetched
           {| ethclient.Addresses := [contract.contractAddress g];
              ethclient.FromBlock := startBlock + 1;
              ethclient.ToBlock := Go.big_Uint64 number |} false],
        Some (Go.big_Uint64 number))).
Proof.
  intros Hstart run. subst run. unfold contract.pollEvents.
  destruct (pollLoop_cursor hex g wakes startBlock Hstart)
    as (Hsorted & Habove & Hfrom & Hdisjoint).
  repeat split; try assumption.
  - intros w q answered Hin.
    destruct (pollStep_cursor hex g startBlock w Hstart) as [_ Hfetch].
    assert (Hranges : In (ethclient.FromBlock q, ethclient.ToBlock q)
                         (schema.fetchedRanges
                            (fst (contract.pollStep hex g startBlock w)))).
    { revert Hin. generalize (fst (contract.pollStep hex g startBlock w)).
      intros acts. induction acts as [|[q' a'|e|] acts IH]; cbn; intros Hin.
      - destruct Hin.
      - destruct Hin as [[= -> _]|Hin]; auto.
      - destruct Hin as [[=]|Hin]; auto.
      - destruct Hin as [[=]|Hin]; auto. }
    destruct Hfetch as [[Hnone _]|(head & _ & _ & Hone & _)].
    + rewrite Hnone in Hranges. destruct Hranges.
    + rewrite Hone in Hranges. destruct Hranges as [[= -> _]|[]]. reflexivity.
  - intros number logs doneAt Hgt Herr. cbn [contract.pollStep].
    pose proof (big_Uint64_range number) as Hhead.
    destruct (Z.leb_spec (Go.big_Uint64 number) startBlock) as [Hle|_]; [lia|].
    assert (Hnext : Go.uint64_add startBlock 1 = startBlock + 1).
    { unfold Go.is_uint64, Go.two64 in *. apply uint64_add_exact; lia. }
    rewrite Hnext, Herr. reflexivity.
Qed.

(** The sample run from block 100: the cursor goes 105, 105, 110, 120,
    the ranges fetched are 101-105, 106-110 and 111-120, and the failed
    fetch of 106-110 moves the cursor to 110. *)
Lemma pollEvents_cursor_witness :
  StronglySorted Z.le
    (100 :: snd (contract.pollEvents sample.codec sample.gateway 100 sample.wakes)) /\
  StronglySorted (fun r1 r2 => snd r1 < fst r2)
    (schema.fetchedRanges
       (fst (contract.pollEvents sample.codec sample.gateway 100 sample.wakes))) /\
  contract.pollStep sample.codec sample.gateway 105
    (contract.TickerFired (Some 110) (fun _ => None) None)
  = ([contract.Fetched
        {| ethclient.Addresses := [sample.marketplace];
           ethclient.FromBlock := 105 + 1;
           ethclient.ToBlock := Go.big_Uint64 110 |} false],
     Some (Go.big_Uint64 110)).
Proof.
  assert (H100 : Go.is_uint64 100) by (unfold Go.is_uint64, Go.two64; lia).
  assert (H105 : Go.is_uint64 105) by (unfold Go.is_uint64, Go.two64; lia).
  destruct (pollEvents_cursor sample.codec sample.gateway 100 sample.wakes H100)
    as (Hsorted & _ & _ & Hdisjoint & _).
  destruct (pollEvents_cursor sample.codec sample.gateway 105 [] H105)
    as (_ & _ & _ & _ & _ & Hbridge).
  split; [exact Hsorted|]. split; [exact Hdisjoint|].
  apply Hbridge; reflexivity.
Defined.

(** ** Worked examples *)

(** The largest [uint64] id is handed to [Pack] as [-1]. *)
Example int64_of_uint64_max : Go.int64_of_uint64 (2 ^ 64 - 1) = -1.
Proof. reflexivity. Qed.

(** On a chain of 500 blocks the scan [(0, 400)] starts at block 0, ends
    at block 400, keeps the listing and drops the foreign log. *)
Example ScanPastEvents_young_chain :
  contract.scanQuery
    (contract.ScanPastEvents sample.codec sample.youngGateway 0 (Some 400))
  = Some {| ethclient.Addresses := [sample.marketplace];
            ethclient.FromBlock := 0; ethclient.ToBlock := 400 |} /\
  length (contract.scanEvents
            (contract.ScanPastEvents sample.codec sample.youngGateway 0 (Some 400)))
  = 1%nat.
Proof. split; reflexivity. Qed.

(** The listing of item 7, token 3, at 10^15 wei, from the log to the
    request: one event, routed to [item-listed], with the item id as a
    number and the price as the decimal string. *)
Example item_listed_end_to_end :
  exists event payload,
    contract.parseLog sample.codec sample.gateway sample.listedLog = Some event /\
    model.ItemId event = 7 /\ model.TokenId event = 3 /\
    model.Price event = Some (10 ^ 15) /\
    usecase.eventRoute event = Some ("/api/v1/blockchain/item-listed", payload) /\
    payload !! "chain_item_id" = Some (usecase.JUint64 7) /\
    payload !! "price_wei" = Some (usecase.JString "1000000000000000").
Proof.
  eexists. eexists. split; [reflexivity|].
  split; [reflexivity|]. split; [reflexivity|]. split; [reflexivity|].
  split; [reflexivity|]. split; vm_compute; reflexivity.
Qed.

(** A context done while the second event is being sent ends the pass
    without moving the cursor. *)
Example pollStep_done_while_sending :
  contract.pollStep sample.codec sample.gateway 100
    (contract.TickerFired (Some 120)
       (fun _ => Some [sample.cancelledLog; sample.cancelledLog]) (Some 1%nat))
  = ([contract.Fetched
        {| ethclient.Addresses := [sample.marketplace];
           ethclient.FromBlock := 101; ethclient.ToBlock := 120 |} true;
      contract.Sent
        (model.set_Seller "0x0000000000000000000000000000000000001234"
           (model.set_ItemId 7
              (model.newEvent "ItemCancelled"
                 "0x00000000000000000000000000000000000000000000000000000000000000ad"
                 115)))],
     None).
Proof. vm_compute. reflexivity. Qed.

(** A nil price is written as the string ["<nil>"], still not a number. *)
Example eventRoute_nil_price :
  exists payload,
    usecase.eventRoute (model.newEvent "ItemPurchased" "0xab" 1)
    = Some ("/api/v1/blockchain/item-purchased", payload) /\
    payload !! "price_wei" = Some (usecase.JString "<nil>").
Proof. eexists. split; [reflexivity|]. vm_compute. reflexivity. Qed.

(** An event of an unknown type is dropped without a request. *)
Example handleEvent_unknown_type :
  usecase.handleEvent sample.marshal sample.uc (model.newEvent "ItemBurned" "0xab" 1)
    sample.unavailable = [].
Proof. reflexivity. Qed.

(** * Further properties of the code *)

(** ** The decoder: when it yields an event, and what the event holds *)

(** The cases of [parseLog]: a decoded event comes from a log of the
    configured address and is the output of the parser whose signature
    is topic 0. *)
Lemma parseLog_cases (hex : common.Codec) (g : contract.FrimaContractGateway)
    (vLog : types.Log) (event : model.ContractEvent) :
  contract.parseLog hex g vLog = Some event ->
  types.Address vLog = contract.contractAddress g /\
  exists sig rest,
    types.Topics vLog = sig :: rest /\
    ((sig = abi.EventID (contract.contractABI g) "ItemListed" /\
      event = contract.parseItemListed hex g vLog) \/
     (sig = abi.EventID (contract.contractABI g) "ItemPurchased" /\
      event = contract.parseItemPurchased hex g vLog) \/
     (sig = abi.EventID (contract.contractABI g) "ItemUpdated" /\
      event = contract.parseItemUpdated hex g vLog) \/
     (sig = abi.EventID (contract.contractABI g) "ItemCancelled" /\
      event = contract.parseItemCancelled hex g vLog) \/
     (sig = abi.EventID (contract.contractABI g) "ReceiptConfirmed" /\
      event = contract.parseReceiptConfirmed hex g vLog)).
Proof.
  unfold contract.parseLog. destruct (types.Topics vLog) as [|sig rest]; [discriminate|].
  destruct (Z.eqb_spec (types.Address vLog) (contract.contractAddress g)) as [Haddr|];
    [|discriminate]. cbn [negb].
  intros Hparse. split; [assumption|]. exists sig, rest. split; [reflexivity|].
  repeat match type of Hparse with
         | (if ?a =? ?b then _ else _) = _ =>
             destruct (Z.eqb_spec a b); [injection Hparse as <-; tauto|]
         end.
  discriminate.
Qed.

(** The head of every parsed event: kind, hash and block. *)
Lemma parsers_head (hex : common.Codec) (g : contract.FrimaContractGateway)
    (vLog : types.Log) :
  let head e := (model.Type_ e, model.TxHash e, model.BlockNo e, model.BuyerUid e) in
  let from name :=
    (name, common.HashHex hex (types.TxHash vLog), types.BlockNumber vLog, "") in
  head (contract.parseItemListed hex g vLog) = from "ItemListed" /\
  head (contract.parseItemPurchased hex g vLog) = from "ItemPurchased" /\
  head (contract.parseItemUpdated hex g vLog) = from "ItemUpdated" /\
  head (contract.parseItemCancelled hex g vLog) = from "ItemCancelled" /\
  head (contract.parseReceiptConfirmed hex g vLog) = from "ReceiptConfirmed".
Proof.
  cbv zeta.
  unfold contract.parseItemListed, contract.parseItemPurchased,
    contract.parseItemUpdated, contract.parseItemCancelled,
    contract.parseReceiptConfirmed.
  repeat split;
    destruct (types.Topics vLog) as [|t0 [|t1 [|t2 [|t3 rest]]]];
    try destruct (abi.UnpackIntoMap _ _ _); split_assignments.
Qed.

(** X1.  [parseLog] yields an event exactly for a log that has a topic,
    comes from the configured address and whose topic 0 is the id of one
    of the five events; nothing else about the log matters. *)
Theorem parseLog_decodes_iff (hex : common.Codec) (g : contract.FrimaContractGateway)
    (vLog : types.Log) :
  contract.parseLog hex g vLog <> None <->
  types.Address vLog = contract.contractAddress g /\
  exists sig rest name,
    types.Topics vLog = sig :: rest /\ In name schema.knownEvents /\
    sig = abi.EventID (contract.contractABI g) name.
Proof.
  split.
  - destruct (contract.parseLog hex g vLog) as [event|] eqn:Hparse; [|congruence].
    intros _. apply parseLog_cases in Hparse as (Haddr & sig & rest & Htopics & Hcase).
    split; [assumption|]. exists sig, rest.
    destruct Hcase as [[-> _]|[[-> _]|[[-> _]|[[-> _]|[-> _]]]]];
      eexists; (split; [eassumption|]); (split; [|reflexivity]); cbn; auto 6.
  - intros (Haddr & sig & rest & name & Htopics & Hname & ->).
    unfold contract.parseLog. rewrite Htopics, Haddr, Z.eqb_refl. cbn [negb].
    cbn in Hname. destruct Hname as [<-|[<-|[<-|[<-|[<-|[]]]]]];
      repeat match goal with
             | |- (if ?a =? ?b then _ else _) <> _ =>
                 destruct (Z.eqb_spec a b); [discriminate|]
             end; congruence.
Qed.

(** X2.  A decoded event is of one of the five kinds, the id of its kind
    is topic 0 of the log, and it carries the log's transaction hash (in
    hexadecimal) and block number; the buyer uid is never filled. *)
Theorem parseLog_event_provenance (hex : common.Codec)
    (g : contract.FrimaContractGateway) (vLog : types.Log)
    (event : model.ContractEvent) :
  contract.parseLog hex g vLog = Some event ->
  In (model.Type_ event) schema.knownEvents /\
  (exists rest,
     types.Topics vLog
     = abi.EventID (contract.contractABI g) (model.Type_ event) :: rest) /\
  model.TxHash event = common.HashHex hex (types.TxHash vLog) /\
  model.BlockNo event = types.BlockNumber vLog /\
  model.BuyerUid event = "".
Proof.
  intros Hparse.
  apply parseLog_cases in Hparse as (_ & sig & rest & Htopics & Hcase).
  destruct (parsers_head hex g vLog) as (H1 & H2 & H3 & H4 & H5).
  destruct Hcase as [[-> ->]|[[-> ->]|[[-> ->]|[[-> ->]|[-> ->]]]]];
    [injection H1 as Ht Hh Hb Hu | injection H2 as Ht Hh Hb Hu
    | injection H3 as Ht Hh Hb Hu | injection H4 as Ht Hh Hb Hu
    | injection H5 as Ht Hh Hb Hu];
    rewrite Ht, Hh, Hb, Hu; (split; [cbn; auto 6|]);
    (split; [exists rest; exact Htopics|]); auto.
Qed.

(** The listing log of the sample gateway. *)
Lemma parseLog_event_provenance_witness :
  In (model.Type_ (contract.parseItemListed sample.codec sample.gateway sample.listedLog))
     schema.knownEvents /\
  model.BlockNo (contract.parseItemListed sample.codec sample.gateway sample.listedLog)
  = 24002.
Proof.
  destruct (parseLog_event_provenance sample.codec sample.gateway sample.listedLog
              (contract.parseItemListed sample.codec sample.gateway sample.listedLog)
              eq_refl) as (Hkind & _ & _ & Hblock & _).
  exact (conj Hkind Hblock).
Defined.

(** X3.  With distinct event ids, a log that has all the topics of its
    kind decodes its indexed fields from the topics alone, whatever the
    payload holds: the item id is the low 64 bits of topic 1 and seller
    and buyer are the addresses in their topics; an indexed field the
    kind does not have stays empty. *)
Theorem parseLog_indexed_fields (hex : common.Codec)
    (g : contract.FrimaContractGateway) (vLog : types.Log)
    (event : model.ContractEvent) :
  NoDup (abi.EventID (contract.contractABI g) <$> schema.knownEvents) ->
  contract.parseLog hex g vLog = Some event ->
  let id := abi.EventID (contract.contractABI g) in
  (forall t1 t2 t3 rest,
     types.Topics vLog = id "ItemListed" :: t1 :: t2 :: t3 :: rest ->
     model.ItemId event = Go.big_Uint64 t1 /\ model.TokenId event = Go.big_Uint64 t2 /\
     model.Seller event = contract.topicAddress hex t3 /\ model.Buyer event = "") /\
  (forall t1 t2 rest,
     types.Topics vLog = id "ItemPurchased" :: t1 :: t2 :: rest ->
     model.ItemId event = Go.big_Uint64 t1 /\
     model.Buyer event = contract.topicAddress hex t2 /\ model.Seller event = "") /\
  (forall t1 rest,
     types.Topics vLog = id "ItemUpdated" :: t1 :: rest ->
     model.ItemId event = Go.big_Uint64 t1 /\ model.TokenId event = 0 /\
     model.Seller event = "" /\ model.Buyer event = "") /\
  (forall t1 t2 rest,
     types.Topics vLog = id "ItemCancelled" :: t1 :: t2 :: rest ->
     model.ItemId event = Go.big_Uint64 t1 /\ model.TokenId event = 0 /\
     model.Seller event = contract.topicAddress hex t2 /\ model.Buyer event = "" /\
     model.Price event = None) /\
  (forall t1 t2 t3 rest,
     types.Topics vLog = id "ReceiptConfirmed" :: t1 :: t2 :: t3 :: rest ->
     model.ItemId event = Go.big_Uint64 t1 /\ model.TokenId event = 0 /\
     model.Buyer event = contract.topicAddress hex t2 /\
     model.Seller event = contract.topicAddress hex t3).
Proof.
  intros Hdup Hparse id.
  cbn in Hdup. rewrite !NoDup_cons, !not_elem_of_cons in Hdup.
  destruct Hdup as ((H12 & H13 & H14 & H15 & _) & (H23 & H24 & H25 & _)
                    & (H34 & H35 & _) & (H45 & _) & _).
  apply parseLog_cases in Hparse as (_ & sig & rest0 & Htopics & Hcase).
  unfold contract.topicUint64 in *.
  repeat split; intros; subst id;
    match goal with
    | H : types.Topics vLog = _ :: _ |- _ =>
        rewrite H in Htopics; injection Htopics as <- <-
    end;
    destruct Hcase as [[Hsig ->]|[[Hsig ->]|[[Hsig ->]|[[Hsig ->]|[Hsig ->]]]]];
    try (symmetry in Hsig; contradiction); try contradiction;
    unfold contract.parseItemListed, contract.parseItemPurchased,
      contract.parseItemUpdated, contract.parseItemCancelled,
      contract.parseReceiptConfirmed, contract.topicUint64;
    match goal with H : types.Topics vLog = _ |- _ => rewrite H end;
    try destruct (abi.UnpackIntoMap _ _ _); split_assignments.
Qed.

(** The listing log of the sample gateway: item 7, token 3, seller
    0xabc. *)
Lemma parseLog_indexed_fields_witness :
  model.ItemId (contract.parseItemListed sample.codec sample.gateway sample.listedLog)
  = Go.big_Uint64 7 /\
  model.Seller (contract.parseItemListed sample.codec sample.gateway sample.listedLog)
  = contract.topicAddress sample.codec 2748.
Proof.
  assert (Hdup : NoDup (abi.EventID (contract.contractABI sample.gateway)
                          <$> schema.knownEvents)).
  { vm_compute. repeat constructor; rewrite ?elem_of_cons, ?elem_of_nil;
      intuition discriminate. }
  destruct (parseLog_indexed_fields sample.codec sample.gateway sample.listedLog
              (contract.parseItemListed sample.codec sample.gateway sample.listedLog)
              Hdup eq_refl) as (Hlisted & _).
  destruct (Hlisted 7 3 2748 [] eq_refl) as (Hid & _ & Hseller & _).
  exact (conj Hid Hseller).
Defined.

Lemma is_uint64_zero : Go.is_uint64 0.
Proof. unfold Go.is_uint64, Go.two64. lia. Qed.



(** ** The loop over fetched logs *)

Lemma decodeLogs_cons (hex : common.Codec) (g : contract.FrimaContractGateway)
    (vLog : types.Log) (logs : list types.Log) :
  contract.decodeLogs hex g (vLog :: logs)
  = match contract.parseLog hex g vLog with
    | Some event => event :: contract.decodeLogs hex g logs
    | None => contract.decodeLogs hex g logs
    end.
Proof.
  unfold contract.decodeLogs. cbn [omap list_omap].
  destruct (Z.eqb_spec (types.Address vLog) (contract.contractAddress g)) as [|Hne];
    cbn [negb].
  - reflexivity.
  - replace (contract.parseLog hex g vLog) with (@None model.ContractEvent);
      [reflexivity|].
    unfold contract.parseLog. destruct (types.Topics vLog); [reflexivity|].
    now rewrite (proj2 (Z.eqb_neq _ _) Hne).
Qed.

(** X5.  The loop that [ScanPastEvents] and [pollEvents] run over the
    fetched logs keeps the order of the logs and works log by log: the
    events of two batches are the events of the first followed by those
    of the second; an event is produced exactly when some log of the
    batch decodes to it; and there are never more events than logs. *)
Theorem decodeLogs_log_by_log (hex : common.Codec)
    (g : contract.FrimaContractGateway) (logs more : list types.Log) :
  contract.decodeLogs hex g (logs ++ more)%list
  = (contract.decodeLogs hex g logs ++ contract.decodeLogs hex g more)%list /\
  (forall event,
     In event (contract.decodeLogs hex g logs) <->
     exists vLog, In vLog logs /\ contract.parseLog hex g vLog = Some event) /\
  (length (contract.decodeLogs hex g logs) <= length logs)%nat.
Proof.
  repeat split.
  - induction logs as [|vLog logs IH]; [reflexivity|].
    cbn [app]. rewrite !decodeLogs_cons, IH.
    now destruct (contract.parseLog hex g vLog).
  - induction logs as [|vLog logs IH]; [intros []|].
    rewrite decodeLogs_cons. intros Hin.
    destruct (contract.parseLog hex g vLog) as [e|] eqn:Hparse.
    + destruct Hin as [<-|Hin].
      * exists vLog. split; [now left|assumption].
      * destruct (IH Hin) as (v & Hv & Hp). exists v. split; [now right|assumption].
    + destruct (IH Hin) as (v & Hv & Hp). exists v. split; [now right|assumption].
  - induction logs as [|vLog logs IH]; [intros (v & [] & _)|].
    intros (v & [<-|Hv] & Hp); rewrite decodeLogs_cons.
    + rewrite Hp. now left.
    + assert (Hin : In event (contract.decodeLogs hex g logs)) by (apply IH; eauto).
      destruct (contract.parseLog hex g vLog); [now right|assumption].
  - induction logs as [|vLog logs IH]; [reflexivity|].
    rewrite decodeLogs_cons. destruct (contract.parseLog hex g vLog); cbn; lia.
Qed.

(** ** From the log to the request *)

(** X6.  Every event the decoder yields is routed by [handleEvent]: it
    never falls into the default case, its endpoint is the path of the
    kind whose id is topic 0, and the payload carries the log's
    transaction hash as [tx_hash] and the decoded item id as
    [chain_item_id]. *)
Theorem parseLog_event_is_routed (hex : common.Codec)
    (g : contract.FrimaContractGateway) (vLog : types.Log)
    (event : model.ContractEvent) :
  contract.parseLog hex g vLog = Some event ->
  exists endpoint payload,
    usecase.eventRoute event = Some (endpoint, payload) /\
    endpoint = schema.apiPrefix +:+ schema.downstreamPath (model.Type_ event) /\
    payload !! "tx_hash"
    = Some (usecase.JString (common.HashHex hex (types.TxHash vLog))) /\
    payload !! "chain_item_id" = Some (usecase.JUint64 (model.ItemId event)).
Proof.
  intros Hparse.
  apply parseLog_cases in Hparse as (_ & sig & rest & _ & Hcase).
  destruct (parsers_head hex g vLog) as (H1 & H2 & H3 & H4 & H5).
  assert (Hhead : exists name,
            In name schema.knownEvents /\ model.Type_ event = name /\
            model.TxHash event = common.HashHex hex (types.TxHash vLog)).
  { destruct Hcase as [[_ ->]|[[_ ->]|[[_ ->]|[[_ ->]|[_ ->]]]]];
      [injection H1 as Ht Hh _ _ | injection H2 as Ht Hh _ _
      | injection H3 as Ht Hh _ _ | injection H4 as Ht Hh _ _
      | injection H5 as Ht Hh _ _];
      eexists; (split; [|split; [exact Ht|exact Hh]]); cbn; auto 6. }
  destruct Hhead as (name & Hname & Htype & Hhash).
  clear Hcase H1 H2 H3 H4 H5.
  destruct event as [t txHash blockNo itemId tokenId title price explanation imageUrl
                     uid category seller buyer buyerUid createdAt updatedAt].
  cbn [model.Type_ model.TxHash model.ItemId] in *. subst t txHash.
  cbn in Hname. destruct Hname as [<-|[<-|[<-|[<-|[<-|[]]]]]];
    (eexists; eexists; split; [reflexivity|]);
    (split; [reflexivity|]); split; vm_compute; reflexivity.
Qed.

(** The listing log of the sample gateway goes to [item-listed]. *)
Lemma parseLog_event_is_routed_witness :
  exists endpoint payload,
    usecase.eventRoute
      (contract.parseItemListed sample.codec sample.gateway sample.listedLog)
    = Some (endpoint, payload) /\
    endpoint = schema.apiPrefix +:+ schema.downstreamPath "ItemListed".
Proof.
  destruct (parseLog_event_is_routed sample.codec sample.gateway sample.listedLog
              (contract.parseItemListed sample.codec sample.gateway sample.listedLog)
              eq_refl) as (endpoint & payload & Hroute & Hpath & _).
  exists endpoint, payload. exact (conj Hroute Hpath).
Defined.

(** ** The polling fallback: what is sent, and when the channel is closed *)

(** The inner [select]: the events sent are the first [k] of the batch
    when the context is done at the send numbered [k], all of them
    otherwise, and the batch is completed exactly when nothing is left. *)
Lemma sendEvents_sent (events : list model.ContractEvent) :
  forall doneAt,
    observe.sentEvents (fst (contract.sendEvents events doneAt))
    = match doneAt with Some k => take k events | None => events end /\
    (snd (contract.sendEvents events doneAt) = true <->
     match doneAt with Some k => (length events <= k)%nat | None => True end) /\
    ~ In contract.ClosedChannel (fst (contract.sendEvents events doneAt)).
Proof.
  induction events as [|e events IH]; intros doneAt.
  - cbn. destruct doneAt as [k|]; [destruct k|]; cbn; repeat split; auto; lia.
  - cbn [contract.sendEvents]. destruct doneAt as [[|k]|].
    + cbn. repeat split; auto; try discriminate; lia.
    + destruct (IH (Nat.pred <$> Some (S k))) as (Hsent & Hdone & Hopen).
      destruct (contract.sendEvents events _) as [acts completed].
      cbn in *. rewrite Hsent. repeat split.
      * intros Hc. apply Hdone in Hc. lia.
      * intros Hc. apply Hdone. lia.
      * intros [[=]|Hin]. contradiction.
    + destruct (IH (Nat.pred <$> None)) as (Hsent & Hdone & Hopen).
      destruct (contract.sendEvents events _) as [acts completed].
      cbn in *. rewrite Hsent. repeat split; try tauto.
      intros [[=]|Hin]. contradiction.
Qed.

(** X7.  A pass of [pollEvents] that reads a head above the cursor and
    gets the logs sends the decoded events in log order; if the context
    is done at the send numbered [k] the first [k] events are out, the
    function returns and the cursor is not moved; otherwise every event
    of the batch is sent and the cursor becomes the head. *)
Theorem pollStep_sends_batch (hex : common.Codec) (g : contract.FrimaContractGateway)
    (last number : Z) (logs : ethclient.FilterQuery -> option (list types.Log))
    (fetched : list types.Log) (doneAt : option nat) :
  Go.is_uint64 last ->
  last < Go.big_Uint64 number ->
  logs {| ethclient.Addresses := [contract.contractAddress g];
          ethclient.FromBlock := last + 1;
          ethclient.ToBlock := Go.big_Uint64 number |} = Some fetched ->
  let pass := contract.pollStep hex g last
                (contract.TickerFired (Some number) logs doneAt) in
  let batch := contract.decodeLogs hex g fetched in
  observe.sentEvents (fst pass)
  = match doneAt with Some k => take k batch | None => batch end /\
  snd pass
  = match doneAt with
    | Some k => if (length batch <=? k)%nat then Some (Go.big_Uint64 number) else None
    | None => Some (Go.big_Uint64 number)
    end.
Proof.
  intros Hlast Hgt Hlogs pass batch. subst pass. cbn [contract.pollStep].
  pose proof (big_Uint64_range number) as Hhead.
  destruct (Z.leb_spec (Go.big_Uint64 number) last) as [|_]; [lia|].
  assert (Hnext : Go.uint64_add last 1 = last + 1).
  { unfold Go.is_uint64, Go.two64 in *. apply uint64_add_exact; lia. }
  rewrite Hnext, Hlogs. fold batch.
  destruct (sendEvents_sent batch doneAt) as (Hsent & Hdone & _).
  destruct (contract.sendEvents batch doneAt) as [acts completed].
  cbn [fst snd observe.sentEvents] in *. split; [assumption|].
  destruct doneAt as [k|].
  - destruct (Nat.leb_spec (length batch) k) as [Hle|Hgt'].
    + now rewrite (proj2 Hdone Hle).
    + destruct completed; [|reflexivity]. pose proof (proj1 Hdone eq_refl). lia.
  - now rewrite (proj2 Hdone I).
Qed.

(** Two logs fetched on the sample gateway, the context done at the
    second send: one event is out and the function returns. *)
Lemma pollStep_sends_batch_witness :
  length
    (observe.sentEvents
       (fst (contract.pollStep sample.codec sample.gateway 100
               (contract.TickerFired (Some 120)
                  (fun _ => Some [sample.cancelledLog; sample.cancelledLog])
                  (Some 1%nat))))) = 1%nat /\
  snd (contract.pollStep sample.codec sample.gateway 100
         (contract.TickerFired (Some 120)
            (fun _ => Some [sample.cancelledLog; sample.cancelledLog])
            (Some 1%nat))) = None.
Proof.
  assert (H100 : Go.is_uint64 100) by (unfold Go.is_uint64, Go.two64; lia).
  destruct (pollStep_sends_batch sample.codec sample.gateway 100 120
              (fun _ => Some [sample.cancelledLog; sample.cancelledLog])
              [sample.cancelledLog; sample.cancelledLog] (Some 1%nat)
              H100 eq_refl eq_refl) as [Hsent Hnext].
  split.
  - rewrite Hsent. reflexivity.
  - exact Hnext.
Defined.



(** ** The live subscription *)

(** X9.  The subscription goroutine delivers, in arrival order, the
    events its received logs decode to: what it delivers is always an
    initial part of the decoding of the logs received, and all of it as
    long as no wake-up ends the loop.  On every return it unsubscribes
    and then closes the channel, once, as its last two actions. *)
Theorem subscriptionLoop_delivers_in_order (hex : common.Codec)
    (g : contract.FrimaContractGateway) (wakes : list live.Wake) :
  let acts := live.subscriptionLoop hex g wakes in
  (exists later,
     contract.decodeLogs hex g (observe.received wakes)
     = (observe.delivered acts ++ later)%list) /\
  (acts = map live.Delivered (observe.delivered acts) \/
   acts = (map live.Delivered (observe.delivered acts)
           ++ [live.Unsubscribed; live.ChannelClosed])%list) /\
  (forallb observe.keepsListening wakes = true ->
   observe.delivered acts = contract.decodeLogs hex g (observe.received wakes) /\
   acts = map live.Delivered (observe.delivered acts)).
Proof.
  cbv zeta. induction wakes as [|w wakes IH].
  - cbn. split; [exists []; reflexivity|]. split; [now left|]. auto.
  - destruct IH as ((later & Hlater) & Hshape & Hall).
    destruct w as [| | |vLog doneOnSend];
      cbn [live.subscriptionLoop observe.received].
    1-3: (cbn [observe.delivered map app]; split; [eexists; reflexivity|];
          split; [now right|]; cbn; discriminate).
    rewrite decodeLogs_cons.
    assert (Hk' : forallb observe.keepsListening
                    (live.LogReceived vLog doneOnSend :: wakes) = true ->
                  doneOnSend = false /\ forallb observe.keepsListening wakes = true).
    { cbn. destruct doneOnSend; cbn; [discriminate|auto]. }
    destruct (Z.eqb_spec (types.Address vLog) (contract.contractAddress g)) as [Haddr|Hne];
      cbn [negb].
    + destruct (contract.parseLog hex g vLog) as [event|].
      * destruct doneOnSend.
        -- cbn [observe.delivered]. split; [eexists; reflexivity|].
           split; [now right|]. intros Hk. now destruct (Hk' Hk).
        -- cbn [observe.delivered map app]. split; [|split].
           ++ exists later. now rewrite Hlater.
           ++ destruct Hshape as [Hs|Hs]; [left|right]; now rewrite Hs at 1.
           ++ intros Hk. destruct (Hk' Hk) as [_ Hw].
              destruct (Hall Hw) as [Hd Ha]. split; [now rewrite Hd|now rewrite Ha at 1].
      * split; [now exists later|]. split; [assumption|].
        intros Hk. apply Hall. now destruct (Hk' Hk).
    + replace (contract.parseLog hex g vLog) with (@None model.ContractEvent).
      * split; [now exists later|]. split; [assumption|].
        intros Hk. apply Hall. now destruct (Hk' Hk).
      * unfold contract.parseLog. destruct (types.Topics vLog); [reflexivity|].
        now rewrite (proj2 (Z.eqb_neq _ _) Hne).
Qed.

(** X10.  [SubscribeEvents] returns an error exactly when the head
    cannot be read, and then it has not tried to subscribe.  When the
    node refuses the subscription it falls back to polling from the head
    it has just read, and every range that polling fetches starts above
    that head: the live channel never carries a block that existed when
    the subscription was made. *)
Theorem SubscribeEvents_fallback (hex : common.Codec)
    (g : contract.FrimaContractGateway)
    (subscribes : list common.Address -> bool) :
  ((exists msg, fst (live.SubscribeEvents g subscribes) = ethclient.Err msg) <->
   ethclient.HeaderByNumber (contract.client g) = None) /\
  (ethclient.HeaderByNumber (contract.client g) = None ->
   snd (live.SubscribeEvents g subscribes) = [live.HealthCheck]) /\
  (forall number,
     ethclient.HeaderByNumber (contract.client g) = Some number ->
     subscribes [contract.contractAddress g] = false ->
     fst (live.SubscribeEvents g subscribes)
     = ethclient.Ok (live.Polling (Go.big_Uint64 number)) /\
     forall wakes,
       Forall (fun r => Go.big_Uint64 number < fst r)
         (schema.fetchedRanges
            (fst (contract.pollEvents hex g (Go.big_Uint64 number) wakes)))).
Proof.
  unfold live.SubscribeEvents. repeat split.
  - intros [msg Herr]. destruct (ethclient.HeaderByNumber _); [|reflexivity].
    destruct (subscribes _); discriminate.
  - intros ->. eauto.
  - now intros ->.
  - rewrite H, H0. reflexivity.
  - intros wakes. unfold contract.pollEvents.
    destruct (pollLoop_cursor hex g wakes (Go.big_Uint64 number)
                (big_Uint64_range number)) as (_ & Habove & _).
    eapply List.Forall_impl; [|exact Habove]. cbn. intros r Hr. lia.
Qed.

(** ** The notifier: its schedule and its verdict *)

Section NotifySchedule.

Variables (backend : nat -> usecase.Response) (url jsonData : string) (maxRetries : Z).

(** One pass: the loop stops after its request, or goes on to the next
    pass; it goes on exactly when the answer is retried. *)
Lemma notifyLoop_pass (remaining i : nat) (lastErr : option usecase.AttemptError) :
  let pass :=
    ((if 0 <? Z.of_nat i then [usecase.Sleep (Z.of_nat i * usecase.Second)] else [])
     ++ [usecase.Post url jsonData])%list in
  let r := usecase.notifyLoop backend url jsonData maxRetries (S remaining) i lastErr in
  (observe.retried (backend i) = false /\ snd r = pass /\
   (fst r = None <-> schema.succeeded (backend i) = true)) \/
  (observe.retried (backend i) = true /\
   exists lastErr',
     r = (fst (usecase.notifyLoop backend url jsonData maxRetries remaining (S i)
                 (Some lastErr')),
          (pass ++ snd (usecase.notifyLoop backend url jsonData maxRetries remaining (S i)
                          (Some lastErr')))%list)).
Proof.
  cbv zeta. cbn [usecase.notifyLoop]. unfold observe.retried.
  destruct (backend i) as [|c body]; cbn [schema.succeeded schema.rejected].
  - right. split; [reflexivity|]. exists usecase.SendFailed.
    now destruct (usecase.notifyLoop _ _ _ _ remaining (S i) _).
  - destruct ((200 <=? c) && (c <? 300)) eqn:H2.
    + left. cbn. repeat split; auto.
    + destruct ((400 <=? c) && (c <? 500)) eqn:H4.
      * left. cbn. repeat split; auto; discriminate.
      * right. split; [reflexivity|]. exists (usecase.BackendStatus c body).
        now destruct (usecase.notifyLoop _ _ _ _ remaining (S i) _).
Qed.

(** The loop returns nil exactly when some pass it reaches is answered
    in the 2xx range. *)
Lemma notifyLoop_nil_iff (remaining : nat) :
  forall (i : nat) (lastErr : option usecase.AttemptError),
    fst (usecase.notifyLoop backend url jsonData maxRetries remaining i lastErr) = None <->
    exists k, (k < remaining)%nat /\
              schema.succeeded (backend (i + k)) = true /\
              forall j, (j < k)%nat -> observe.retried (backend (i + j)) = true.
Proof.
  induction remaining as [|remaining IH]; intros i lastErr.
  - cbn. split; [discriminate|]. intros (k & Hk & _). lia.
  - destruct (notifyLoop_pass remaining i lastErr)
      as [(Hstop & _ & Hnil)|(Hgo & lastErr' & ->)]; cbn [fst].
    + rewrite Hnil. split.
      * intros Hok. exists 0%nat. rewrite Nat.add_0_r.
        split; [lia|]. split; [assumption|]. intros j Hj. lia.
      * intros (k & Hk & Hok & Hretry). destruct k as [|k].
        -- now rewrite Nat.add_0_r in Hok.
        -- specialize (Hretry 0%nat ltac:(lia)). rewrite Nat.add_0_r in Hretry.
           congruence.
    + rewrite IH. split.
      * intros (k & Hk & Hok & Hretry). exists (S k).
        split; [lia|]. split.
        -- now replace (i + S k)%nat with (S i + k)%nat by lia.
        -- intros j Hj. destruct j as [|j].
           ++ now rewrite Nat.add_0_r.
           ++ replace (i + S j)%nat with (S i + j)%nat by lia. apply Hretry. lia.
      * intros (k & Hk & Hok & Hretry). destruct k as [|k].
        -- rewrite Nat.add_0_r in Hok. unfold observe.retried in Hgo.
           rewrite Hok in Hgo. discriminate.
        -- exists k. split; [lia|]. split.
           ++ now replace (S i + k)%nat with (i + S k)%nat by lia.
           ++ intros j Hj. replace (S i + j)%nat with (i + S j)%nat by lia.
              apply Hretry. lia.
Qed.

End NotifySchedule.

(** X11.  Whatever the backend answers, [notifyBackend] follows one
    schedule: a request, one second of sleep and a request, two seconds
    of sleep and a request, cut after its first, second or third request;
    so it makes between one and three requests and sleeps three seconds
    at most.  When the payload does not marshal it makes none. *)
Theorem notifyBackend_schedule (marshal : gmap string usecase.json -> option string)
    (uc : usecase.contractUsecase) (endpoint : string)
    (payload : gmap string usecase.json) (backend : nat -> usecase.Response) :
  let r := usecase.notifyBackend marshal uc endpoint payload backend in
  match marshal payload with
  | None => r = (Some usecase.MarshalFailed, [])
  | Some jsonData =>
      exists n, (1 <= n <= 3)%nat /\
        snd r = take (2 * n - 1)
                  (observe.schedule (usecase.backendBaseURL uc +:+ endpoint) jsonData) /\
        schema.attempts (snd r) = n
  end.
Proof.
  cbv zeta. unfold usecase.notifyBackend.
  destruct (marshal payload) as [jsonData|]; [|reflexivity].
  change (Z.to_nat 3) with 3%nat.
  set (url := usecase.backendBaseURL uc +:+ endpoint).
  destruct (notifyLoop_pass backend url jsonData 3 2 0 None)
    as [(_ & -> & _)|(_ & e0 & ->)]; cbn [snd].
  { exists 1%nat. repeat split; lia. }
  destruct (notifyLoop_pass backend url jsonData 3 1 1 (Some e0))
    as [(_ & -> & _)|(_ & e1 & ->)]; cbn [snd].
  { exists 2%nat. repeat split; lia. }
  destruct (notifyLoop_pass backend url jsonData 3 0 2 (Some e1))
    as [(_ & -> & _)|(_ & e2 & ->)]; cbn [snd].
  { exists 3%nat. repeat split; lia. }
  cbn [usecase.notifyLoop snd]. exists 3%nat. repeat split; lia.
Qed.

(** X12.  For a payload that marshals, [notifyBackend] returns nil
    exactly when one of the three passes is answered in the 2xx range
    and every pass before it was retried, that is, was a transport error
    or a status outside 2xx and 4xx (1xx and 3xx are retried like 5xx). *)
Theorem notifyBackend_nil_iff (marshal : gmap string usecase.json -> option string)
    (uc : usecase.contractUsecase) (endpoint : string)
    (payload : gmap string usecase.json) (jsonData : string)
    (backend : nat -> usecase.Response) :
  marshal payload = Some jsonData ->
  (fst (usecase.notifyBackend marshal uc endpoint payload backend) = None <->
   exists k, (k < 3)%nat /\ schema.succeeded (backend k) = true /\
             forall j, (j < k)%nat -> observe.retried (backend j) = true).
Proof.
  intros Hmarshal. unfold usecase.notifyBackend. rewrite Hmarshal.
  change (Z.to_nat 3) with 3%nat.
  apply (notifyLoop_nil_iff backend _ jsonData 3 3 0 None).
Qed.

(** A backend that redirects twice and then answers 204. *)
Lemma notifyBackend_nil_iff_witness :
  fst (usecase.notifyBackend sample.marshal sample.uc "/api/v1/blockchain/item-listed" ∅
         (fun i => if (i <? 2)%nat then usecase.HTTPResponse 301 "moved"
                   else usecase.HTTPResponse 204 "")) = None.
Proof.
  apply (notifyBackend_nil_iff sample.marshal sample.uc "/api/v1/blockchain/item-listed"
           ∅ _ _ eq_refl).
  exists 2%nat. split; [lia|]. split; [reflexivity|].
  intros j Hj. destruct j as [|[|j]]; [reflexivity|reflexivity|lia].
Defined.

(** X13.  [handleEvent] makes no request exactly when the event's type
    is none of the five kinds or its payload does not marshal; for every
    other event its first action is the POST to the endpoint of the
    kind. *)
Theorem handleEvent_requests (marshal : gmap string usecase.json -> option string)
    (uc : usecase.contractUsecase) (event : model.ContractEvent)
    (backend : nat -> usecase.Response) :
  (usecase.handleEvent marshal uc event backend = [] <->
   ~ In (model.Type_ event) schema.knownEvents \/
   exists endpoint payload,
     usecase.eventRoute event = Some (endpoint, payload) /\ marshal payload = None) /\
  (forall endpoint payload jsonData,
     usecase.eventRoute event = Some (endpoint, payload) ->
     marshal payload = Some jsonData ->
     exists rest,
       usecase.handleEvent marshal uc event backend
       = usecase.Post (usecase.backendBaseURL uc +:+ endpoint) jsonData :: rest).
Proof.
  assert (Hfirst : forall endpoint payload jsonData,
            usecase.eventRoute event = Some (endpoint, payload) ->
            marshal payload = Some jsonData ->
            exists rest,
              usecase.handleEvent marshal uc event backend
              = usecase.Post (usecase.backendBaseURL uc +:+ endpoint) jsonData :: rest).
  { intros endpoint payload jsonData Hroute Hmarshal.
    unfold usecase.handleEvent, usecase.notifyBackend. rewrite Hroute, Hmarshal.
    change (Z.to_nat 3) with 3%nat.
    destruct (notifyLoop_pass backend (usecase.backendBaseURL uc +:+ endpoint)
                jsonData 3 2 0 None) as [(_ & -> & _)|(_ & e0 & ->)]; cbn; eauto. }
  assert (Hknown : In (model.Type_ event) schema.knownEvents <->
                   usecase.eventRoute event <> None).
  { unfold usecase.eventRoute, model.EventItemListed, model.EventItemPurchased,
      model.EventItemUpdated, model.EventItemCancelled, model.EventReceiptConfirmed.
    cbn [schema.knownEvents In].
    repeat match goal with
           | |- context [String.eqb ?a ?b] => destruct (String.eqb_spec a b)
           end; split; intros; try discriminate; try tauto; intuition congruence. }
  split; [|exact Hfirst]. split.
  - intros Hnone.
    destruct (usecase.eventRoute event) as [[endpoint payload]|] eqn:Hroute.
    + right. exists endpoint, payload. split; [reflexivity|].
      destruct (marshal payload) as [jsonData|] eqn:Hmarshal; [|reflexivity].
      destruct (Hfirst endpoint payload jsonData eq_refl Hmarshal) as [rest Heq].
      congruence.
    + left. rewrite Hknown. congruence.
  - intros [Hunknown|(endpoint & payload & Hroute & Hmarshal)].
    + unfold usecase.handleEvent.
      destruct (usecase.eventRoute event) as [[endpoint payload]|] eqn:Hroute;
        [|reflexivity].
      exfalso. apply Hunknown, Hknown. congruence.
    + unfold usecase.handleEvent, usecase.notifyBackend.
      now rewrite Hroute, Hmarshal.
Qed.

(** ** The reconnect loop: bounds, order, cancellation *)

Lemma nextDelay_in_bounds (d : Z) :
  usecase.floorDelay <= d <= usecase.maxRetryDelay ->
  usecase.floorDelay <= usecase.nextDelay d <= usecase.maxRetryDelay.
Proof.
  unfold usecase.nextDelay. rewrite min_is_Zmin.
  unfold usecase.floorDelay, usecase.maxRetryDelay, usecase.Second,
    Go.wrap_int64, Go.two63, Go.two64.
  intros Hd. rewrite Z.mod_small by lia. lia.
Qed.

Lemma waits_app (xs ys : list usecase.ListenerEffect) :
  observe.waits (xs ++ ys)%list = (observe.waits xs ++ observe.waits ys)%list.
Proof.
  induction xs as [|[|e|d] xs IH]; cbn; auto. now rewrite IH.
Qed.

Lemma waits_Handle (events : list model.ContractEvent) :
  observe.waits (map usecase.Handle events) = [].
Proof. induction events; cbn; auto. Qed.

Lemma handled_app (xs ys : list usecase.ListenerEffect) :
  observe.handled (xs ++ ys)%list = (observe.handled xs ++ observe.handled ys)%list.
Proof.
  induction xs as [|[|e|d] xs IH]; cbn; auto. now rewrite IH.
Qed.

Lemma handled_Handle (events : list model.ContractEvent) :
  observe.handled (map usecase.Handle events) = events.
Proof. induction events as [|e events IH]; cbn; auto. now rewrite IH. Qed.

Lemma realtimeLoop_waits_bounded (rounds : list usecase.Round) :
  forall d,
    usecase.floorDelay <= d <= usecase.maxRetryDelay ->
    Forall (fun w => usecase.floorDelay <= w <= usecase.maxRetryDelay)
      (observe.waits (fst (usecase.realtimeLoop rounds d))) /\
    usecase.floorDelay <= snd (usecase.realtimeLoop rounds d) <= usecase.maxRetryDelay.
Proof.
  assert (H5 : usecase.floorDelay <= 5 * usecase.Second <= usecase.maxRetryDelay)
    by (unfold usecase.floorDelay, usecase.maxRetryDelay, usecase.Second; lia).
  induction rounds as [|r rounds IH]; intros d Hd.
  - cbn. split; [apply Forall_nil_2|assumption].
  - destruct r as [|done|events done|events]; cbn [usecase.realtimeLoop].
    + cbn. split; [apply Forall_nil_2|assumption].
    + destruct done; [cbn; split; [apply Forall_nil_2|assumption]|].
      destruct (IH (usecase.nextDelay d) (nextDelay_in_bounds d Hd)) as [Hw Hf].
      destruct (usecase.realtimeLoop rounds _) as [effects final].
      cbn [fst snd observe.waits] in *. split; [|assumption].
      apply Forall_cons_2; assumption.
    + destruct done.
      * cbn [fst snd observe.waits]. rewrite waits_Handle.
        split; [apply Forall_nil_2|assumption].
      * destruct (IH (usecase.nextDelay (5 * usecase.Second))
                    (nextDelay_in_bounds _ H5)) as [Hw Hf].
        destruct (usecase.realtimeLoop rounds _) as [effects final].
        cbn [fst snd observe.waits] in *. split; [|assumption].
        rewrite waits_app, waits_Handle. cbn. apply Forall_cons_2; assumption.
    + cbn [fst snd observe.waits]. rewrite waits_Handle.
      split; [apply Forall_nil_2|assumption].
Qed.

(** X14.  Whatever the rounds, every wait of the listener lasts between
    the floor (5 s) and the ceiling (60 s), and so does the delay it
    holds at the end: the doubling never overflows and never passes the
    ceiling. *)
Theorem startRealtimeListener_waits_bounded (rounds : list usecase.Round) :
  Forall (fun d => usecase.floorDelay <= d <= usecase.maxRetryDelay)
    (observe.waits (fst (usecase.startRealtimeListener rounds))) /\
  usecase.floorDelay <= snd (usecase.startRealtimeListener rounds)
    <= usecase.maxRetryDelay.
Proof.
  apply realtimeLoop_waits_bounded.
  unfold usecase.floorDelay, usecase.maxRetryDelay, usecase.Second. lia.
Qed.

(** X15.  The listener handles the events of its subscriptions in the
    order the channels deliver them, none twice and none skipped: over
    rounds in which the context is never done it has handled exactly the
    events of all the rounds, in order; in general what it has handled is
    the events of an initial run of the rounds. *)
Theorem startRealtimeListener_handles_in_order (rounds : list usecase.Round) :
  (exists n,
     observe.handled (fst (usecase.startRealtimeListener rounds))
     = flat_map observe.roundEvents (take n rounds)) /\
  (forallb schema.undisturbed rounds = true ->
   observe.handled (fst (usecase.startRealtimeListener rounds))
   = flat_map observe.roundEvents rounds).
Proof.
  unfold usecase.startRealtimeListener. generalize (5 * usecase.Second) as d.
  induction rounds as [|r rounds IH]; intros d.
  - cbn. split; [exists 0%nat; reflexivity|reflexivity].
  - destruct r as [|done|events done|events]; cbn [usecase.realtimeLoop].
    + split; [exists 0%nat; reflexivity|discriminate].
    + destruct done.
      * split; [exists 0%nat; reflexivity|discriminate].
      * destruct (IH (usecase.nextDelay d)) as [[n Hn] Hall].
        destruct (usecase.realtimeLoop rounds _) as [effects final].
        cbn [fst observe.handled] in *. split.
        -- exists (S n). exact Hn.
        -- intros Hrun. apply Hall. exact Hrun.
    + destruct done.
      * split; [|discriminate]. exists 1%nat.
        cbn [fst observe.handled take flat_map observe.roundEvents].
        now rewrite handled_Handle, app_nil_r.
      * destruct (IH (usecase.nextDelay (5 * usecase.Second))) as [[n Hn] Hall].
        destruct (usecase.realtimeLoop rounds _) as [effects final].
        cbn [fst observe.handled] in *.
        rewrite handled_app, handled_Handle. cbn [observe.handled]. split.
        -- exists (S n). cbn [take flat_map observe.roundEvents]. now rewrite Hn.
        -- intros Hrun. cbn [flat_map observe.roundEvents]. f_equal.
           apply Hall. exact Hrun.
    + split; [|discriminate]. exists 1%nat.
      cbn [fst observe.handled take flat_map observe.roundEvents].
      now rewrite handled_Handle, app_nil_r.
Qed.

(** X16.  Once the context is done the listener does nothing more: if
    after an undisturbed history a round finds the context done (at the
    top of the loop or during the wait), the rounds that would follow
    change neither what the listener does nor the delay it holds; in
    particular it never subscribes again. *)
Theorem startRealtimeListener_stops_when_done (history : list usecase.Round)
    (r : usecase.Round) (following : list usecase.Round) :
  forallb schema.undisturbed history = true ->
  observe.lastRound r = true ->
  usecase.startRealtimeListener (history ++ r :: following)%list
  = usecase.startRealtimeListener (history ++ [r])%list.
Proof.
  intros Hrun Hlast. unfold usecase.startRealtimeListener.
  generalize (5 * usecase.Second) as d.
  induction history as [|h history IH]; intros d.
  - cbn [app]. unfold observe.lastRound in Hlast.
    destruct r as [|done|events done|events]; cbn in Hlast;
      try destruct done; try discriminate; reflexivity.
  - cbn in Hrun. apply andb_prop in Hrun as [Hh Hrun].
    destruct h as [|done|events done|events]; cbn in Hh;
      try destruct done; try discriminate; cbn [app usecase.realtimeLoop];
      now rewrite (IH Hrun).
Qed.

(** A failure, then a subscription during whose closing wait the context
    is done: two more failures change nothing. *)
Lemma startRealtimeListener_stops_when_done_witness :
  usecase.startRealtimeListener
    [usecase.SubscribeFailed false; usecase.Subscribed [sample.listed] true;
     usecase.SubscribeFailed false; usecase.SubscribeFailed false]
  = usecase.startRealtimeListener
      [usecase.SubscribeFailed false; usecase.Subscribed [sample.listed] true].
Proof.
  exact (startRealtimeListener_stops_when_done
           [usecase.SubscribeFailed false] (usecase.Subscribed [sample.listed] true)
           [usecase.SubscribeFailed false; usecase.SubscribeFailed false]
           eq_refl eq_refl).
Defined.

(** ** Verifying a transaction: every outcome *)

Lemma big_Cmp_zero (h : Z) : (Go.big_Cmp h 0 =? 0) = (h =? 0).
Proof.
  unfold Go.big_Cmp. destruct (Z.compare_spec h 0) as [->| |]; cbn; lia.
Qed.

(** X17.  Whenever [VerifyTransaction] returns a verdict, the verdict is
    coherent: it is for the hash asked, its status is one of pending,
    success and failed, [Success] is true exactly for status success, the
    block number is a [uint64], a pending verdict has no block number, no
    gas and is never flagged as a contract call, and the contract-call
    flag is set exactly for a mined transaction whose target is the
    configured contract. *)
Theorem VerifyTransaction_verdict (hex : common.Codec)
    (g : contract.FrimaContractGateway) (txHash : string)
    (v : model.TxVerification) :
  fst (contract.VerifyTransaction hex g txHash) = ethclient.Ok v ->
  model.VTxHash v = txHash /\
  In (model.VStatus v) observe.verificationStatuses /\
  (model.Success v = true <-> model.VStatus v = "success") /\
  Go.is_uint64 (model.VBlockNumber v) /\
  (model.VStatus v = "pending" ->
   model.VBlockNumber v = 0 /\ model.VGasUsed v = 0 /\ model.IsContractCall v = false) /\
  (model.IsContractCall v = true <->
   exists tx,
     ethclient.TransactionByHash (contract.client g) (common.HexToHash hex txHash)
     = Some (tx, false) /\
     types.To tx = Some (contract.contractAddress g)).
Proof.
  unfold contract.VerifyTransaction.
  destruct (Go.big_Cmp (common.HexToHash hex txHash) 0 =? 0); [discriminate|].
  destruct (ethclient.TransactionByHash _ _) as [[tx [|]]|] eqn:Hfound;
    [| |discriminate].
  - intros [= <-]. cbn. repeat split; auto using is_uint64_zero; try discriminate.
    intros (tx' & [=] & _).
  - destruct (ethclient.TransactionReceipt _ _) as [receipt|]; [|discriminate].
    intros [= <-]. cbn.
    pose proof (big_Uint64_range (types.ReceiptBlockNumber receipt)) as Hrange.
    assert (Hcall : match types.To tx with
                    | Some to => to =? contract.contractAddress g
                    | None => false
                    end = true <->
                    exists tx', Some (tx, false) = Some (tx', false) /\
                                types.To tx' = Some (contract.contractAddress g)).
    { split.
      - destruct (types.To tx) as [to|] eqn:Hto; [|discriminate].
        intros Heq. apply Z.eqb_eq in Heq. subst to. eauto.
      - intros (tx' & [= <-] & ->). apply Z.eqb_refl. }
    destruct (types.Status receipt =? types.ReceiptStatusSuccessful);
      repeat split; auto; try discriminate; try apply Hcall; intros; try apply Hcall; auto.
    all: apply Hrange.
Qed.

(** The reverted transaction of the sample node is flagged as a call of
    the marketplace: the node knows it as mined and sent to the
    marketplace. *)
Lemma VerifyTransaction_verdict_witness :
  exists tx,
    ethclient.TransactionByHash (contract.client sample.gateway)
      (common.HexToHash sample.codec "0x02") = Some (tx, false) /\
    types.To tx = Some (contract.contractAddress sample.gateway).
Proof.
  destruct (VerifyTransaction_verdict sample.codec sample.gateway "0x02"
              {| model.VTxHash := "0x02"; model.VStatus := "failed";
                 model.VBlockNumber := 24990; model.VGasUsed := 21000;
                 model.Success := false; model.IsContractCall := true |} eq_refl)
    as (_ & _ & _ & _ & _ & Hcall).
  apply Hcall. reflexivity.
Defined.

(** X18.  [VerifyTransaction] fails in three cases only: the hash parses
    to zero, the node does not find the transaction, or the transaction
    is mined and its receipt cannot be read.  A zero hash is rejected
    before any call; the receipt is asked for only after the transaction
    was found mined, and never for a pending one. *)
Theorem VerifyTransaction_errors_and_calls (hex : common.Codec)
    (g : contract.FrimaContractGateway) (txHash : string) :
  let h := common.HexToHash hex txHash in
  let r := contract.VerifyTransaction hex g txHash in
  ((exists msg, fst r = ethclient.Err msg) <->
   h = 0 \/
   (h <> 0 /\ ethclient.TransactionByHash (contract.client g) h = None) \/
   (h <> 0 /\ exists tx,
      ethclient.TransactionByHash (contract.client g) h = Some (tx, false) /\
      ethclient.TransactionReceipt (contract.client g) h = None)) /\
  (h = 0 -> r = (ethclient.Err "invalid transaction hash format", [])) /\
  (In (ethclient.CallTransactionReceipt h) (snd r) <->
   h <> 0 /\ exists tx,
     ethclient.TransactionByHash (contract.client g) h = Some (tx, false)).
Proof.
  cbv zeta. unfold contract.VerifyTransaction. rewrite big_Cmp_zero.
  destruct (Z.eqb_spec (common.HexToHash hex txHash) 0) as [Hz|Hnz].
  - cbn [fst snd]. split; [|split].
    + split; eauto.
    + reflexivity.
    + split; [intros []|]. intros [Hne _]. contradiction.
  - destruct (ethclient.TransactionByHash _ _) as [[tx [|]]|] eqn:Hfound.
    + cbn [fst snd]. split; [|split].
      * split; [intros [msg [=]]|].
        intros [Hz|[[_ [=]]|(_ & tx' & [=] & _)]]. contradiction.
      * intros Hz. contradiction.
      * split; [intros [[=]|[]]|]. intros (_ & tx' & [=]).
    + destruct (ethclient.TransactionReceipt _ _) as [receipt|] eqn:Hreceipt;
        cbn [fst snd]; (split; [|split]).
      * split; [intros [msg [=]]|].
        intros [Hz|[[_ [=]]|(_ & tx' & _ & [=])]]. contradiction.
      * intros Hz. contradiction.
      * split; [eauto|]. intros _. right. now left.
      * split; [|eauto]. intros _. right. right. eauto.
      * intros Hz. contradiction.
      * split; [eauto|]. intros _. right. now left.
    + cbn [fst snd]. split; [|split].
      * split; [|eauto]. intros _. right. left. auto.
      * intros Hz. contradiction.
      * split; [intros [[=]|[]]|]. intros (_ & tx' & [=]).
Qed.

(** ** Confirming a payment: every outcome *)

(** [CheckPaymentStatus] as the chain of its checks. *)
Lemma CheckPaymentStatus_chain (hex : common.Codec) (g : payment.EthGateway)
    (txHash expectedAddr : string) (expectedWei : Z) :
  let h := common.HexToHash hex txHash in
  fst (payment.CheckPaymentStatus hex g txHash expectedAddr expectedWei)
  = if h =? 0 then (model.StatusError, Some "invalid transaction hash format")
    else
      match ethclient.TransactionByHash (payment.client g) h with
      | None => (model.StatusError, Some "transaction not found or node error")
      | Some (tx, true) => (model.StatusPending, Some "transaction is still pending")
      | Some (tx, false) =>
          match ethclient.TransactionReceipt (payment.client g) h with
          | None => (model.StatusError, Some "failed to get transaction receipt")
          | Some receipt =>
              if negb (types.Status receipt =? types.ReceiptStatusSuccessful) then
                (model.StatusError, Some "transaction failed on chain (reverted)")
              else if types.Value tx <? expectedWei then
                (model.StatusError, Some "insufficient payment amount")
              else
                match types.To tx with
                | None =>
                    (model.StatusError,
                     Some "transaction is not a transfer to a valid address")
                | Some to =>
                    if negb (to =? common.HexToAddress hex expectedAddr) then
                      (model.StatusError,
                       Some "transaction sent to wrong recipient address")
                    else (model.StatusPaid, None)
                end
          end
      end.
Proof.
  cbv zeta. unfold payment.CheckPaymentStatus. rewrite big_Cmp_zero.
  destruct (common.HexToHash hex txHash =? 0); [reflexivity|].
  destruct (ethclient.TransactionByHash _ _) as [[tx [|]]|]; try reflexivity.
  destruct (ethclient.TransactionReceipt _ _) as [receipt|]; [|reflexivity].
  destruct (negb (types.Status receipt =? types.ReceiptStatusSuccessful));
    [reflexivity|].
  assert (Hlow : (Go.big_Cmp (types.Value tx) expectedWei <? 0)
                 = (types.Value tx <? expectedWei)).
  { unfold Go.big_Cmp.
    destruct (Z.compare_spec (types.Value tx) expectedWei); cbn; lia. }
  rewrite Hlow. destruct (types.Value tx <? expectedWei); [reflexivity|].
  destruct (types.To tx) as [to|]; [|reflexivity].
  now destruct (negb (to =? common.HexToAddress hex expectedAddr)).
Qed.

(** X19.  For every input, [CheckPaymentStatus] returns one of three
    statuses, and the status tells the error: paid comes with a nil
    error and every other status with an error; the status is pending
    exactly when the hash is well formed and the node reports the
    transaction as pending. *)
Theorem CheckPaymentStatus_status_and_error (hex : common.Codec)
    (g : payment.EthGateway) (txHash expectedAddr : string) (expectedWei : Z) :
  let verdict := fst (payment.CheckPaymentStatus hex g txHash expectedAddr expectedWei) in
  In (fst verdict) [model.StatusPaid; model.StatusPending; model.StatusError] /\
  (fst verdict = model.StatusPaid <-> snd verdict = None) /\
  (fst verdict = model.StatusPending <->
   common.HexToHash hex txHash <> 0 /\
   exists tx,
     ethclient.TransactionByHash (payment.client g) (common.HexToHash hex txHash)
     = Some (tx, true)).
Proof.
  cbv zeta. rewrite CheckPaymentStatus_chain.
  destruct (Z.eqb_spec (common.HexToHash hex txHash) 0) as [Hz|Hnz].
  { cbn. repeat split; auto; try discriminate. intros [Hne _]. contradiction. }
  destruct (ethclient.TransactionByHash _ _) as [[tx [|]]|].
  - cbn. repeat split; eauto; discriminate.
  - assert (Hnot : ~ (common.HexToHash hex txHash <> 0 /\
                      exists tx', Some (tx, false) = Some (tx', true)))
      by (intros (_ & tx' & [=])).
    destruct (ethclient.TransactionReceipt _ _) as [receipt|];
      [|cbn; repeat split; auto; try discriminate; intros H; now apply Hnot in H].
    destruct (negb _);
      [cbn; repeat split; auto; try discriminate; intros H; now apply Hnot in H|].
    destruct (types.Value tx <? expectedWei);
      [cbn; repeat split; auto; try discriminate; intros H; now apply Hnot in H|].
    destruct (types.To tx) as [to|];
      [|cbn; repeat split; auto; try discriminate; intros H; now apply Hnot in H].
    destruct (negb _);
      cbn; repeat split; auto; try discriminate; intros H; now apply Hnot in H.
  - cbn. repeat split; auto; try discriminate. intros (_ & tx' & [=]).
Qed.

(** X20.  [CheckPaymentStatus] marks the order paid exactly when the
    hash is well formed, the transaction is mined, its receipt is read
    and successful, its value is at least the expected amount (more is
    accepted) and its target is the address the expected string parses
    to. *)
Theorem CheckPaymentStatus_paid_iff (hex : common.Codec) (g : payment.EthGateway)
    (txHash expectedAddr : string) (expectedWei : Z) :
  let h := common.HexToHash hex txHash in
  fst (payment.CheckPaymentStatus hex g txHash expectedAddr expectedWei)
  = (model.StatusPaid, None) <->
  h <> 0 /\
  exists tx receipt,
    ethclient.TransactionByHash (payment.client g) h = Some (tx, false) /\
    ethclient.TransactionReceipt (payment.client g) h = Some receipt /\
    types.Status receipt = types.ReceiptStatusSuccessful /\
    expectedWei <= types.Value tx /\
    types.To tx = Some (common.HexToAddress hex expectedAddr).
Proof.
  cbv zeta. rewrite CheckPaymentStatus_chain.
  destruct (Z.eqb_spec (common.HexToHash hex txHash) 0) as [Hz|Hnz].
  { split; [discriminate|]. intros [Hne _]. contradiction. }
  destruct (ethclient.TransactionByHash _ _) as [[tx [|]]|].
  - split; [discriminate|]. intros (_ & tx' & r & [=] & _).
  - destruct (ethclient.TransactionReceipt _ _) as [receipt|].
    + destruct (Z.eqb_spec (types.Status receipt) types.ReceiptStatusSuccessful)
        as [Hs|Hs]; cbn [negb].
      * destruct (Z.ltb_spec (types.Value tx) expectedWei) as [Hlow|Hhigh].
        -- split; [discriminate|]. intros (_ & tx' & r & [= <-] & _ & _ & Hv & _). lia.
        -- destruct (types.To tx) as [to|] eqn:Hto.
           ++ destruct (Z.eqb_spec to (common.HexToAddress hex expectedAddr))
                as [->|Hne]; cbn [negb].
              ** split; [|reflexivity]. intros _. split; [assumption|].
                 exists tx, receipt. auto.
              ** split; [discriminate|].
                 intros (_ & tx' & r & [= <-] & _ & _ & _ & Hto').
                 rewrite Hto in Hto'. injection Hto' as ->. contradiction.
           ++ split; [discriminate|].
              intros (_ & tx' & r & [= <-] & _ & _ & _ & Hto').
              rewrite Hto in Hto'. discriminate.
      * split; [discriminate|]. intros (_ & tx' & r & _ & [= <-] & Hs' & _).
        contradiction.
    + split; [discriminate|]. intros (_ & tx' & r & _ & [=] & _).
  - split; [discriminate|]. intros (_ & tx' & r & [=] & _).
Qed.

(** ** Orders: creating and confirming *)

(** A nil error of [CheckPaymentStatus] comes with the paid status. *)
Lemma CheckPaymentStatus_nil_error (hex : common.Codec) (g : payment.EthGateway)
    (txHash expectedAddr : string) (expectedWei : Z) :
  snd (fst (payment.CheckPaymentStatus hex g txHash expectedAddr expectedWei)) = None ->
  fst (payment.CheckPaymentStatus hex g txHash expectedAddr expectedWei)
  = (model.StatusPaid, None).
Proof.
  rewrite CheckPaymentStatus_chain.
  destruct (common.HexToHash hex txHash =? 0); [discriminate|].
  destruct (ethclient.TransactionByHash _ _) as [[tx [|]]|]; try discriminate.
  destruct (ethclient.TransactionReceipt _ _) as [receipt|]; [|discriminate].
  destruct (negb _); [discriminate|].
  destruct (types.Value tx <? expectedWei); [discriminate|].
  destruct (types.To tx) as [to|]; [|discriminate].
  now destruct (negb _).
Qed.

(** X21.  [ConfirmPayment] returns an order only for a payment that
    [CheckPaymentStatus] marks as paid to the collecting wallet for
    10^15 wei: the order returned always has status PAID (a pending or
    failed transaction gives an error, never an order), carries the ids
    and the hash of the request, the amount ["1000000000000000"] and the
    price the backend gave.  When the product lookup fails the error is
    returned without any call to the node. *)
Theorem ConfirmPayment_only_paid (hex : common.Codec) (g : payment.EthGateway)
    (server : string -> order.ProductAnswer) (orderID productID txHash : string) :
  let r := order.ConfirmPayment hex g server orderID productID txHash in
  (forall o,
     fst r = ethclient.Ok o ->
     order.Status o = model.StatusPaid /\
     order.OrderID o = orderID /\ order.ProductID o = productID /\
     order.TxHash o = txHash /\
     order.AmountWei o = "1000000000000000" /\
     order.PaymentAddr o = common.AddressHex hex (payment.appCollectWallet g) /\
     order.GetProductPrice g server productID = ethclient.Ok (order.PriceYen o) /\
     fst (payment.CheckPaymentStatus hex g txHash
            (common.AddressHex hex (payment.appCollectWallet g)) (10 ^ 15))
     = (model.StatusPaid, None)) /\
  (forall msg,
     order.GetProductPrice g server productID = ethclient.Err msg ->
     r = (ethclient.Err ("failed to get product: " +:+ msg), [])).
Proof.
  cbv zeta. unfold order.ConfirmPayment, order.GetPaymentAddress,
    order.GetRequiredAmount, order.DemoPaymentAmount.
  change (1 * 10 ^ 15) with (10 ^ 15).
  destruct (order.GetProductPrice g server productID) as [priceYen|msg'].
  - split; [|discriminate]. intros o.
    pose proof (CheckPaymentStatus_nil_error hex g txHash
                  (common.AddressHex hex (payment.appCollectWallet g)) (10 ^ 15))
      as Hnil.
    destruct (payment.CheckPaymentStatus hex g txHash _ _) as [[status err] calls].
    cbn [fst snd] in *. destruct err as [msg|]; [discriminate|].
    specialize (Hnil eq_refl). injection Hnil as ->.
    intros [= <-]. cbn. repeat split; reflexivity.
  - split; [discriminate|]. now intros msg [= ->].
Qed.

(** X22.  The verdict of [ConfirmPayment] does not depend on the order
    id: the id is copied into the order returned and nothing else, so a
    transaction that confirms one order of a product confirms any other
    order id presented with it. *)
Theorem ConfirmPayment_ignores_order_id (hex : common.Codec) (g : payment.EthGateway)
    (server : string -> order.ProductAnswer)
    (orderID otherID productID txHash : string) :
  order.ConfirmPayment hex g server otherID productID txHash
  = (match fst (order.ConfirmPayment hex g server orderID productID txHash) with
     | ethclient.Ok o =>
         ethclient.Ok
           {| order.OrderID := otherID;
              order.ProductID := order.ProductID o;
              order.ProductName := order.ProductName o;
              order.PriceYen := order.PriceYen o;
              order.AmountETH := order.AmountETH o;
              order.AmountWei := order.AmountWei o;
              order.PaymentAddr := order.PaymentAddr o;
              order.BuyerWallet := order.BuyerWallet o;
              order.Status := order.Status o;
              order.TxHash := order.TxHash o;
              order.CreatedAt := order.CreatedAt o |}
     | ethclient.Err msg => ethclient.Err msg
     end,
     snd (order.ConfirmPayment hex g server orderID productID txHash)).
Proof.
  unfold order.ConfirmPayment.
  destruct (order.GetProductPrice g server productID) as [priceYen|msg]; [|reflexivity].
  destruct (payment.CheckPaymentStatus hex g txHash _ _) as [[status err] calls].
  now destruct err.
Qed.

(** X23.  Paying an order as it is displayed gets it confirmed: for an
    order made by [CreatePaymentOrder], a mined and successful
    transaction sent to the address the order shows, with at least the
    amount the order shows, makes [ConfirmPayment] (same product, same
    backend) return the order with status PAID and the same id, price,
    amount and address. *)
Theorem CreatePaymentOrder_then_ConfirmPayment (hex : common.Codec)
    (g : payment.EthGateway) (server : string -> order.ProductAnswer)
    (stamp : string) (now : Z) (productID buyerWallet txHash : string)
    (o : order.PaymentOrder) (tx : types.Transaction) (receipt : types.Receipt) :
  order.CreatePaymentOrder hex g server stamp now productID buyerWallet
  = ethclient.Ok o ->
  common.HexToHash hex txHash <> 0 ->
  ethclient.TransactionByHash (payment.client g) (common.HexToHash hex txHash)
  = Some (tx, false) ->
  ethclient.TransactionReceipt (payment.client g) (common.HexToHash hex txHash)
  = Some receipt ->
  types.Status receipt = types.ReceiptStatusSuccessful ->
  types.To tx = Some (common.HexToAddress hex (order.PaymentAddr o)) ->
  (forall amount,
     Z.of_int <$> NilZero.int_of_string (order.AmountWei o) = Some amount ->
     amount <= types.Value tx) ->
  order.Status o = model.StatusPending /\
  exists paid,
    fst (order.ConfirmPayment hex g server (order.OrderID o) productID txHash)
    = ethclient.Ok paid /\
    order.Status paid = model.StatusPaid /\
    order.OrderID paid = order.OrderID o /\
    order.PriceYen paid = order.PriceYen o /\
    order.AmountWei paid = order.AmountWei o /\
    order.PaymentAddr paid = order.PaymentAddr o.
Proof.
  intros Hcreate Hvalid Hfound Hreceipt Hstatus Hto Hvalue.
  unfold order.CreatePaymentOrder in Hcreate. unfold order.ConfirmPayment.
  destruct (order.GetProductPrice g server productID) as [priceYen|msg];
    [|discriminate].
  injection Hcreate as <-. cbn [order.Status order.OrderID order.PriceYen
                                order.AmountWei order.PaymentAddr] in *.
  split; [reflexivity|].
  specialize (Hvalue (order.GetRequiredAmount g)
                (big_String_reads_back (order.GetRequiredAmount g))).
  assert (Hpaid : fst (payment.CheckPaymentStatus hex g txHash
                         (order.GetPaymentAddress hex g) (order.GetRequiredAmount g))
                  = (model.StatusPaid, None)).
  { rewrite CheckPaymentStatus_chain.
    rewrite (proj2 (Z.eqb_neq _ _) Hvalid), Hfound, Hreceipt, Hstatus, Z.eqb_refl.
    cbn [negb].
    destruct (Z.ltb_spec (types.Value tx) (order.GetRequiredAmount g)); [lia|].
    now rewrite Hto, Z.eqb_refl. }
  destruct (payment.CheckPaymentStatus hex g txHash _ _) as [[status err] calls].
  cbn [fst] in Hpaid. injection Hpaid as -> ->.
  eexists. split; [reflexivity|]. cbn. repeat split.
Qed.

(** Product 42, ordered from the sample collector and paid by the
    transfer of 10^15 wei with hash 3. *)
Lemma CreatePaymentOrder_then_ConfirmPayment_witness :
  exists paid,
    fst (order.ConfirmPayment sample.codec sample.collector shop.server
           "ORDER-42-20250101120000" "42" "0x03") = ethclient.Ok paid /\
    order.Status paid = model.StatusPaid.
Proof.
  assert (Hne : forall n, 0 < n -> n <> 0) by (intros; lia).
  destruct (CreatePaymentOrder_then_ConfirmPayment sample.codec sample.collector
              shop.server "20250101120000" 1735732800 "42" "0xbuyer" "0x03"
              _
              {| types.Value := 10 ^ 15; types.To := Some sample.marketplace |}
              {| types.Status := 1; types.ReceiptBlockNumber := 24991;
                 types.GasUsed := 21000 |}
              eq_refl (Hne 3 eq_refl) eq_refl eq_refl eq_refl eq_refl)
    as (_ & paid & Hok & Hpaid & _).
  - intros amount [= <-]. cbn. lia.
  - exists paid. exact (conj Hok Hpaid).
Defined.

(** ** The WebSocket URL of the node *)

Lemma substring_whole (s : string) :
  String.substring 0 (String.length s) s = s.
Proof. induction s as [|c s IH]; cbn; [reflexivity|now rewrite IH]. Qed.

Lemma append_cons (c : ascii) (p s : string) :
  String c p +:+ s = String c (p +:+ s).
Proof. reflexivity. Qed.

Lemma prefix_append (p s : string) : String.prefix p (p +:+ s) = true.
Proof.
  induction p as [|c p IH]; [now destruct s|].
  rewrite append_cons. cbn.
  destruct (ascii_dec c c); [exact IH|contradiction].
Qed.

Lemma substring_append (p s : string) :
  String.substring (String.length p)
    (String.length (p +:+ s) - String.length p) (p +:+ s) = s.
Proof.
  induction p as [|c p IH].
  - change ("" +:+ s) with s. cbn. rewrite Nat.sub_0_r. apply substring_whole.
  - rewrite append_cons. cbn. exact IH.
Qed.

(** Replacing a prefix: [strings.Replace(old + rest, old, new, 1)]. *)
Lemma ReplaceFirst_prefix (old new rest : string) :
  config.ReplaceFirst (old +:+ rest) old new = new +:+ rest.
Proof.
  assert (Hunfold : forall s,
            config.ReplaceFirst s old new
            = if String.prefix old s
              then new +:+ String.substring (String.length old)
                             (String.length s - String.length old) s
              else match s with
                   | EmptyString => EmptyString
                   | String c r => String c (config.ReplaceFirst r old new)
                   end) by (now intros [|c r]).
  now rewrite Hunfold, prefix_append, substring_append.
Qed.

(** X24.  The WebSocket URL that [main] hands to the gateway: a
    non-empty [INFURA_SEPOLIA_WS_URL] is used as it is; otherwise only
    the scheme of the node URL is rewritten, [https://] to [wss://] and
    [http://] to [ws://], and what follows the scheme is kept unchanged
    (also when it contains the scheme text again); a node URL with
    neither scheme is used as it is. *)
Theorem nodeWSURL_scheme (envWS nodeURL rest : string) :
  (envWS <> "" -> config.nodeWSURL envWS nodeURL = envWS) /\
  config.nodeWSURL "" ("https://" +:+ rest) = "wss://" +:+ rest /\
  config.nodeWSURL "" ("http://" +:+ rest) = "ws://" +:+ rest /\
  (String.prefix "https://" nodeURL = false ->
   String.prefix "http://" nodeURL = false ->
   config.nodeWSURL "" nodeURL = nodeURL).
Proof.
  split; [|split; [|split]].
  - intros Hset. unfold config.nodeWSURL.
    destruct (String.eqb_spec envWS ""); [contradiction|reflexivity].
  - unfold config.nodeWSURL. cbn [String.eqb].
    now rewrite prefix_append, ReplaceFirst_prefix.
  - unfold config.nodeWSURL. cbn [String.eqb].
    rewrite (prefix_append "http://"), ReplaceFirst_prefix.
    now rewrite !append_cons.
  - intros Hs Hp. unfold config.nodeWSURL. cbn [String.eqb]. now rewrite Hs, Hp.
Qed.

(** ** The backfill scan: what it delivers *)

(** X25.  What [ScanPastEvents] puts on its channel.  When the head
    cannot be read nothing is queried and nothing delivered.  A non-zero
    [fromBlock] is used as given (no lookback window), with [toBlock] or
    the head as upper bound, in one [FilterLogs] call; a failing
    [FilterLogs] delivers nothing.  In every case each event delivered
    is the decoding of a log that the node returned for the query and
    that carries the marketplace address. *)
Theorem ScanPastEvents_delivers (hex : common.Codec)
    (g : contract.FrimaContractGateway) (fromBlock : Z) (toBlock : option Z) :
  let scan := contract.ScanPastEvents hex g fromBlock toBlock in
  (ethclient.HeaderByNumber (contract.client g) = None ->
   contract.scanQuery scan = None /\ contract.scanEvents scan = [] /\
   contract.scanCalls scan = [ethclient.CallHeaderByNumber]) /\
  (forall number,
     ethclient.HeaderByNumber (contract.client g) = Some number ->
     fromBlock <> 0 ->
     let q := {| ethclient.Addresses := [contract.contractAddress g];
                 ethclient.FromBlock := fromBlock;
                 ethclient.ToBlock := match toBlock with
                                      | Some t => t
                                      | None => Go.big_Uint64 number
                                      end |} in
     contract.scanQuery scan = Some q /\
     contract.scanCalls scan
     = [ethclient.CallHeaderByNumber; ethclient.CallFilterLogs q] /\
     contract.scanEvents scan
     = match ethclient.FilterLogs (contract.client g) q with
       | Some logs => contract.decodeLogs hex g logs
       | None => []
       end) /\
  (forall e,
     In e (contract.scanEvents scan) ->
     exists q logs vLog,
       contract.scanQuery scan = Some q /\
       ethclient.FilterLogs (contract.client g) q = Some logs /\
       In vLog logs /\
       types.Address vLog = contract.contractAddress g /\
       contract.parseLog hex g vLog = Some e).
Proof.
  cbv zeta. unfold contract.ScanPastEvents. split; [|split].
  - now intros ->.
  - intros number -> Hfrom.
    rewrite (proj2 (Z.eqb_neq _ _) Hfrom).
    now destruct (ethclient.FilterLogs _ _).
  - intros e. destruct (ethclient.HeaderByNumber _) as [number|]; [|intros []].
    match goal with
    | |- context [ethclient.FilterLogs _ ?query] => set (q := query)
    end.
    destruct (ethclient.FilterLogs (contract.client g) q) as [logs|] eqn:Hlogs;
      cbn [contract.scanEvents contract.scanQuery]; [|intros []].
    intros He. apply list_elem_of_In in He. unfold contract.decodeLogs in He.
    apply list_elem_of_omap in He as (vLog & Hin & Hparse).
    exists q, logs, vLog. apply list_elem_of_In in Hin.
    destruct (Z.eqb_spec (types.Address vLog) (contract.contractAddress g)) as [Haddr|];
      cbn [negb] in Hparse; [|discriminate].
    auto.
Qed.

(** The sample scan from block 1 to block 30000 on the sample chain. *)
Lemma ScanPastEvents_delivers_witness :
  contract.scanQuery (contract.ScanPastEvents sample.codec sample.gateway 1 (Some 30000))
  = Some {| ethclient.Addresses := [sample.marketplace];
            ethclient.FromBlock := 1;
            ethclient.ToBlock := 30000 |}.
Proof.
  destruct (ScanPastEvents_delivers sample.codec sample.gateway 1 (Some 30000))
    as (_ & Hrange & _).
  destruct (ethclient.HeaderByNumber (contract.client sample.gateway))
    as [number|] eqn:Hhead; [|discriminate].
  destruct (Hrange number eq_refl ltac:(discriminate)) as (Hq & _).
  exact Hq.
Defined.

(** ** Orders: what [CreatePaymentOrder] returns *)

(** X26.  [CreatePaymentOrder] returns an order exactly when the backend
    answers the GET of [backendBaseURL/getItems/productID] with status
    200 and a body that decodes, and then the order is pending, has no
    transaction hash, has the id [ORDER-productID-stamp], the price of
    the backend, the address of the collecting wallet, and always the
    same amount ["1000000000000000"] wei displayed as ["0.001"] ETH:
    the amount to pay does not depend on the price. *)
Theorem CreatePaymentOrder_outcomes (hex : common.Codec) (g : payment.EthGateway)
    (server : string -> order.ProductAnswer) (stamp : string) (now : Z)
    (productID buyerWallet : string) :
  let url := payment.backendBaseURL g +:+ "/getItems/" +:+ productID in
  let r := order.CreatePaymentOrder hex g server stamp now productID buyerWallet in
  (forall o,
     r = ethclient.Ok o ->
     server url = order.GetAnswered 200 (Some (order.PriceYen o)) /\
     order.OrderID o = "ORDER-" +:+ productID +:+ "-" +:+ stamp /\
     order.Status o = model.StatusPending /\ order.TxHash o = "" /\
     order.AmountWei o = "1000000000000000" /\ order.AmountETH o = "0.001" /\
     order.PaymentAddr o = common.AddressHex hex (payment.appCollectWallet g) /\
     order.BuyerWallet o = buyerWallet) /\
  (forall price,
     server url = order.GetAnswered 200 (Some price) ->
     exists o, r = ethclient.Ok o /\ order.PriceYen o = price) /\
  ((forall price, server url <> order.GetAnswered 200 (Some price)) ->
   exists msg, r = ethclient.Err msg).
Proof.
  cbv zeta. unfold order.CreatePaymentOrder, order.GetProductPrice.
  destruct (server _) as [|code [price|]].
  - split; [discriminate|]. split; [discriminate|]. eauto.
  - destruct (Z.eqb_spec code 200) as [->|Hcode]; cbn [negb].
    + split; [|split].
      * intros o [= <-]. cbn. repeat split; reflexivity.
      * intros price' [= <-]. eexists. split; reflexivity.
      * intros Hno. now destruct (Hno price).
    + split; [discriminate|]. split; [|eauto].
      intros price' [= ? ?]. contradiction.
  - destruct (negb _); (split; [discriminate|]); (split; [discriminate|]); eauto.
Qed.

(** Product 42 ordered from the sample collector. *)
Lemma CreatePaymentOrder_outcomes_witness :
  exists o,
    order.CreatePaymentOrder sample.codec sample.collector shop.server
      "20250101120000" 1735732800 "42" "0xbuyer" = ethclient.Ok o /\
    order.PriceYen o = 1200.
Proof.
  destruct (CreatePaymentOrder_outcomes sample.codec sample.collector shop.server
              "20250101120000" 1735732800 "42" "0xbuyer") as (_ & Hok & _).
  exact (Hok 1200 eq_refl).
Defined.
